(** * The OpenAI-compatible chat adapter of gemini-cli, embedded in Rocq

  The development follows two revisions of the adapter class
  [OpenAICompatibleClient] that the repository carries:

  - [FetchClient]: packages/core/src/core/openaiCompatibleClient.ts, the
    revision that talks to the backend with [fetch] and decodes the
    server-sent event stream itself;
  - [SdkClient]: the revision built on the OpenAI library (second document of
    packages/core/src/config/models.ts), which translates tool calls.

  A JavaScript string is held as the Rocq [string] of its UTF-8
  encoding, so the texts covered are those without unpaired surrogates.
  [JS.length] counts UTF-16 code units as JavaScript does, [JS.trim]
  knows the white space outside ASCII by its encoding, and substring
  search on the encoding agrees with substring search on the text. *)

From Stdlib Require Import String Ascii List Bool Arith ZArith QArith Lia.
From Stdlib Require Import Qround DecimalString.
Import ListNotations.

Open Scope nat_scope.
Open Scope list_scope.
Open Scope string_scope.

(** ** JavaScript string primitives used by the adapter *)

Module JS.

(** [x || d] on strings: the empty string is falsy. *)
Definition or_else (x d : string) : string :=
  if (x =? "")%string then d else x.

(** [x || ''] where [x] may be [undefined] or [null]. *)
Definition or_empty (x : option string) : string :=
  match x with
  | Some s => s
  | None => ""
  end.

(** [s.startsWith(p)] *)
Fixpoint startsWith (p s : string) : bool :=
  match p, s with
  | EmptyString, _ => true
  | String _ _, EmptyString => false
  | String a p', String b s' => Ascii.eqb a b && startsWith p' s'
  end.

(** [s.includes(p)] *)
Fixpoint includes (p s : string) : bool :=
  startsWith p s ||
  match s with
  | EmptyString => false
  | String _ s' => includes p s'
  end.

(** [s.endsWith(p)], through the positions where [p] can start. *)
Fixpoint endsWith (p s : string) : bool :=
  (s =? p)%string ||
  match s with
  | EmptyString => false
  | String _ s' => endsWith p s'
  end.

(** [s.slice(n)] for [n >= 0]. *)
Fixpoint slice (n : nat) (s : string) : string :=
  match n, s with
  | O, _ => s
  | S _, EmptyString => ""
  | S k, String _ s' => slice k s'
  end.

(** [s.split(sep)] for a non-empty separator.  [skip] counts the
    characters of a separator occurrence still to be passed over and
    [cur] is the segment being collected. *)
Fixpoint split_go (sep : string) (skip : nat) (cur s : string) : list string :=
  match s with
  | EmptyString => [cur]
  | String c s' =>
      match skip with
      | S k => split_go sep k cur s'
      | O =>
          if startsWith sep s
          then cur :: split_go sep (String.length sep - 1) "" s'
          else split_go sep 0 (cur ++ String c "") s'
      end
  end.

Definition split (sep s : string) : list string := split_go sep 0 "" s.

(** [a[i]] on an array of strings; [undefined] is read as [None]. *)
Definition at_index (i : nat) (a : list string) : option string := nth_error a i.

(** [a.join(sep)] *)
Fixpoint join (sep : string) (a : list string) : string :=
  match a with
  | [] => ""
  | [x] => x
  | x :: rest => x ++ sep ++ join sep rest
  end.

(** The UTF-16 code units one byte of the encoding accounts for: a
    continuation byte none, the first byte of a four-byte sequence two (a
    surrogate pair), every other byte one. *)
Definition units (c : ascii) : nat :=
  let n := nat_of_ascii c in
  if (n <? 128)%nat then 1
  else if (n <? 192)%nat then 0
  else if (n <? 240)%nat then 1
  else 2.

(** [s.length] *)
Fixpoint length (s : string) : nat :=
  match s with
  | EmptyString => 0
  | String c s' => units c + length s'
  end.

(** The white space and the line terminators that [trim] removes, by
    their encoding.  One byte: tab, line feed, vertical tab, form feed,
    carriage return and space. *)
Definition is_space (c : ascii) : bool :=
  let n := nat_of_ascii c in
  ((9 <=? n)%nat && (n <=? 13)%nat) || (n =? 32)%nat.

(** Two bytes: the no-break space U+00A0. *)
Definition is_space2 (c1 c2 : ascii) : bool :=
  (nat_of_ascii c1 =? 194)%nat && (nat_of_ascii c2 =? 160)%nat.

(** Three bytes: U+1680, U+2000 to U+200A, the line and paragraph
    separators U+2028 and U+2029, U+202F, U+205F, U+3000 and U+FEFF. *)
Definition is_space3 (c1 c2 c3 : ascii) : bool :=
  let n1 := nat_of_ascii c1 in
  let n2 := nat_of_ascii c2 in
  let n3 := nat_of_ascii c3 in
  ((n1 =? 225)%nat && (n2 =? 154)%nat && (n3 =? 128)%nat)
  || ((n1 =? 226)%nat && (n2 =? 128)%nat
      && (((128 <=? n3)%nat && (n3 <=? 138)%nat)
          || (n3 =? 168)%nat || (n3 =? 169)%nat || (n3 =? 175)%nat))
  || ((n1 =? 226)%nat && (n2 =? 129)%nat && (n3 =? 159)%nat)
  || ((n1 =? 227)%nat && (n2 =? 128)%nat && (n3 =? 128)%nat)
  || ((n1 =? 239)%nat && (n2 =? 187)%nat && (n3 =? 191)%nat).

Fixpoint trimStart (s : string) : string :=
  match s with
  | EmptyString => ""
  | String c1 s1 =>
      if is_space c1 then trimStart s1
      else
        match s1 with
        | EmptyString => s
        | String c2 s2 =>
            if is_space2 c1 c2 then trimStart s2
            else
              match s2 with
              | EmptyString => s
              | String c3 s3 => if is_space3 c1 c2 c3 then trimStart s3 else s
              end
        end
  end.

(** The longest suffix made of white space is the first one, from the
    left, that [trimStart] removes whole. *)
Fixpoint trimEnd (s : string) : string :=
  match s with
  | EmptyString => ""
  | String c s' => if (trimStart s =? "")%string then "" else String c (trimEnd s')
  end.

Definition trim (s : string) : string := trimEnd (trimStart s).

(** The text before and after the first occurrence of [pat], if any. *)
Fixpoint cut_go (pat : string) (acc s : string) : option (string * string) :=
  if startsWith pat s then Some (acc, slice (String.length pat) s)
  else match s with
       | EmptyString => None
       | String c s' => cut_go pat (acc ++ String c "") s'
       end.

Definition cut (pat s : string) : option (string * string) := cut_go pat "" s.

(** [s.replace(pat, '')] with a string pattern: the first occurrence
    only. *)
Definition remove_first (pat s : string) : string :=
  match cut pat s with
  | Some (before, after) => before ++ after
  | None => s
  end.

(** [s.match(/open(.*?)close/s)]: the leftmost [open] and the nearest
    [close] after it; the result is the captured group and the whole
    match. *)
Definition match_lazy (open close s : string) : option (string * string) :=
  match cut open s with
  | None => None
  | Some (_, rest) =>
      match cut close rest with
      | None => None
      | Some (inner, _) => Some (inner, open ++ inner ++ close)
      end
  end.

Definition newline : string := String "010" "".

(** The separators of the adapter start with a character that does not
    come back in them: an occurrence cannot overlap another one. *)
Definition head_unique (sep : string) : bool :=
  match sep with
  | EmptyString => false
  | String h t => negb (includes (String h "") t)
  end.

End JS.

(** ** The canonical (Gemini-style) data model *)

Set Warnings "-register-all".

(** A JSON value, as [JSON.parse] returns it and as tool arguments carry
    it.  Numbers are kept as their literal text. *)
Inductive Json : Type :=
  | JNull
  | JBool (b : bool)
  | JNumber (literal : string)
  | JString (s : string)
  | JArray (items : list Json)
  | JObject (fields : list (string * Json)).

(** The empty object [{}]. *)
Definition empty_object : Json := JObject [].

Record FunctionCall : Type := mkFunctionCall {
  fc_name : string;
  fc_args : Json
}.

(** A part of a message.  [PText] is [{ text }], [PThinking] is
    [{ text, type: 'thinking' }]; both carry the key [text]. *)
Inductive Part : Type :=
  | PText (text : string)
  | PThinking (text : string)
  | PFunctionCall (call : FunctionCall)
  | PFunctionResponse (response : Json)
  | POther.

(** ['text' in part], with the text when the key is there. *)
Definition part_text (p : Part) : option string :=
  match p with
  | PText t | PThinking t => Some t
  | _ => None
  end.

(** A [Content] object; [role] is [None] when the key is absent. *)
Record Content : Type := mkContent {
  role : option string;
  parts : list Part
}.

(** One element of [request.contents] once it is an array: a plain
    string, a [Content], or a bare [Part]. *)
Inductive ContentItem : Type :=
  | ItemString (s : string)
  | ItemContent (c : Content)
  | ItemPart (p : Part).

Record ThinkingConfig : Type := mkThinkingConfig {
  includeThoughts : bool
}.

Record GenerateContentConfig : Type := mkConfig {
  temperature : option Q;
  maxOutputTokens : option Z;
  thinkingConfig : option ThinkingConfig
}.

Record GenerateContentParameters : Type := mkParameters {
  contents : list ContentItem;
  config : option GenerateContentConfig
}.

Inductive FinishReason : Type := STOP | OTHER.

Record UsageMetadata : Type := mkUsageMetadata {
  promptTokenCount : Z;
  candidatesTokenCount : Z;
  totalTokenCount : Z
}.

Record Candidate : Type := mkCandidate {
  cand_parts : list Part;
  cand_role : string;
  finishReason : FinishReason;
  index : nat
}.

Record GenerateContentResponse : Type := mkResponse {
  candidates : list Candidate;
  functionCalls : option (list FunctionCall);
  usageMetadata : option UsageMetadata
}.

(** ** Configuration (packages/core/src/config/models.ts) *)

Inductive ModelProvider : Type := GEMINI | DOUBAO | OPENAI | ANTHROPIC.

Definition provider_name (p : ModelProvider) : string :=
  match p with
  | GEMINI => "gemini"
  | DOUBAO => "doubao"
  | OPENAI => "openai"
  | ANTHROPIC => "anthropic"
  end.

Record ModelConfig : Type := mkModelConfig {
  provider : ModelProvider;
  model : string;
  apiKey : string;
  baseUrl : option string;
  thinkSupport : bool;
  embeddingModel : option string
}.

(** ** The wire (OpenAI-style) data model and the HTTP exchange *)

Record OpenAIMessage : Type := mkMessage {
  msg_role : string;
  msg_content : string
}.

Record Usage : Type := mkUsage {
  prompt_tokens : Z;
  completion_tokens : Z;
  total_tokens : Z
}.

(** What [fetch] is given: the method, the headers and the body before
    [JSON.stringify]. *)
Record FetchInit (B : Type) : Type := mkFetchInit {
  method : string;
  headers : list (string * string);
  body : B
}.
Arguments mkFetchInit {B}.
Arguments method {B}.
Arguments headers {B}.
Arguments body {B}.

(** What [fetch] resolves to; [payload] is the decoded body. *)
Record Response (D : Type) : Type := mkHttpResponse {
  ok : bool;
  status : nat;
  statusText : string;
  payload : D
}.
Arguments mkHttpResponse {D}.
Arguments ok {D}.
Arguments status {D}.
Arguments statusText {D}.
Arguments payload {D}.

(** An asynchronous method as the tree of its effects: it returns, it
    throws an [Error] with a message, or it awaits one [fetch] and goes
    on with the response. *)
Inductive Async (B D A : Type) : Type :=
  | Return (a : A)
  | Throw (message : string)
  | Fetch (url : string) (init : FetchInit B) (k : Response D -> Async B D A).
Arguments Return {B D A}.
Arguments Throw {B D A}.
Arguments Fetch {B D A}.

(** The number of [fetch] calls on the path an exchange takes. *)
Fixpoint fetches {B D A} (responses : list (Response D)) (m : Async B D A)
    {struct m} : nat :=
  match m with
  | Return _ | Throw _ => 0
  | Fetch _ _ k =>
      match responses with
      | [] => 1
      | r :: rest => S (fetches rest (k r))
      end
  end.

Definition string_of_nat (n : nat) : string :=
  NilZero.string_of_uint (Nat.to_uint n).

(** [`HTTP ${response.status}: ${response.statusText}`] *)
Definition http_error {D} (r : Response D) : string :=
  "HTTP " ++ string_of_nat (status r) ++ ": " ++ statusText r.

Definition json_headers (c : ModelConfig) : list (string * string) :=
  [("Content-Type", "application/json");
   ("Authorization", "Bearer " ++ apiKey c)].

(** ** The fetch-based client (packages/core/src/core/openaiCompatibleClient.ts) *)

Module FetchClient.

(** *** Request side *)

(** [content.role === 'model' ? 'assistant' : content.role] *)
Definition wire_role (r : string) : string :=
  if (r =? "model")%string then "assistant" else r.

(** The text of a [Content]: its parts that carry [text], joined by
    line feeds. *)
Definition content_text (c : Content) : string :=
  JS.join JS.newline
    (flat_map (fun p => match part_text p with Some t => [t] | None => [] end)
              (parts c)).

(** One turn of the loop that fills [messages]: strings and bare parts
    are passed over, and so is a content whose text is empty. *)
Definition to_message (item : ContentItem) : list OpenAIMessage :=
  match item with
  | ItemString _ => []
  | ItemPart _ => []
  | ItemContent c =>
      match role c with
      | None => []
      | Some r =>
          let text := content_text c in
          if (text =? "")%string then []
          else [mkMessage (wire_role r) text]
      end
  end.

Definition to_messages (items : list ContentItem) : list OpenAIMessage :=
  flat_map to_message items.

(** The endpoint: [chat/completions] is appended unless the base URL
    has it already. *)
Definition api_url (c : ModelConfig) : string :=
  let apiUrl := JS.or_empty (baseUrl c) in
  if JS.includes "chat/completions" apiUrl then apiUrl
  else if JS.endsWith "/" apiUrl then apiUrl ++ "chat/completions"
       else apiUrl ++ "/chat/completions".

(** [hasThinkingConfig && thinkingConfig?.includeThoughts], as a truth
    value. *)
Definition include_thoughts (request : GenerateContentParameters) : bool :=
  match config request with
  | None => false
  | Some cfg =>
      match thinkingConfig cfg with
      | None => false
      | Some tc => includeThoughts tc
      end
  end.

(** [request.config?.temperature || 0.7]: absent and zero both give the
    default. *)
Definition temperature_or_default (request : GenerateContentParameters) : Q :=
  match config request with
  | None => 7 # 10
  | Some cfg =>
      match temperature cfg with
      | None => 7 # 10
      | Some t => if Qeq_bool t 0 then 7 # 10 else t
      end
  end.

(** [request.config?.maxOutputTokens || 2048] *)
Definition max_tokens_or_default (request : GenerateContentParameters) : Z :=
  match config request with
  | None => 2048%Z
  | Some cfg =>
      match maxOutputTokens cfg with
      | None => 2048%Z
      | Some n => if (n =? 0)%Z then 2048%Z else n
      end
  end.

Record RequestBody : Type := mkRequestBody {
  rb_model : string;
  rb_messages : list OpenAIMessage;
  rb_temperature : Q;
  rb_max_tokens : Z;
  rb_stream : bool;
  rb_include_reasoning : bool
}.

(** The request body of [generateContent] ([stream] false) and of
    [generateContentStream] ([stream] true). *)
Definition request_body (c : ModelConfig) (request : GenerateContentParameters)
    (stream : bool) : RequestBody :=
  mkRequestBody
    (model c)
    (to_messages (contents request))
    (temperature_or_default request)
    (max_tokens_or_default request)
    stream
    (include_thoughts request && JS.includes "thinking" (model c)).

(** *** Response side *)

(** The message of a choice.  [tool_calls] is a key the interface does
    not declare: a backend sends it with the calls the model asks for,
    the parsed object then has it, and the client never reads it. *)
Record Message : Type := mkWireMessage {
  content : option string;
  tool_calls : option (list Json)
}.

Record Choice : Type := mkChoice {
  message : option Message;
  finish_reason : option string
}.

Record OpenAIResponse : Type := mkOpenAIResponse {
  choices : list Choice;
  usage : option Usage
}.

(** [data.choices[0]?.message?.content || ''] *)
Definition first_content (data : OpenAIResponse) : string :=
  match choices data with
  | [] => ""
  | ch :: _ =>
      match message ch with
      | None => ""
      | Some m => JS.or_empty (content m)
      end
  end.

(** [data.choices[0]?.finish_reason] *)
Definition first_finish_reason (data : OpenAIResponse) : option string :=
  match choices data with
  | [] => None
  | ch :: _ => finish_reason ch
  end.

(** The delimiter pairs of [thinkingPatterns], in their order. *)
Definition thinkingPatterns : list (string * string) :=
  [("<thinking>", "</thinking>");
   ("**思考过程**", "**回答**");
   ("【思考】", "【回答】")].

(** The loop over the patterns: the first one that matches gives the
    thinking text and the remaining answer, both trimmed. *)
Fixpoint extract_thinking (patterns : list (string * string)) (responseText : string)
    : string * string :=
  match patterns with
  | [] => ("", responseText)
  | (open, close) :: rest =>
      match JS.match_lazy open close responseText with
      | Some (inner, whole) =>
          (JS.trim inner, JS.trim (JS.remove_first whole responseText))
      | None => extract_thinking rest responseText
      end
  end.

Definition map_finish_reason (r : option string) : FinishReason :=
  match r with
  | Some s => if (s =? "stop")%string then STOP else OTHER
  | None => OTHER
  end.

Definition map_usage (u : Usage) : UsageMetadata :=
  mkUsageMetadata (prompt_tokens u) (completion_tokens u) (total_tokens u).

(** From [const data = await response.json()] to the returned value. *)
Definition from_response (includeThoughts : bool) (data : OpenAIResponse)
    : GenerateContentResponse :=
  let responseText0 := first_content data in
  let '(thinkingContent, responseText) :=
    if includeThoughts && negb (responseText0 =? "")%string
    then extract_thinking thinkingPatterns responseText0
    else ("", responseText0) in
  let parts1 := if (thinkingContent =? "")%string then [] else [PThinking thinkingContent] in
  let parts2 := if (responseText =? "")%string then [] else [PText responseText] in
  let parts := (parts1 ++ parts2)%list in
  mkResponse
    [mkCandidate
       (match parts with [] => [PText responseText] | _ => parts end)
       "model"
       (map_finish_reason (first_finish_reason data))
       0]
    None
    (option_map map_usage (usage data)).

Definition generateContent (c : ModelConfig) (request : GenerateContentParameters)
    : Async RequestBody OpenAIResponse GenerateContentResponse :=
  Fetch (api_url c)
        (mkFetchInit "POST" (json_headers c) (request_body c request false))
        (fun response =>
           if ok response
           then Return (from_response (include_thoughts request) (payload response))
           else Throw (http_error response)).

(** *** The stream decoder and the streaming thinking extractor *)

(** A decoded [data:] payload, as far as the decoder reads it:
    [choices?.[0]?.delta?.content]. *)
Record Delta : Type := mkDelta {
  delta_content : option string
}.

Record ChunkChoice : Type := mkChunkChoice {
  delta : option Delta
}.

Record StreamChunk : Type := mkStreamChunk {
  chunk_choices : option (list ChunkChoice)
}.

(** [parsed.choices?.[0]?.delta?.content || ''] *)
Definition chunk_content (parsed : StreamChunk) : string :=
  match chunk_choices parsed with
  | Some (ch :: _) =>
      match delta ch with
      | Some d => JS.or_empty (delta_content d)
      | None => ""
      end
  | _ => ""
  end.

Inductive Channel : Type := main | thinking.

Definition createStreamResponse (text : string) (type : Channel)
    : GenerateContentResponse :=
  mkResponse
    [mkCandidate
       [match type with thinking => PThinking text | main => PText text end]
       "model" STOP 0]
    None None.

(** The variables of [createStreamGenerator] that outlive one line. *)
Record StreamState : Type := mkState {
  isInThinking : bool;
  thinkingContent : string;
  mainContent : string
}.

Definition initial_state : StreamState := mkState false "" "".

(** What the generator does that a consumer or an operator can see: a
    yielded partial response, or the diagnostic of the [catch] block
    with the payload that could not be decoded.  The [console.log] traces
    of the normal path are left out. *)
Inductive Event : Type :=
  | Yield (r : GenerateContentResponse)
  | ParseError (data : string).

Definition yields (events : list Event) : list GenerateContentResponse :=
  flat_map (fun e => match e with Yield r => [r] | ParseError _ => [] end) events.

Definition truthy (s : string) : bool := negb (s =? "")%string.

(** The body of [if (content) { ... }] (lines 306-351): what one
    non-empty text fragment does to the state and what it yields. *)
Definition handle_content (includeThoughts : bool) (st : StreamState)
    (content : string) : StreamState * list Event :=
  if includeThoughts && JS.includes "<thinking>" content then
    let parts := JS.split "<thinking>" content in
    let p0 := JS.or_empty (JS.at_index 0 parts) in
    let p1 := JS.or_empty (JS.at_index 1 parts) in
    (mkState true
             (if truthy p1 then thinkingContent st ++ p1 else thinkingContent st)
             (if truthy p0 then mainContent st ++ p0 else mainContent st),
     if truthy p0 then [Yield (createStreamResponse p0 main)] else [])
  else if includeThoughts && JS.includes "</thinking>" content then
    let parts := JS.split "</thinking>" content in
    let p0 := JS.or_empty (JS.at_index 0 parts) in
    let p1 := JS.or_empty (JS.at_index 1 parts) in
    let tc := if truthy p0 then thinkingContent st ++ p0 else thinkingContent st in
    (mkState false
             ""
             (if truthy p1 then mainContent st ++ p1 else mainContent st),
     ((if truthy tc then [Yield (createStreamResponse tc thinking)] else [])
      ++ (if truthy p1 then [Yield (createStreamResponse p1 main)] else []))%list)
  else if isInThinking st then
    (mkState true (thinkingContent st ++ content) (mainContent st),
     [Yield (createStreamResponse content thinking)])
  else
    (mkState false (thinkingContent st) (mainContent st ++ content),
     [Yield (createStreamResponse content main)]).

Section Decoder.

(** [JSON.parse] on a payload, read at the type of a stream record;
    [None] when it throws, or when the value is [null], on which the
    first field access throws into the same [catch]. *)
Variable JSON_parse : string -> option StreamChunk.

Variable includeThoughts : bool.

(** How one turn of [for (const line of lines)] ends. *)
Inductive Flow : Type :=
  | Next (st : StreamState)
  | Finished.

Definition handle_line (st : StreamState) (line : string) : Flow * list Event :=
  if (JS.trim line =? "")%string then (Next st, [])
  else if JS.startsWith "data: " line then
    let data := JS.slice 6 line in
    if (data =? "[DONE]")%string then (Finished, [])
    else
      match JSON_parse data with
      | None => (Next st, [ParseError data])
      | Some parsed =>
          let content := chunk_content parsed in
          if truthy content
          then let '(st', evs) := handle_content includeThoughts st content in
               (Next st', evs)
          else (Next st, [])
      end
  else (Next st, []).

Fixpoint handle_lines (st : StreamState) (lines : list string) : Flow * list Event :=
  match lines with
  | [] => (Next st, [])
  | line :: rest =>
      match handle_line st line with
      | (Finished, evs) => (Finished, evs)
      | (Next st', evs) =>
          let '(flow, evs') := handle_lines st' rest in
          (flow, (evs ++ evs')%list)
      end
  end.

(** The [while (true)] loop over the reads of the body, each read
    already decoded to text.  The list ends where [reader.read()]
    reports [done]. *)
Fixpoint read_loop (st : StreamState) (buffer : string) (reads : list string)
    : list Event :=
  match reads with
  | [] => []
  | value :: rest =>
      let lines := JS.split JS.newline (buffer ++ value) in
      let buffer' := last lines "" in
      match handle_lines st (removelast lines) with
      | (Finished, evs) => evs
      | (Next st', evs) => (evs ++ read_loop st' buffer' rest)%list
      end
  end.

(** The generator run to its end.  [None] for the body is a response
    without a reader. *)
Definition createStreamGenerator (body : option (list string))
    : list Event + string :=
  match body with
  | None => inr "No response body reader available"
  | Some reads => inl (read_loop initial_state "" reads)
  end.

(** The fragments fed to the extractor one after the other. *)
Fixpoint run_contents (st : StreamState) (fragments : list string)
    : StreamState * list Event :=
  match fragments with
  | [] => (st, [])
  | content :: rest =>
      let '(st', evs) := handle_content includeThoughts st content in
      let '(st'', evs') := run_contents st' rest in
      (st'', (evs ++ evs')%list)
  end.

End Decoder.

(** [generateContentStream]: the request is sent with [stream] set, and
    the generator is made with the [includeThoughts] of the request. *)
Definition generateContentStream (JSON_parse : string -> option StreamChunk)
    (c : ModelConfig) (request : GenerateContentParameters)
    : Async RequestBody (option (list string)) (list Event + string) :=
  Fetch (api_url c)
        (mkFetchInit "POST" (json_headers c) (request_body c request true))
        (fun response =>
           if ok response
           then Return (createStreamGenerator JSON_parse (include_thoughts request)
                          (payload response))
           else Throw (http_error response)).

(** *** Token estimate and embeddings *)

(** The texts that [countTokens] joins: every part with a [text] key of
    every element that is an object with a [parts] key. *)
Definition counted_texts (items : list ContentItem) : list string :=
  flat_map
    (fun item =>
       match item with
       | ItemContent c =>
           flat_map (fun p => match part_text p with Some t => [t] | None => [] end)
                    (parts c)
       | _ => []
       end)
    items.

Definition counted_text (items : list ContentItem) : string :=
  JS.join " " (counted_texts items).

(** [Math.ceil(n * 0.25)] *)
Definition ceil_quarter (n : nat) : Z :=
  Qceiling (inject_Z (Z.of_nat n) * (1 # 4)).

(** [countTokens]: there is no call to the backend in this revision. *)
Definition countTokens (items : list ContentItem) : Z :=
  ceil_quarter (JS.length (counted_text items)).

Record EmbeddingBody : Type := mkEmbeddingBody {
  eb_model : string;
  eb_input : list ContentItem
}.

Record OpenAIEmbeddingResponse : Type := mkEmbeddingResponse {
  data : list (list Q)
}.

(** [`Embedding model not configured for provider: ${provider}`] *)
Definition not_configured (c : ModelConfig) : string :=
  "Embedding model not configured for provider: " ++ provider_name (provider c).

Definition embedContent (c : ModelConfig) (items : list ContentItem)
    : Async EmbeddingBody OpenAIEmbeddingResponse (list (list Q)) :=
  match embeddingModel c with
  | None => Throw (not_configured c)
  | Some m =>
      if (m =? "")%string then Throw (not_configured c)
      else
        Fetch (match baseUrl c with Some u => u | None => "undefined" end ++ "/embeddings")
              (mkFetchInit "POST" (json_headers c) (mkEmbeddingBody m items))
              (fun response =>
                 if ok response
                 then Return (data (payload response))
                 else Throw (http_error response))
  end.

End FetchClient.

(** ** The client built on the OpenAI library
     (second document of packages/core/src/config/models.ts) *)

Module SdkClient.

Record ToolCallFunction : Type := mkToolCallFunction {
  name : string;
  arguments : string
}.

Record ToolCall : Type := mkToolCall {
  id : string;
  function : ToolCallFunction
}.

Record Message : Type := mkWireMessage {
  content : option string;
  reasoning_content : option string;
  tool_calls : option (list ToolCall)
}.

Record Choice : Type := mkChoice {
  message : Message;
  finish_reason : string
}.

Record ChatCompletion : Type := mkChatCompletion {
  choices : list Choice;
  usage : option Usage
}.

Section Translation.

(** [JSON.parse]; [None] when it throws. *)
Variable JSON_parse : string -> option Json.

Definition safeParseJSON (jsonString : string) : Json :=
  match JSON_parse jsonString with
  | Some v => v
  | None => empty_object
  end.

Definition thinkingPatterns : list (string * string) :=
  [("<thinking>", "</thinking>");
   ("**思考过程**", "**回答**");
   ("【思考】", "【回答】")].

(** The loop over the delimiter pairs in [extractReasoningContent]. *)
Fixpoint extract_thinking (patterns : list (string * string)) (mainContent : string)
    : string * string :=
  match patterns with
  | [] => (mainContent, "")
  | (open, close) :: rest =>
      match JS.match_lazy open close mainContent with
      | Some (inner, whole) =>
          (JS.trim (JS.remove_first whole mainContent), JS.trim inner)
      | None => extract_thinking rest mainContent
      end
  end.

(** The result is the pair [(content, reasoning)]. *)
Definition extractReasoningContent (choice : Choice) : string * string :=
  let mainContent := JS.or_empty (content (message choice)) in
  let reasoningContent := JS.or_empty (reasoning_content (message choice)) in
  if negb (reasoningContent =? "")%string then (mainContent, reasoningContent)
  else if negb (mainContent =? "")%string
       then extract_thinking thinkingPatterns mainContent
       else (mainContent, "").

(** [toolCall.function.arguments || '{}'], parsed. *)
Definition call_of (toolCall : ToolCall) : FunctionCall :=
  mkFunctionCall
    (name (function toolCall))
    (safeParseJSON (JS.or_else (arguments (function toolCall)) "{}")).

Definition map_usage (u : Usage) : UsageMetadata :=
  mkUsageMetadata (prompt_tokens u) (completion_tokens u) (total_tokens u).

(** [generateContent] from [const choice = response.choices[0]] on;
    the right side is the message of the [Error] thrown. *)
Definition from_response (response : ChatCompletion)
    : GenerateContentResponse + string :=
  match choices response with
  | [] => inr "No choices returned from API"
  | choice :: _ =>
      match tool_calls (message choice) with
      | Some (tc :: tcs) =>
          let calls := tc :: tcs in
          inl (mkResponse
                 [mkCandidate
                    (map (fun toolCall => PFunctionCall (call_of toolCall)) calls)
                    "model" STOP 0]
                 (Some (map call_of calls))
                 (option_map map_usage (usage response)))
      | _ =>
          let '(responseText, thinkingContent) := extractReasoningContent choice in
          let parts1 :=
            if (thinkingContent =? "")%string then [] else [PThinking thinkingContent] in
          let parts2 :=
            if (responseText =? "")%string then [] else [PText responseText] in
          let parts := (parts1 ++ parts2)%list in
          inl (mkResponse
                 [mkCandidate
                    (match parts with [] => [PText responseText] | _ => parts end)
                    "model"
                    (if (finish_reason choice =? "stop")%string then STOP else OTHER)
                    0]
                 None
                 (option_map map_usage (usage response)))
      end
  end.

End Translation.

(** The [catch] branch of [countTokens]: the characters of the plain
    strings and of the non-empty text parts of contents with a role. *)
Definition total_chars (items : list ContentItem) : nat :=
  list_sum
    (map
       (fun item =>
          match item with
          | ItemString s => JS.length s
          | ItemContent c =>
              match role c with
              | None => 0
              | Some _ =>
                  list_sum
                    (map (fun p => match part_text p with
                                   | Some t => JS.length t
                                   | None => 0
                                   end)
                         (parts c))
              end
          | ItemPart _ => 0
          end)
       items).

(** [Math.ceil(totalChars / 4)] *)
Definition ceil_div4 (n : nat) : Z :=
  Qceiling (inject_Z (Z.of_nat n) / 4).

(** [response.usage?.prompt_tokens || 0] *)
Definition prompt_tokens_of (response : ChatCompletion) : Z :=
  match usage response with
  | Some u => prompt_tokens u
  | None => 0%Z
  end.

(** [countTokens]; [reply] is what the minimal call to the backend
    resolved to, [None] when it failed. *)
Definition countTokens (items : list ContentItem) (reply : option ChatCompletion) : Z :=
  match reply with
  | Some response => prompt_tokens_of response
  | None => ceil_div4 (total_chars items)
  end.

End SdkClient.

(** ** The streaming thinking extractor on whole streams *)

Module ThinkingStream.

Import JS FetchClient.

(** The texts a list of events carries on one channel, in order. *)
Definition channel_texts (ch : Channel) (events : list Event) : list string :=
  flat_map
    (fun r =>
       flat_map
         (fun c =>
            flat_map
              (fun p =>
                 match ch, p with
                 | main, PText t => [t]
                 | thinking, PThinking t => [t]
                 | _, _ => []
                 end)
              (cand_parts c))
         (candidates r))
    (yields events).

Definition main_text (events : list Event) : string :=
  String.concat "" (channel_texts main events).

(** A stream described by what each fragment holds: plain text, or one
    delimiter with the text on its two sides. *)
Inductive Fragment : Type :=
  | Plain (s : string)
  | Opening (before after : string)
  | Closing (before after : string).

Definition render (f : Fragment) : string :=
  match f with
  | Plain s => s
  | Opening a b => a ++ "<thinking>" ++ b
  | Closing a b => a ++ "</thinking>" ++ b
  end.

Definition opens (s : string) : bool := includes "<thinking>" s.
Definition closes (s : string) : bool := includes "</thinking>" s.

(** The fragment holds no delimiter beside the one it is built around,
    and a plain fragment is not empty. *)
Definition fragment_ok (f : Fragment) : bool :=
  match f with
  | Plain s => truthy s && negb (opens s) && negb (closes s)
  | Opening a b => negb (opens a) && negb (opens b) && negb (closes (render f))
  | Closing a b => negb (closes a) && negb (closes b) && negb (opens (render f))
  end.

(** Delimiters alternate: an opening one only outside a span, a closing
    one only inside. *)
Fixpoint well_bracketed (inside : bool) (fs : list Fragment) : bool :=
  match fs with
  | [] => true
  | Plain _ :: rest => well_bracketed inside rest
  | Opening _ _ :: rest => negb inside && well_bracketed true rest
  | Closing _ _ :: rest => inside && well_bracketed false rest
  end.

Definition well_formed (inside : bool) (fs : list Fragment) : bool :=
  forallb fragment_ok fs && well_bracketed inside fs.

(** The answer with the thinking spans taken out, piece by piece. *)
Fixpoint answer_pieces (inside : bool) (fs : list Fragment) : list string :=
  match fs with
  | [] => []
  | Plain s :: rest =>
      if inside then answer_pieces inside rest else s :: answer_pieces inside rest
  | Opening a _ :: rest =>
      if truthy a then a :: answer_pieces true rest else answer_pieces true rest
  | Closing _ b :: rest =>
      if truthy b then b :: answer_pieces false rest else answer_pieces false rest
  end.

Fixpoint answer_text (inside : bool) (fs : list Fragment) : string :=
  match fs with
  | [] => ""
  | Plain s :: rest => (if inside then "" else s) ++ answer_text inside rest
  | Opening a _ :: rest => a ++ answer_text true rest
  | Closing _ b :: rest => b ++ answer_text false rest
  end.

(** The thinking channel of a described stream: inside a span every
    plain fragment as it comes, and at the closing delimiter the whole
    interior of the span, [interior] being what has been collected of
    it so far. *)
Fixpoint thinking_pieces (inside : bool) (interior : string) (fs : list Fragment)
    : list string :=
  match fs with
  | [] => []
  | Plain s :: rest =>
      if inside then s :: thinking_pieces inside (interior ++ s) rest
      else thinking_pieces inside interior rest
  | Opening _ b :: rest => thinking_pieces true (interior ++ b) rest
  | Closing a _ :: rest =>
      if truthy (interior ++ a)
      then (interior ++ a) :: thinking_pieces false "" rest
      else thinking_pieces false "" rest
  end.

(** What a fragment yields while a span is open and is not closed: a
    fragment without opening delimiter goes to the thinking channel as it
    is; of a fragment with an opening delimiter only the text before the
    first one is yielded, on the main channel, when it is not empty. *)
Definition open_span_yields (s : string) : list GenerateContentResponse :=
  match cut "<thinking>" s with
  | Some (before, _) =>
      if truthy before then [createStreamResponse before main] else []
  | None => [createStreamResponse s thinking]
  end.

End ThinkingStream.

(** ** The event stream as text *)

Module EventStream.

Import JS FetchClient.

(** All the text the reads deliver, whatever the boundaries between
    them. *)
Definition received (reads : list string) : string :=
  fold_right String.append "" reads.

(** The lines of a text that are closed by a line feed. *)
Definition complete_lines (text : string) : list string :=
  removelast (split newline text).

Definition line_free (s : string) : Prop := includes newline s = false.

(** A text made of the given lines, each closed by a line feed. *)
Definition records (lines : list string) : string :=
  fold_right (fun l acc => l ++ newline ++ acc) "" lines.

Definition data_record (payload : string) : string := "data: " ++ payload.

(** The payload is one line, is not the end sentinel, and decodes to a
    record whose delta text is the non-empty fragment [f]. *)
Definition decodes (JSON_parse : string -> option StreamChunk) (payload f : string)
    : Prop :=
  line_free payload
  /\ payload <> "[DONE]"
  /\ option_map chunk_content (JSON_parse payload) = Some f
  /\ truthy f = true.

(** How a stream stops: the body ends, after the last line feed or
    inside a last line, or the end sentinel comes, with anything after
    it. *)
Definition stream_end (ending : string) : Prop :=
  line_free ending \/ exists rest, ending = data_record "[DONE]" ++ newline ++ rest.

(** A line that delivers no text: it is blank after trimming, or it does
    not start with [data: ], or it is a record, other than the end
    sentinel, whose payload does not decode or decodes to a record
    without delta text. *)
Definition silent (JSON_parse : string -> option StreamChunk) (line : string) : Prop :=
  line_free line
  /\ (trim line = ""
      \/ startsWith "data: " line = false
      \/ exists payload,
           line = data_record payload
           /\ payload <> "[DONE]"
           /\ (JSON_parse payload = None
               \/ option_map chunk_content (JSON_parse payload) = Some "")).

(** The lines of a stream before its end and the fragments of text they
    deliver, in order: every line is silent, or is a record that decodes
    to the next fragment.  Every line other than the end sentinel is one
    or the other. *)
Inductive delivers (JSON_parse : string -> option StreamChunk)
    : list string -> list string -> Prop :=
  | delivers_nil : delivers JSON_parse [] []
  | delivers_silent (line : string) (lines fragments : list string) :
      silent JSON_parse line ->
      delivers JSON_parse lines fragments ->
      delivers JSON_parse (line :: lines) fragments
  | delivers_record (payload f : string) (lines fragments : list string) :
      decodes JSON_parse payload f ->
      delivers JSON_parse lines fragments ->
      delivers JSON_parse (data_record payload :: lines) (f :: fragments).

Definition quote : string := String "034" "".

Definition chunk_prefix : string :=
  "{" ++ quote ++ "choices" ++ quote ++ ":[{" ++ quote ++ "delta" ++ quote
  ++ ":{" ++ quote ++ "content" ++ quote ++ ":" ++ quote.

Definition chunk_suffix : string := quote ++ "}}]}".

(** The payload a backend sends for one fragment of text that needs no
    escape: a [choices] array with one [delta] holding the text as its
    [content]. *)
Definition chunk_json (text : string) : string :=
  chunk_prefix ++ text ++ chunk_suffix.

(** A text that stands for itself between the quotes of a JSON string:
    it holds no quote, no backslash and no control character. *)
Fixpoint unescaped (text : string) : bool :=
  match text with
  | EmptyString => true
  | String c rest =>
      let n := nat_of_ascii c in
      (32 <=? n)%nat && negb (n =? 34)%nat && negb (n =? 92)%nat && unescaped rest
  end.

(** A decoder for the concrete streams below.  It reads the payloads
    that [chunk_json] writes for a text that needs no escape, and rejects
    every other text; on the payloads it reads, and on texts that are not
    JSON, it agrees with [JSON.parse]. *)
Definition parse_chunk (payload : string) : option StreamChunk :=
  if startsWith chunk_prefix payload then
    match cut chunk_suffix (slice (String.length chunk_prefix) payload) with
    | Some (text, EmptyString) =>
        if unescaped text
        then Some (mkStreamChunk (Some [mkChunkChoice (Some (mkDelta (Some text)))]))
        else None
    | _ => None
    end
  else None.

End EventStream.

(** ** Reference notions for translation, estimates and tool arguments *)

(** The body of the first request an exchange sends, if it sends one. *)
Definition sent_body {B D A} (m : Async B D A) : option B :=
  match m with
  | Fetch _ init _ => Some (body init)
  | _ => None
  end.

Module RoundTrip.

Import JS FetchClient.

(** A wire message read back as the message of a response, and the
    content [generateContent] makes of it. *)
Definition back (includeThoughts : bool) (m : OpenAIMessage) : list Content :=
  map (fun c => mkContent (Some (cand_role c)) (cand_parts c))
      (candidates
         (from_response includeThoughts
            (mkOpenAIResponse
               [mkChoice (Some (mkWireMessage (Some (msg_content m)) None)) (Some "stop")]
               None))).

(** Canonical messages to wire messages and back. *)
Definition round_trip (includeThoughts : bool) (cs : list Content) : list Content :=
  flat_map (back includeThoughts) (to_messages (map ItemContent cs)).

(** Every part of the message is a plain text part. *)
Definition text_only (c : Content) : bool :=
  forallb (fun p => match p with PText _ => true | _ => false end) (parts c).

(** None of the delimiter pairs is found in the text. *)
Definition no_markup (text : string) : bool :=
  forallb
    (fun pat => match match_lazy (fst pat) (snd pat) text with
                | None => true
                | Some _ => false
                end)
    thinkingPatterns.

End RoundTrip.

Module Estimate.

Import JS FetchClient.

(** The characters of the text parts that [countTokens] reads, without
    what joins them. *)
Definition text_chars (items : list ContentItem) : nat :=
  list_sum (map JS.length (counted_texts items)).

End Estimate.

Module ToolArguments.

(** A decoder for the concrete tool calls below: it reads the empty
    object and rejects every other text.  On [{}], on the empty text and
    on texts that are not JSON it agrees with [JSON.parse]. *)
Definition parse_object (text : string) : option Json :=
  if (text =? "{}")%string then Some empty_object else None.

End ToolArguments.

(** ** The shape of a streamed partial response *)

Module StreamShape.

Import FetchClient.

(** The event, when it is a yield, is a response of one candidate that
    holds one part with a non-empty text. *)
Definition one_text_part (e : Event) : Prop :=
  match e with
  | Yield r =>
      exists t p,
        t <> "" /\ part_text p = Some t
        /\ r = mkResponse [mkCandidate [p] "model" STOP 0] None None
  | ParseError _ => True
  end.

End StreamShape.

(** ** Running an exchange *)

(** How a method ends once the backend has answered: with a value, with
    an [Error], or still awaiting a response that did not come. *)
Inductive Outcome (A : Type) : Type :=
  | Returned (a : A)
  | Threw (message : string)
  | Awaiting.
Arguments Returned {A}.
Arguments Threw {A}.
Arguments Awaiting {A}.

(** The exchange run against the responses the backend gives, in
    order. *)
Fixpoint run {B D A} (responses : list (Response D)) (m : Async B D A)
    {struct m} : Outcome A :=
  match m with
  | Return a => Returned a
  | Throw message => Threw message
  | Fetch _ _ k =>
      match responses with
      | [] => Awaiting
      | r :: rest => run rest (k r)
      end
  end.

(** The requests an exchange sends against the same responses: the URL
    and the method of each. *)
Fixpoint requests {B D A} (responses : list (Response D)) (m : Async B D A)
    {struct m} : list (string * string) :=
  match m with
  | Return _ | Throw _ => []
  | Fetch url init k =>
      (url, method init) ::
      match responses with
      | [] => []
      | r :: rest => requests rest (k r)
      end
  end.

(** ** Configuration from the environment
       (first document of packages/core/src/config/models.ts) *)

Module Models.

(** [process.env]: each variable is absent or holds a text. *)
Definition Env : Type := string -> option string.

(** An environment given by the variables that are set; the first entry
    of a name counts. *)
Fixpoint env_of (vars : list (string * string)) : Env :=
  fun key =>
    match vars with
    | [] => None
    | (k, v) :: rest => if (k =? key)%string then Some v else env_of rest key
    end.

(** [x || y] where [x] and [y] are a text or [undefined]. *)
Definition or_opt (x y : option string) : option string :=
  match x with
  | Some v => if (v =? "")%string then y else Some v
  | None => y
  end.

(** [getEnvVar(key, fallback)]: [process.env[key] || fallback]. *)
Definition getEnvVar (env : Env) (key : string) (fallback : option string)
    : option string :=
  or_opt (env key) fallback.

Definition DEFAULT_GEMINI_MODEL : string := "gemini-2.5-pro".
Definition DEFAULT_GEMINI_FLASH_MODEL : string := "gemini-2.5-flash".
Definition DEFAULT_GEMINI_EMBEDDING_MODEL : string := "gemini-embedding-001".
Definition DEFAULT_DOUBAO_MODEL : string := "doubao-pro-4k".
Definition DEFAULT_DOUBAO_EMBEDDING_MODEL : string := "doubao-embedding-001".
Definition DEFAULT_OPENAI_MODEL : string := "gpt-4o".
Definition DEFAULT_OPENAI_EMBEDDING_MODEL : string := "text-embedding-3-small".

Record ProviderConfig : Type := mkProviderConfig {
  defaultModel : string;
  defaultBaseUrl : option string;
  thinkSupportedModels : list string;
  pc_embeddingModel : string
}.

Definition PROVIDER_CONFIGS (p : ModelProvider) : ProviderConfig :=
  match p with
  | GEMINI =>
      mkProviderConfig DEFAULT_GEMINI_MODEL None
        ["gemini-2.5-pro"; "gemini-2.5-flash"] DEFAULT_GEMINI_EMBEDDING_MODEL
  | DOUBAO =>
      mkProviderConfig DEFAULT_DOUBAO_MODEL
        (Some "https://ark.cn-beijing.volces.com/api/v3")
        ["Doubao-Seed-1.6-thinking"; "Doubao-Seed-1.6"] DEFAULT_DOUBAO_EMBEDDING_MODEL
  | OPENAI =>
      mkProviderConfig DEFAULT_OPENAI_MODEL (Some "https://api.openai.com/v1")
        ["o1-preview"; "o1-mini"] DEFAULT_OPENAI_EMBEDDING_MODEL
  | ANTHROPIC =>
      mkProviderConfig "claude-3-5-sonnet-20241022" (Some "https://api.anthropic.com")
        [] ""
  end.

(** The provider whose enum value is the given text. *)
Definition provider_of_name (name : string) : option ModelProvider :=
  if (name =? "gemini")%string then Some GEMINI
  else if (name =? "doubao")%string then Some DOUBAO
  else if (name =? "openai")%string then Some OPENAI
  else if (name =? "anthropic")%string then Some ANTHROPIC
  else None.

(** The names every object inherits from [Object.prototype]: indexing
    [PROVIDER_CONFIGS] with one of them finds that member, which is
    truthy and has none of the fields of a [ProviderConfig]. *)
Definition object_prototype_keys : list string :=
  ["constructor"; "__defineGetter__"; "__defineSetter__"; "hasOwnProperty";
   "__lookupGetter__"; "__lookupSetter__"; "isPrototypeOf";
   "propertyIsEnumerable"; "toString"; "valueOf"; "__proto__"; "toLocaleString"].

(** [PROVIDER_CONFIGS[provider]] *)
Inductive Lookup : Type :=
  | Own (p : ModelProvider)
  | Inherited
  | Missing.

Definition lookup_provider (name : string) : Lookup :=
  match provider_of_name name with
  | Some p => Own p
  | None =>
      if existsb (String.eqb name) object_prototype_keys then Inherited else Missing
  end.

(** [list.includes(model)] on an array of texts. *)
Definition array_includes (model : string) (list : list string) : bool :=
  existsb (String.eqb model) list.

(** The object [getModelConfig] returns for an inherited member when the
    think switch is on.  Its provider is the name that was looked up,
    which is none of the enum; [thinkSupport] is [true]; and the model,
    the base URL and the embedding model, for which an inherited member
    has no default, are [undefined] unless the environment sets them. *)
Record ForeignConfig : Type := mkForeignConfig {
  f_provider : string;
  f_model : option string;
  f_apiKey : string;
  f_baseUrl : option string;
  f_embeddingModel : option string
}.

(** How [getModelConfig] ends: with a configuration of one of the four
    providers; with the error [Unsupported model provider]; with the
    [TypeError] of reading [thinkSupportedModels.includes] on an
    inherited member; or, for an inherited member when the think switch
    is on, with a foreign object. *)
Inductive ConfigResult : Type :=
  | Config (c : ModelConfig)
  | UnsupportedProvider (message : string)
  | TypeError
  | Foreign (f : ForeignConfig).

(** The name under which the provider is looked up. *)
Definition provider_name_of (env : Env) : string :=
  JS.or_empty (or_opt (getEnvVar env "AI_PROVIDER" None) (Some "gemini")).

(** The API key: the first of the four variables that is set and not
    empty, else the empty text. *)
Definition api_key_of (env : Env) : string :=
  JS.or_empty
    (or_opt (getEnvVar env "AI_API_KEY" None)
       (or_opt (getEnvVar env "GEMINI_API_KEY" None)
          (or_opt (getEnvVar env "OPENAI_API_KEY" None)
             (or_opt (getEnvVar env "ANTHROPIC_API_KEY" None) (Some ""))))).

(** [getEnvVar('AI_THINK_SUPPORT') === text] *)
Definition think_switch_is (env : Env) (text : string) : bool :=
  match getEnvVar env "AI_THINK_SUPPORT" None with
  | Some v => (v =? text)%string
  | None => false
  end.

Definition getModelConfig (env : Env) : ConfigResult :=
  let name := provider_name_of env in
  match lookup_provider name with
  | Missing => UnsupportedProvider ("Unsupported model provider: " ++ name)
  | Inherited =>
      if think_switch_is env "true"
      then Foreign
             (mkForeignConfig name
                (or_opt (getEnvVar env "AI_MODEL" None)
                   (or_opt (getEnvVar env "GEMINI_MODEL" None) None))
                (api_key_of env)
                (getEnvVar env "AI_BASE_URL" None)
                (or_opt (getEnvVar env "AI_EMBEDDING_MODEL" None) None))
      else TypeError
  | Own p =>
      let providerConfig := PROVIDER_CONFIGS p in
      let model :=
        JS.or_empty
          (or_opt (getEnvVar env "AI_MODEL" None)
             (or_opt (getEnvVar env "GEMINI_MODEL" None)
                (Some (defaultModel providerConfig)))) in
      Config
        (mkModelConfig p model (api_key_of env)
           (getEnvVar env "AI_BASE_URL" (defaultBaseUrl providerConfig))
           (think_switch_is env "true"
            || array_includes model (thinkSupportedModels providerConfig))
           (or_opt (getEnvVar env "AI_EMBEDDING_MODEL" None)
              (Some (pc_embeddingModel providerConfig))))
  end.

(** How [isThinkingSupported] ends: with an answer, or with what
    [getModelConfig] threw. *)
Inductive Thinking : Type :=
  | Supported (answer : bool)
  | Throws (failure : ConfigResult).

(** The answer once the provider is known. *)
Definition thinking_of (env : Env) (model : string) (p : ModelProvider) : bool :=
  if think_switch_is env "true" then true
  else if think_switch_is env "false" then false
  else array_includes model (thinkSupportedModels (PROVIDER_CONFIGS p))
       || (match p with GEMINI => true | _ => false end
           && JS.startsWith "gemini-2.5" model).

(** [isThinkingSupported(model, provider?)]: without a provider the one
    of [getModelConfig()] is taken.  A foreign configuration only comes
    with the think switch on, and then the answer is [true] before the
    provider is looked at. *)
Definition isThinkingSupported (env : Env) (model : string)
    (given : option ModelProvider) : Thinking :=
  match given with
  | Some p => Supported (thinking_of env model p)
  | None =>
      match getModelConfig env with
      | Config c => Supported (thinking_of env model (provider c))
      | Foreign _ => Supported true
      | failure => Throws failure
      end
  end.

End Models.

(** ** Choosing the content generator
       (packages/core/src/core/contentGenerator.ts) *)

Module ContentGenerator.

Import Models.

Inductive AuthType : Type :=
  | LOGIN_WITH_GOOGLE
  | USE_GEMINI
  | USE_VERTEX_AI
  | CLOUD_SHELL.

Definition auth_type_name (a : AuthType) : string :=
  match a with
  | LOGIN_WITH_GOOGLE => "oauth-personal"
  | USE_GEMINI => "gemini-api-key"
  | USE_VERTEX_AI => "vertex-ai"
  | CLOUD_SHELL => "cloud-shell"
  end.

(** The keys that are absent are [None]. *)
Record ContentGeneratorConfig : Type := mkGeneratorConfig {
  cg_model : string;
  cg_apiKey : option string;
  vertexai : option bool;
  authType : option AuthType;
  cg_baseUrl : option string;
  cg_provider : option ModelProvider
}.

(** [authType === LOGIN_WITH_GOOGLE || authType === CLOUD_SHELL] *)
Definition google_login (a : option AuthType) : bool :=
  match a with
  | Some LOGIN_WITH_GOOGLE | Some CLOUD_SHELL => true
  | _ => false
  end.

(** A text or [undefined] as a truth value. *)
Definition is_set (x : option string) : bool :=
  match x with
  | Some v => negb (v =? "")%string
  | None => false
  end.

(** How [createContentGeneratorConfig] ends: with a configuration; with
    the rejection of [getEffectiveModel] in the fallback; or with a
    configuration whose provider is not one of the enum. *)
Inductive ConfigOutcome : Type :=
  | Built (cfg : ContentGeneratorConfig)
  | Rejected
  | ForeignBuilt.

Section WithModelCheck.

(** [getEffectiveModel(apiKey, model)] of core/modelCheck.js, which is
    not among the sources: the model to use, or [None] when the promise
    is rejected.  The argument [model] of the function is [requested]
    below. *)
Variable getEffectiveModel : string -> string -> option string.

(** The Gemini steps that the [try] block and the [catch] block share:
    from the configuration made so far and the keys found, the
    configuration returned, or [None] when [getEffectiveModel] is
    rejected. *)
Definition gemini_steps (env : Env) (cfg : ContentGeneratorConfig)
    (geminiApiKey googleApiKey : option string) : option ContentGeneratorConfig :=
  let a := authType cfg in
  if google_login a then Some cfg
  else
    match a, is_set geminiApiKey with
    | Some USE_GEMINI, true =>
        let key := JS.or_empty geminiApiKey in
        match getEffectiveModel key (cg_model cfg) with
        | Some m =>
            Some (mkGeneratorConfig m (Some key) (Some false) a
                    (cg_baseUrl cfg) (cg_provider cfg))
        | None => None
        end
    | _, _ =>
        match a with
        | Some USE_VERTEX_AI =>
            if is_set googleApiKey
               || (is_set (env "GOOGLE_CLOUD_PROJECT")
                   && is_set (env "GOOGLE_CLOUD_LOCATION"))
            then Some (mkGeneratorConfig (cg_model cfg) googleApiKey (Some true) a
                         (cg_baseUrl cfg) (cg_provider cfg))
            else Some cfg
        | _ => Some cfg
        end
    end.

(** The [catch] block: the configuration falls back to Gemini. *)
Definition fallback (env : Env) (requested : option string) (a : option AuthType)
    : ConfigOutcome :=
  let effectiveModel := JS.or_empty (or_opt requested (Some DEFAULT_GEMINI_MODEL)) in
  let cfg := mkGeneratorConfig effectiveModel None None a None (Some GEMINI) in
  match gemini_steps env cfg
          (or_opt (env "GEMINI_API_KEY") None)
          (or_opt (env "GOOGLE_API_KEY") None) with
  | Some cfg' => Built cfg'
  | None => Rejected
  end.

Definition createContentGeneratorConfig (env : Env) (requested : option string)
    (a : option AuthType) : ConfigOutcome :=
  match getModelConfig env with
  | Config modelConfig =>
      let effectiveModel :=
        JS.or_empty
          (or_opt requested
             (or_opt (Some (model modelConfig)) (Some DEFAULT_GEMINI_MODEL))) in
      let cfg :=
        mkGeneratorConfig effectiveModel None None a
          (baseUrl modelConfig) (Some (provider modelConfig)) in
      match provider modelConfig with
      | GEMINI =>
          match gemini_steps env cfg
                  (or_opt (env "GEMINI_API_KEY") (Some (apiKey modelConfig)))
                  (env "GOOGLE_API_KEY") with
          | Some cfg' => Built cfg'
          | None => fallback env requested a
          end
      | _ =>
          if (apiKey modelConfig =? "")%string then fallback env requested a
          else Built (mkGeneratorConfig effectiveModel (Some (apiKey modelConfig)) None a
                        (baseUrl modelConfig) (Some (provider modelConfig)))
      end
  | Foreign f =>
      if (f_apiKey f =? "")%string then fallback env requested a else ForeignBuilt
  | UnsupportedProvider _ | TypeError => fallback env requested a
  end.

End WithModelCheck.

(** What [createContentGenerator] returns: the Code Assist generator of
    the Google login, the models of [GoogleGenAI] with the key and the
    Vertex switch, or the OpenAI-compatible client made of the
    configuration of the environment.  The [User-Agent] header is left
    out. *)
Inductive Generator : Type :=
  | CodeAssist (a : AuthType)
  | GoogleGenAI (key : option string) (vertex : option bool)
  | OpenAICompatible (c : ModelConfig).

(** How [createContentGenerator] ends: with a generator; with the error
    [Unsupported authType]; with what [getModelConfig] threw; or with a
    client made of a foreign configuration. *)
Inductive GeneratorOutcome : Type :=
  | Made (g : Generator)
  | UnsupportedAuthType (message : string)
  | ConfigFailed (failure : ConfigResult)
  | ForeignClient.

Definition createContentGenerator (env : Env) (config : ContentGeneratorConfig)
    : GeneratorOutcome :=
  match authType config with
  | Some LOGIN_WITH_GOOGLE => Made (CodeAssist LOGIN_WITH_GOOGLE)
  | Some CLOUD_SHELL => Made (CodeAssist CLOUD_SHELL)
  | a =>
      match cg_provider config with
      | None | Some GEMINI =>
          match a with
          | Some USE_GEMINI | Some USE_VERTEX_AI =>
              Made (GoogleGenAI
                      (match cg_apiKey config with
                       | Some k => if (k =? "")%string then None else Some k
                       | None => None
                       end)
                      (vertexai config))
          | _ =>
              UnsupportedAuthType
                ("Error creating contentGenerator: Unsupported authType: "
                 ++ match a with
                    | Some t => auth_type_name t
                    | None => "undefined"
                    end)
          end
      | Some _ =>
          match getModelConfig env with
          | Config modelConfig => Made (OpenAICompatible modelConfig)
          | Foreign _ => ForeignClient
          | failure => ConfigFailed failure
          end
      end
  end.

End ContentGenerator.

(** ** Validating the auth method (packages/cli/src/config/auth.ts) *)

Module Auth.

Import Models ContentGenerator.

(** Whether the first block of [validateAuthMethod] returns: both
    [AI_PROVIDER] and [AI_API_KEY] are set and the configuration names a
    provider other than gemini.  An error of [getModelConfig] is caught
    and the block is left. *)
Definition other_provider_configured (env : Env) : bool :=
  if is_set (env "AI_PROVIDER") && is_set (env "AI_API_KEY") then
    match getModelConfig env with
    | Config modelConfig =>
        match provider modelConfig with
        | GEMINI => false
        | _ => true
        end
    | Foreign _ => true
    | UnsupportedProvider _ | TypeError => false
    end
  else false.

(** [validateAuthMethod(authMethod)], on the environment as
    [loadEnvironment()] leaves it: [None] is [null], the method is
    accepted; otherwise the message. *)
Definition validateAuthMethod (env : Env) (authMethod : string) : option string :=
  if other_provider_configured env then None
  else if (authMethod =? auth_type_name LOGIN_WITH_GOOGLE)%string
          || (authMethod =? auth_type_name CLOUD_SHELL)%string then None
  else if (authMethod =? auth_type_name USE_GEMINI)%string then
    if is_set (or_opt (env "AI_API_KEY") (env "GEMINI_API_KEY")) then None
    else Some "API Key not found. Set AI_API_KEY or GEMINI_API_KEY environment variable and try again (no reload needed if using .env)!"
  else if (authMethod =? auth_type_name USE_VERTEX_AI)%string then
    if negb (is_set (env "GOOGLE_CLOUD_PROJECT") && is_set (env "GOOGLE_CLOUD_LOCATION"))
       && negb (is_set (env "GOOGLE_API_KEY"))
    then Some ("When using Vertex AI, you must specify either:" ++ JS.newline
               ++ "• GOOGLE_CLOUD_PROJECT and GOOGLE_CLOUD_LOCATION environment variables."
               ++ JS.newline
               ++ "• GOOGLE_API_KEY environment variable (if using express mode)."
               ++ JS.newline
               ++ "Update your environment and try again (no reload needed if using .env)!")
    else None
  else Some "Invalid auth method selected.".

End Auth.

(** ** The request of the client built on the OpenAI library
       (second document of packages/core/src/config/models.ts) *)

Module SdkRequest.

Import JS.

Record FunctionDeclaration : Type := mkDeclaration {
  fd_name : option string;
  fd_description : option string;
  fd_parameters : option Json
}.

(** A tool set; [functionDeclarations] is [None] when the key is absent
    or the value is falsy. *)
Record Tool : Type := mkTool {
  functionDeclarations : option (list FunctionDeclaration)
}.

(** A request: the parameters as before, and [config.tools], which is
    read only when the request has a [config]. *)
Record Request : Type := mkRequest {
  parameters : GenerateContentParameters;
  tools : option (list Tool)
}.

(** [request.config?.tools] *)
Definition config_tools (request : Request) : list Tool :=
  match config (parameters request), tools request with
  | Some _, Some ts => ts
  | _, _ => []
  end.

(** A message of the chat request: an assistant message with [content]
    null and one tool call; a tool message; or a message with a role and
    a text. *)
Inductive ChatMessage : Type :=
  | ToolCallMessage (id name arguments : string)
  | ToolMessage (content tool_call_id : string)
  | TextMessage (role content : string).

Record WireTool : Type := mkWireTool {
  wt_name : string;
  wt_description : string;
  wt_parameters : Json
}.

Record RequestOptions : Type := mkRequestOptions {
  ro_model : string;
  ro_messages : list ChatMessage;
  ro_temperature : Q;
  ro_max_tokens : Z;
  ro_stream : bool;
  ro_tools : option (list WireTool);
  ro_tool_choice : option string;
  ro_response_format : option string;
  ro_include_reasoning : bool
}.

Definition quote : string := String "034" "".

(** The system text of the standard format. *)
Definition standard_prompt (toolDescriptions : string) : string :=

  "You are an assistant with access to tools. When the user asks you to perform actions that require tool usage, you MUST respond with a tool call using the following format:"
  ++ newline ++ newline ++ "Available tools:" ++ newline ++ toolDescriptions
  ++ newline ++ newline
  ++ "CRITICAL: When you need to execute commands or perform file operations, you MUST use the tools. Do NOT explain what you would do - actually call the tool."
  ++ newline ++ newline ++ "Example: If user says " ++ quote ++ "run npm build" ++ quote
  ++ ", you should call run_shell_command with {" ++ quote ++ "command" ++ quote ++ ": "
  ++ quote ++ "npm run build" ++ quote ++ "}.".

(** The system text of the Doubao format. *)
Definition doubao_prompt (toolDescriptions : string) : string :=
  "你是一个能够调用工具的AI助手。当用户需要执行命令或操作文件时，你必须调用相应的工具。" ++ newline ++ newline ++ "可用工具："
  ++ newline ++ toolDescriptions ++ newline ++ newline ++ "重要规则：" ++ newline
  ++ "1. 当用户说" ++ quote ++ "执行" ++ quote ++ "、" ++ quote ++ "运行" ++ quote ++ "、" ++ quote
  ++ "帮我执行" ++ quote ++ "等词时，必须调用工具" ++ newline ++ "2. 不要解释你要做什么，直接调用工具" ++ newline
  ++ "3. 例如：用户说" ++ quote ++ "帮我执行npm run build" ++ quote ++ "，你应该立即调用run_shell_command工具"
  ++ newline ++ "4. 使用JSON格式返回工具调用" ++ newline ++ newline ++ "示例：" ++ newline
  ++ "用户：" ++ quote ++ "帮我执行npm run build" ++ quote ++ newline
  ++ "你的回复：直接调用run_shell_command工具，参数{" ++ quote ++ "command" ++ quote ++ ": " ++ quote
  ++ "npm run build" ++ quote ++ "}".

(** [func.name || ''], [func.description || ''], [func.parameters || {}] *)
Definition declaration_to_wire (func : FunctionDeclaration) : WireTool :=
  mkWireTool
    (or_empty (Models.or_opt (fd_name func) None))
    (or_empty (Models.or_opt (fd_description func) None))
    (match fd_parameters func with
     | Some schema => schema
     | None => empty_object
     end).

(** The loop over [request.config.tools]: every declaration of every
    tool set that has declarations. *)
Definition tools_to_wire (ts : list Tool) : list WireTool :=
  flat_map
    (fun tool =>
       match functionDeclarations tool with
       | Some declarations => map declaration_to_wire declarations
       | None => []
       end)
    ts.

(** The test for Doubao: the base URL names the service and
    [AI_PROVIDER] is [doubao]. *)
Definition isDoubao (env : Models.Env) (c : ModelConfig) : bool :=
  match baseUrl c with
  | Some url =>
      (includes "volces.com" url
       || includes "volcengine" url
       || includes "ark.cn-beijing.volces.com" url)
      && match env "AI_PROVIDER" with
         | Some v => (v =? "doubao")%string
         | None => false
         end
  | None => false
  end.

Section WithRuntime.

(** [JSON.stringify] on a value. *)
Variable JSON_stringify : Json -> string.

(** [Date.now()]: the value of its k-th reading during the call. *)
Variable now : nat -> nat.

(** [`call_${Date.now()}`] at the k-th reading. *)
Definition call_id (k : nat) : string := "call_" ++ string_of_nat (now k).

(** One part of a content with the wire role [role]: the messages it
    adds and the readings of the clock it uses.  [args || {}]: an absent
    [args] is [JNull]. *)
Definition part_messages (role : string) (k : nat) (part : Part)
    : list ChatMessage * nat :=
  match part with
  | PFunctionCall call =>
      ([ToolCallMessage (call_id k) (fc_name call)
          (JSON_stringify
             (match fc_args call with JNull => empty_object | args => args end))],
       S k)
  | PFunctionResponse response =>
      ([ToolMessage (JSON_stringify response) (call_id k)], S k)
  | PText text | PThinking text =>
      (if (text =? "")%string then [] else [TextMessage role text], k)
  | POther => ([], k)
  end.

Fixpoint parts_messages (role : string) (k : nat) (ps : list Part)
    : list ChatMessage * nat :=
  match ps with
  | [] => ([], k)
  | part :: rest =>
      let '(ms, k') := part_messages role k part in
      let '(ms', k'') := parts_messages role k' rest in
      ((ms ++ ms')%list, k'')
  end.

(** The loop over the contents: strings, bare parts and contents without
    a role are passed over. *)
Fixpoint contents_messages (k : nat) (items : list ContentItem)
    : list ChatMessage * nat :=
  match items with
  | [] => ([], k)
  | item :: rest =>
      let '(ms, k') :=
        match item with
        | ItemContent c =>
            match role c with
            | Some r => parts_messages (FetchClient.wire_role r) k (parts c)
            | None => ([], k)
            end
        | _ => ([], k)
        end in
      let '(ms', k'') := contents_messages k' rest in
      ((ms ++ ms')%list, k'')
  end.

Definition to_messages (items : list ContentItem) : list ChatMessage :=
  fst (contents_messages 0 items).

(** The description of one tool in the system text. *)
Definition tool_description (tool : WireTool) : string :=
  wt_name tool ++ ": " ++ wt_description tool ++ newline
  ++ "Parameters: " ++ JSON_stringify (wt_parameters tool).

Definition tool_descriptions (ts : list WireTool) : string :=
  join (newline ++ newline) (map tool_description ts).

(** The options [generateContent] passes to
    [client.chat.completions.create]. *)
Definition request_options (env : Models.Env) (c : ModelConfig) (request : Request)
    : RequestOptions :=
  let messages := to_messages (contents (parameters request)) in
  let wire_tools := tools_to_wire (config_tools request) in
  let doubao := isDoubao env c in
  let has_tools := negb (Nat.eqb (List.length wire_tools) 0) in
  mkRequestOptions
    (model c)
    (if has_tools
     then TextMessage "system"
            (if doubao then doubao_prompt (tool_descriptions wire_tools)
             else standard_prompt (tool_descriptions wire_tools))
          :: messages
     else messages)
    (FetchClient.temperature_or_default (parameters request))
    (FetchClient.max_tokens_or_default (parameters request))
    false
    (if has_tools then Some wire_tools else None)
    (if has_tools then Some (if doubao then "required" else "auto") else None)
    (if has_tools && doubao then Some "json_object" else None)
    (FetchClient.include_thoughts (parameters request)
     && includes "thinking" (model c)).

End WithRuntime.

(** Whether a part is sent: a function call, a function response, or a
    text that is not empty. *)
Definition sendable (part : Part) : bool :=
  match part with
  | PFunctionCall _ | PFunctionResponse _ => true
  | PText text | PThinking text => negb (text =? "")%string
  | POther => false
  end.

(** The parts of a request that are sent: the sendable parts of the
    contents that have a role. *)
Definition sent_parts (items : list ContentItem) : list Part :=
  flat_map
    (fun item =>
       match item with
       | ItemContent c =>
           match role c with
           | Some _ => filter sendable (parts c)
           | None => []
           end
       | _ => []
       end)
    items.

(** A message with a text has a text that is not empty and a role other
    than [model]. *)
Definition text_message_ok (m : ChatMessage) : Prop :=
  match m with
  | TextMessage role content => content <> "" /\ role <> "model"
  | _ => True
  end.

End SdkRequest.

(** * Properties *)

(** ** The string primitives on concrete texts *)

Example split_two : JS.split "<thinking>" "Let me <thinking>rea" = ["Let me "; "rea"].
Proof. reflexivity. Qed.

Example split_trailing : JS.split "</thinking>" "son</thinking>" = ["son"; ""].
Proof. reflexivity. Qed.

Example split_three : JS.split "," "a,b,,c" = ["a"; "b"; ""; "c"].
Proof. reflexivity. Qed.

Example trim_both : JS.trim "  a b  " = "a b".
Proof. reflexivity. Qed.

(** The white space outside ASCII is trimmed too: an ideographic space
    U+3000 in front, a no-break space U+00A0 and a line separator U+2028
    behind. *)
Example trim_unicode :
  JS.trim (String "227" (String "128" (String "128" " ok"))
           ++ String "194" (String "160" "")
           ++ String "226" (String "128" (String "168" "")))
  = "ok".
Proof. reflexivity. Qed.

(** Lengths are counted in UTF-16 code units: one for each of these
    five characters of three bytes, two for a character outside the
    basic plane. *)
Example length_code_units :
  JS.length "你好，世界" = 5
  /\ JS.length (String "240" (String "159" (String "152" (String "128" "")))) = 2.
Proof. split; reflexivity. Qed.

Example count_tokens_code_units :
  FetchClient.countTokens
    [ItemContent (mkContent (Some "user") [PText "你好，世界"])] = 2%Z.
Proof. reflexivity. Qed.

Example match_lazy_first :
  JS.match_lazy "<thinking>" "</thinking>" "x<thinking>a</thinking>b</thinking>"
  = Some ("a", "<thinking>a</thinking>").
Proof. reflexivity. Qed.

(** ** Facts about the string primitives *)

Section StringFacts.

Import JS.

Lemma append_empty_r (s : string) : s ++ "" = s.
Proof. induction s as [|c s IH]; simpl; [reflexivity | now rewrite IH]. Qed.

Lemma append_assoc (a b c : string) : (a ++ b) ++ c = a ++ b ++ c.
Proof. induction a as [|x a IH]; simpl; [reflexivity | now rewrite IH]. Qed.

Lemma append_snoc (cur : string) (c : ascii) (s : string) :
  (cur ++ String c "") ++ s = cur ++ String c s.
Proof. now rewrite append_assoc. Qed.

Lemma startsWith_append (p s : string) : startsWith p (p ++ s) = true.
Proof.
  induction p as [|c p IH]; simpl; [reflexivity |].
  now rewrite Ascii.eqb_refl, IH.
Qed.

Lemma includes_cons_false (p : string) (c : ascii) (s : string) :
  includes p (String c s) = false ->
  startsWith p (String c s) = false /\ includes p s = false.
Proof. simpl includes. intros H. now apply orb_false_iff in H. Qed.

Lemma includes_false_startsWith (p s : string) :
  includes p s = false -> startsWith p s = false.
Proof.
  destruct s; simpl includes; intros H; apply orb_false_iff in H; tauto.
Qed.

Lemma startsWith_before (t a r : string) (h : ascii) :
  includes (String h "") t = false ->
  startsWith t (a ++ String h r) = true ->
  startsWith t a = true.
Proof.
  revert a. induction t as [|x t IH]; intros a Hh H; [reflexivity |].
  apply includes_cons_false in Hh. destruct Hh as [Hx Ht].
  destruct a as [|y a]; simpl in *.
  - rewrite Ascii.eqb_sym in Hx. destruct (Ascii.eqb x h); simpl in *; congruence.
  - destruct (Ascii.eqb x y); simpl in *; [now apply IH | discriminate].
Qed.

Lemma startsWith_no_overlap (sep a b : string) (c : ascii) :
  head_unique sep = true ->
  startsWith sep (String c a) = false ->
  startsWith sep (String c (a ++ sep ++ b)) = false.
Proof.
  destruct sep as [|h t]; [discriminate |]. simpl head_unique.
  intros Hu Hs. apply negb_true_iff in Hu. simpl in *.
  destruct (Ascii.eqb h c); simpl in *; [| reflexivity].
  destruct (startsWith t (a ++ String h (t ++ b))) eqn:E; [| reflexivity].
  apply startsWith_before in E; congruence.
Qed.

Lemma split_go_nonempty (sep : string) (s : string) :
  forall skip cur, split_go sep skip cur s <> [].
Proof.
  induction s as [|c s IH]; intros skip cur; simpl; [discriminate |].
  destruct skip; [| apply IH].
  destruct (startsWith sep (String c s)); [discriminate | apply IH].
Qed.

Lemma split_go_skip (sep t s cur : string) :
  split_go sep (String.length t) cur (t ++ s) = split_go sep 0 cur s.
Proof. induction t as [|c t IH]; simpl; [reflexivity | exact IH]. Qed.

(** A text without the separator is one segment. *)
Lemma split_go_free (sep s : string) :
  forall cur, includes sep s = false -> split_go sep 0 cur s = [cur ++ s].
Proof.
  induction s as [|c s IH]; intros cur H; simpl.
  - now rewrite append_empty_r.
  - apply includes_cons_false in H. destruct H as [H1 H2].
    rewrite H1, IH by assumption. now rewrite append_snoc.
Qed.

(** The first segment ends at the first occurrence of the separator. *)
Lemma split_go_first (sep a b : string) :
  head_unique sep = true ->
  forall cur, includes sep a = false ->
  split_go sep 0 cur (a ++ sep ++ b) = (cur ++ a) :: split_go sep 0 "" b.
Proof.
  intros Hu. induction a as [|c a IH]; intros cur H.
  - simpl append. rewrite append_empty_r.
    destruct sep as [|h t]; [discriminate |].
    change (String h t ++ b) with (String h (t ++ b)).
    unfold split_go at 1; fold split_go.
    change (String h (t ++ b)) with (String h t ++ b).
    rewrite startsWith_append.
    replace (String.length (String h t) - 1) with (String.length t)
      by (simpl String.length; lia).
    now rewrite split_go_skip.
  - apply includes_cons_false in H. destruct H as [H1 H2].
    change (String c a ++ sep ++ b) with (String c (a ++ sep ++ b)).
    unfold split_go at 1; fold split_go.
    rewrite (startsWith_no_overlap _ _ _ _ Hu H1).
    rewrite IH by assumption. now rewrite append_snoc.
Qed.

Lemma split_at_separator (sep a b : string) :
  head_unique sep = true ->
  includes sep a = false ->
  includes sep b = false ->
  split sep (a ++ sep ++ b) = [a; b].
Proof.
  intros Hu Ha Hb. unfold split.
  rewrite split_go_first by assumption.
  now rewrite split_go_free by assumption.
Qed.

Lemma includes_at_separator (sep a b : string) :
  includes sep (a ++ sep ++ b) = true.
Proof.
  induction a as [|c a IH].
  - simpl append. destruct (sep ++ b) eqn:E; simpl includes;
      rewrite <- E, startsWith_append; reflexivity.
  - change (String c a ++ sep ++ b) with (String c (a ++ sep ++ b)).
    simpl includes. rewrite IH. apply orb_true_r.
Qed.

(** A text that holds a separator is cut where the separator first
    occurs. *)
Lemma startsWith_extend (p x y : string) :
  startsWith p x = true -> startsWith p (x ++ y) = true.
Proof.
  revert x. induction p as [|c p IH]; intros x H; [reflexivity |].
  destruct x as [|d x]; [discriminate |].
  change (String d x ++ y) with (String d (x ++ y)).
  simpl in *. apply andb_true_iff in H. destruct H as [H1 H2].
  now rewrite H1, (IH _ H2).
Qed.

Lemma startsWith_split (p s : string) :
  startsWith p s = true -> s = p ++ slice (String.length p) s.
Proof.
  revert s. induction p as [|c p IH]; intros s H; [reflexivity |].
  destruct s as [|d s]; [discriminate |].
  simpl in H. apply andb_true_iff in H. destruct H as [H1 H2].
  apply Ascii.eqb_eq in H1. subst d.
  change (String c p ++ slice (String.length (String c p)) (String c s))
    with (String c (p ++ slice (String.length p) s)).
  now rewrite <- (IH _ H2).
Qed.

Lemma includes_decompose (sep s : string) :
  sep <> "" ->
  includes sep s = true ->
  exists a b, s = a ++ sep ++ b /\ includes sep a = false.
Proof.
  intros Hsep. induction s as [|c s IH]; intros H.
  - destruct sep; [congruence | discriminate].
  - simpl includes in H.
    destruct (startsWith sep (String c s)) eqn:E.
    + exists "", (slice (String.length sep) (String c s)). split.
      * now apply startsWith_split.
      * destruct sep; [congruence | reflexivity].
    + cbn [orb] in H. destruct (IH H) as (a & b & -> & Ha).
      exists (String c a), b. split; [reflexivity |].
      simpl includes. rewrite Ha, orb_false_r.
      destruct (startsWith sep (String c a)) eqn:E'; [| reflexivity].
      apply (startsWith_extend _ _ (sep ++ b)) in E'.
      change (String c a ++ sep ++ b) with (String c (a ++ sep ++ b)) in E'.
      congruence.
Qed.

Lemma cut_go_unfold (pat acc s : string) :
  cut_go pat acc s =
    if startsWith pat s then Some (acc, slice (String.length pat) s)
    else match s with
         | EmptyString => None
         | String c s' => cut_go pat (acc ++ String c "") s'
         end.
Proof. destruct s; reflexivity. Qed.

Lemma slice_append (p b : string) : slice (String.length p) (p ++ b) = b.
Proof. induction p as [|c p IH]; [now destruct b | exact IH]. Qed.

Lemma startsWith_longer (x y s : string) :
  startsWith (x ++ y) s = true -> startsWith x s = true.
Proof.
  revert s. induction x as [|c x IH]; intros s H; [now destruct s |].
  destruct s as [|d s]; simpl in *; [discriminate |].
  apply andb_true_iff in H. destruct H as [H1 H2].
  now rewrite H1, (IH _ H2).
Qed.

(** The first occurrence of a pattern that begins with a delimiter is
    where the delimiter first occurs. *)
Lemma cut_go_first (open tail a b : string) :
  head_unique open = true ->
  forall acc,
    includes open a = false ->
    cut_go (open ++ tail) acc (a ++ (open ++ tail) ++ b) = Some (acc ++ a, b).
Proof.
  intros Hu. induction a as [|c a IH]; intros acc H.
  - change ("" ++ (open ++ tail) ++ b) with ((open ++ tail) ++ b).
    rewrite cut_go_unfold, startsWith_append, slice_append.
    now rewrite append_empty_r.
  - apply includes_cons_false in H. destruct H as [H1 H2].
    change (String c a ++ (open ++ tail) ++ b) with (String c (a ++ (open ++ tail) ++ b)).
    rewrite cut_go_unfold.
    destruct (startsWith (open ++ tail) (String c (a ++ (open ++ tail) ++ b))) eqn:E.
    + apply startsWith_longer in E.
      rewrite append_assoc in E.
      now rewrite (startsWith_no_overlap _ _ _ _ Hu H1) in E.
    + rewrite IH by assumption. now rewrite append_snoc.
Qed.

Lemma cut_first (sep a b : string) :
  head_unique sep = true ->
  includes sep a = false ->
  cut sep (a ++ sep ++ b) = Some (a, b).
Proof.
  intros Hu H. unfold cut.
  pose proof (cut_go_first sep "" a b Hu "" H) as Hc.
  now rewrite !append_empty_r in Hc.
Qed.

Lemma cut_go_none (pat s : string) :
  forall acc, includes pat s = false -> cut_go pat acc s = None.
Proof.
  induction s as [|c s IH]; intros acc H.
  - rewrite cut_go_unfold. now rewrite (includes_false_startsWith _ _ H).
  - rewrite cut_go_unfold.
    apply includes_cons_false in H. destruct H as [H1 H2].
    rewrite H1. now apply IH.
Qed.

End StringFacts.

(** ** The streaming thinking extractor, fragment by fragment *)

Section ExtractorFacts.

Import JS FetchClient ThinkingStream.

Lemma truthy_append_keep (x y : string) :
  (if truthy y then x ++ y else x) = x ++ y.
Proof. destruct y; simpl; [now rewrite append_empty_r | reflexivity]. Qed.

Lemma handle_content_plain (st : StreamState) (s : string) :
  opens s = false -> closes s = false ->
  handle_content true st s =
    if isInThinking st
    then (mkState true (thinkingContent st ++ s) (mainContent st),
          [Yield (createStreamResponse s thinking)])
    else (mkState false (thinkingContent st) (mainContent st ++ s),
          [Yield (createStreamResponse s main)]).
Proof.
  unfold opens, closes, handle_content. intros -> ->. reflexivity.
Qed.

Lemma handle_content_opening (st : StreamState) (a b : string) :
  opens a = false -> opens b = false ->
  handle_content true st (a ++ "<thinking>" ++ b) =
    (mkState true (thinkingContent st ++ b) (mainContent st ++ a),
     if truthy a then [Yield (createStreamResponse a main)] else []).
Proof.
  unfold opens, handle_content. intros Ha Hb.
  rewrite includes_at_separator, split_at_separator by (assumption || reflexivity).
  cbn [andb at_index nth_error or_empty].
  now rewrite !truthy_append_keep.
Qed.

(** A fragment that holds an opening delimiter opens a span whatever
    else it holds and whatever the state: only the text before the
    delimiter is yielded. *)
Lemma handle_content_opens (st : StreamState) (s : string) :
  opens s = true ->
  isInThinking (fst (handle_content true st s)) = true
  /\ yields (snd (handle_content true st s)) = open_span_yields s.
Proof.
  intros H.
  destruct (includes_decompose "<thinking>" s ltac:(discriminate) H) as (a & b & -> & Ha).
  unfold open_span_yields. rewrite (cut_first "<thinking>" a b eq_refl Ha).
  unfold handle_content. unfold opens in H. rewrite H. cbn [andb].
  unfold split. rewrite (split_go_first "<thinking>" a b eq_refl "" Ha).
  cbn [append at_index nth_error or_empty fst snd isInThinking].
  split; [reflexivity |]. now destruct (truthy a).
Qed.

(** Inside a span a fragment without delimiter is yielded on the
    thinking channel and the span stays open. *)
Lemma handle_content_inside (st : StreamState) (s : string) :
  isInThinking st = true ->
  opens s = false -> closes s = false ->
  isInThinking (fst (handle_content true st s)) = true
  /\ yields (snd (handle_content true st s)) = open_span_yields s.
Proof.
  intros Hin Ho Hc. rewrite handle_content_plain, Hin by assumption.
  unfold open_span_yields, cut. rewrite (cut_go_none _ _ "" Ho).
  split; reflexivity.
Qed.

Lemma handle_content_closing (st : StreamState) (a b : string) :
  opens (a ++ "</thinking>" ++ b) = false ->
  closes a = false -> closes b = false ->
  handle_content true st (a ++ "</thinking>" ++ b) =
    (mkState false "" (mainContent st ++ b),
     ((if truthy (thinkingContent st ++ a)
       then [Yield (createStreamResponse (thinkingContent st ++ a) thinking)]
       else [])
      ++ (if truthy b then [Yield (createStreamResponse b main)] else []))%list).
Proof.
  unfold opens, closes, handle_content. intros Ho Ha Hb.
  rewrite Ho, includes_at_separator, split_at_separator by (assumption || reflexivity).
  cbn [andb at_index nth_error or_empty].
  now rewrite !truthy_append_keep.
Qed.

Lemma channel_texts_app (ch : Channel) (e1 e2 : list Event) :
  channel_texts ch (e1 ++ e2)%list = (channel_texts ch e1 ++ channel_texts ch e2)%list.
Proof.
  unfold channel_texts, yields. now rewrite !flat_map_app.
Qed.

Lemma run_contents_cons (flag : bool) (st : StreamState) (c : string) (rest : list string) :
  run_contents flag st (c :: rest) =
    (fst (run_contents flag (fst (handle_content flag st c)) rest),
     (snd (handle_content flag st c)
      ++ snd (run_contents flag (fst (handle_content flag st c)) rest))%list).
Proof.
  simpl. destruct (handle_content flag st c) as [st' evs].
  simpl. now destruct (run_contents flag st' rest).
Qed.

Lemma run_contents_app (flag : bool) (l1 l2 : list string) :
  forall st,
    run_contents flag st (l1 ++ l2)%list =
      (fst (run_contents flag (fst (run_contents flag st l1)) l2),
       (snd (run_contents flag st l1)
        ++ snd (run_contents flag (fst (run_contents flag st l1)) l2))%list).
Proof.
  induction l1 as [|c l1 IH]; intros st.
  - simpl. now destruct (run_contents flag st l2).
  - rewrite <- app_comm_cons, !run_contents_cons, IH. simpl.
    now rewrite app_assoc.
Qed.

(** On a well-formed described stream the two channels carry what the
    description says, from any state of the extractor. *)
Lemma run_contents_described (fs : list Fragment) :
  forall st,
    well_formed (isInThinking st) fs = true ->
    channel_texts main (snd (run_contents true st (map render fs)))
      = answer_pieces (isInThinking st) fs
    /\ channel_texts thinking (snd (run_contents true st (map render fs)))
      = thinking_pieces (isInThinking st) (thinkingContent st) fs.
Proof.
  unfold well_formed.
  induction fs as [|f fs IH]; intros st H; [split; reflexivity |].
  cbn [map forallb] in H. apply andb_true_iff in H. destruct H as [Hok Hwb].
  apply andb_true_iff in Hok. destruct Hok as [Hf Hfs].
  rewrite map_cons, run_contents_cons. cbn [snd]. rewrite !channel_texts_app.
  destruct f as [s | a b | a b]; cbn [fragment_ok render] in *.
  - apply andb_true_iff in Hf. destruct Hf as [Hf Hc].
    apply andb_true_iff in Hf. destruct Hf as [_ Ho].
    apply negb_true_iff in Ho, Hc. cbn [well_bracketed] in Hwb.
    rewrite handle_content_plain by assumption.
    destruct (isInThinking st) eqn:E; cbn [fst snd answer_pieces thinking_pieces].
    + destruct (IH (mkState true (thinkingContent st ++ s) (mainContent st)))
        as [IHm IHt]; [cbn [isInThinking]; now rewrite Hfs, Hwb |].
      cbn [isInThinking thinkingContent] in IHm, IHt.
      rewrite IHm, IHt. split; reflexivity.
    + destruct (IH (mkState false (thinkingContent st) (mainContent st ++ s)))
        as [IHm IHt]; [cbn [isInThinking]; now rewrite Hfs, Hwb |].
      cbn [isInThinking thinkingContent] in IHm, IHt.
      rewrite IHm, IHt. split; reflexivity.
  - apply andb_true_iff in Hf. destruct Hf as [Hf _].
    apply andb_true_iff in Hf. destruct Hf as [Ha Hb].
    apply negb_true_iff in Ha, Hb. cbn [well_bracketed] in Hwb.
    apply andb_true_iff in Hwb. destruct Hwb as [Hin Hwb].
    apply negb_true_iff in Hin.
    rewrite handle_content_opening by assumption.
    cbn [fst snd answer_pieces thinking_pieces].
    destruct (IH (mkState true (thinkingContent st ++ b) (mainContent st ++ a)))
      as [IHm IHt]; [cbn [isInThinking]; now rewrite Hfs, Hwb |].
    cbn [isInThinking thinkingContent] in IHm, IHt. rewrite IHm, IHt.
    split; destruct (truthy a); reflexivity.
  - apply andb_true_iff in Hf. destruct Hf as [Hf Ho].
    apply andb_true_iff in Hf. destruct Hf as [Ha Hb].
    apply negb_true_iff in Ha, Hb, Ho. cbn [well_bracketed] in Hwb.
    apply andb_true_iff in Hwb. destruct Hwb as [Hin Hwb].
    rewrite handle_content_closing by assumption.
    cbn [fst snd answer_pieces thinking_pieces].
    destruct (IH (mkState false "" (mainContent st ++ b)))
      as [IHm IHt]; [cbn [isInThinking]; now rewrite Hfs, Hwb |].
    cbn [isInThinking thinkingContent] in IHm, IHt.
    rewrite !channel_texts_app, IHm, IHt.
    split; destruct (truthy (thinkingContent st ++ a)); destruct (truthy b); reflexivity.
Qed.

Lemma concat_answer_pieces (fs : list Fragment) :
  forall inside, String.concat "" (answer_pieces inside fs) = answer_text inside fs.
Proof.
  assert (Hc : forall x l, String.concat "" (x :: l) = x ++ String.concat "" l).
  { intros x [|y l]; simpl; [now rewrite append_empty_r | reflexivity]. }
  induction fs as [|f fs IH]; intros inside; [reflexivity |].
  destruct f as [s | a b | a b]; cbn [answer_pieces answer_text].
  - destruct inside; [apply IH | now rewrite Hc, IH].
  - destruct a; cbn [truthy String.eqb negb]; [apply IH | now rewrite Hc, IH].
  - destruct b; cbn [truthy String.eqb negb]; [apply IH | now rewrite Hc, IH].
Qed.

End ExtractorFacts.

(** C1 (amended).  With thinking extraction on, for every stream whose
    fragments each hold at most one whole delimiter and whose delimiters
    alternate: inside a span a fragment without delimiter is appended to
    the buffer and emitted at once on the thinking channel; the main
    emissions concatenated give the answer with the thinking spans taken
    out; and the thinking channel carries, for each span, the fragments
    that arrived inside it followed, at the closing delimiter, by the
    exact interior of the span. *)
Theorem extractor_on_whole_delimiters :
  forall fs : list ThinkingStream.Fragment,
    ThinkingStream.well_formed false fs = true ->
    let events :=
      snd (FetchClient.run_contents true FetchClient.initial_state
             (map ThinkingStream.render fs)) in
    (forall st s,
        FetchClient.isInThinking st = true ->
        ThinkingStream.opens s = false -> ThinkingStream.closes s = false ->
        FetchClient.handle_content true st s =
          (FetchClient.mkState true
             (FetchClient.thinkingContent st ++ s) (FetchClient.mainContent st),
           [FetchClient.Yield
              (FetchClient.createStreamResponse s FetchClient.thinking)]))
    /\ ThinkingStream.main_text events = ThinkingStream.answer_text false fs
    /\ ThinkingStream.channel_texts FetchClient.thinking events
       = ThinkingStream.thinking_pieces false "" fs.
Proof.
  intros fs H events. split; [| split].
  - intros st s Hin Ho Hc. rewrite handle_content_plain by assumption.
    now rewrite Hin.
  - unfold ThinkingStream.main_text, events.
    destruct (run_contents_described fs FetchClient.initial_state H) as [Hm _].
    rewrite Hm. apply concat_answer_pieces.
  - unfold events.
    now destruct (run_contents_described fs FetchClient.initial_state H) as [_ Ht].
Qed.

Lemma extractor_on_whole_delimiters_witness :
  let fs := [ThinkingStream.Plain "Let me ";
             ThinkingStream.Opening "" "rea";
             ThinkingStream.Plain "son";
             ThinkingStream.Closing "" " done"] in
  ThinkingStream.well_formed false fs = true
  /\ ThinkingStream.main_text
       (snd (FetchClient.run_contents true FetchClient.initial_state
               (map ThinkingStream.render fs)))
     = "Let me  done"
  /\ ThinkingStream.channel_texts FetchClient.thinking
       (snd (FetchClient.run_contents true FetchClient.initial_state
               (map ThinkingStream.render fs)))
     = ["son"; "reason"].
Proof.
  intros fs.
  assert (H : ThinkingStream.well_formed false fs = true) by reflexivity.
  split; [exact H |].
  destruct (extractor_on_whole_delimiters fs H) as [_ [Hm Ht]].
  split; [exact Hm | exact Ht].
Defined.

(** C1 as stated fails: on the stream of the specification, whose
    opening delimiter is split over two fragments, the main channel
    carries the delimiter text and the thinking channel only the last
    piece of the span; and a fragment that arrives inside a span is
    emitted at once. *)
Lemma split_delimiter_counterexample :
  let events :=
    snd (FetchClient.run_contents true FetchClient.initial_state
           ["Let me <thi"; "nking>rea"; "son</thinking> done"]) in
  ThinkingStream.channel_texts FetchClient.main events
    = ["Let me <thi"; "nking>rea"; " done"]
  /\ ThinkingStream.channel_texts FetchClient.thinking events = ["son"]
  /\ ThinkingStream.main_text events <> "Let me  done"
  /\ ThinkingStream.channel_texts FetchClient.thinking events <> ["reason"]
  /\ snd (FetchClient.handle_content true
            (FetchClient.mkState true "rea" "Let me ") "son")
     = [FetchClient.Yield (FetchClient.createStreamResponse "son" FetchClient.thinking)].
Proof.
  cbv zeta. repeat split; try reflexivity; vm_compute; discriminate.
Qed.

(** ** Lines and reads *)

Section LineFacts.

Import JS FetchClient EventStream.

Lemma startsWith_newline (c : ascii) (s : string) :
  startsWith newline (String c s) = Ascii.eqb "010" c.
Proof. simpl. apply andb_true_r. Qed.

Lemma includes_char_append (h : ascii) (a b : string) :
  includes (String h "") (a ++ b) = includes (String h "") a || includes (String h "") b.
Proof.
  induction a as [|c a IH].
  - simpl append. destruct b; reflexivity.
  - change (String c a ++ b) with (String c (a ++ b)).
    simpl includes. rewrite IH, !andb_true_r. now rewrite orb_assoc.
Qed.

Lemma line_free_snoc (cur : string) (c : ascii) :
  line_free cur -> Ascii.eqb "010" c = false -> line_free (cur ++ String c "").
Proof.
  unfold line_free, newline. intros H Hc.
  rewrite includes_char_append, H. cbn [orb includes startsWith].
  now rewrite Hc.
Qed.

(** Splitting a text in two and splitting the halves: the last segment
    of the first half is carried into the second. *)
Lemma split_go_newline_app (s t : string) :
  forall cur,
    split_go newline 0 cur (s ++ t) =
      (removelast (split_go newline 0 cur s)
       ++ split_go newline 0 (last (split_go newline 0 cur s) "") t)%list.
Proof.
  induction s as [|c s IH]; intros cur; [reflexivity |].
  change (String c s ++ t) with (String c (s ++ t)).
  unfold split_go at 1 2 4; fold split_go.
  rewrite !startsWith_newline.
  destruct (Ascii.eqb "010" c).
  - change (String.length newline - 1) with 0. rewrite IH.
    pose proof (split_go_nonempty newline s 0 "") as Hne.
    destruct (split_go newline 0 "" s) as [|x l]; [congruence | reflexivity].
  - apply IH.
Qed.

Lemma split_go_carry (x t : string) :
  forall cur,
    line_free x ->
    split_go newline 0 cur (x ++ t) = split_go newline 0 (cur ++ x) t.
Proof.
  unfold line_free.
  induction x as [|c x IH]; intros cur H.
  - now rewrite append_empty_r.
  - apply includes_cons_false in H. destruct H as [H1 H2].
    change (String c x ++ t) with (String c (x ++ t)).
    unfold split_go at 1; fold split_go.
    rewrite startsWith_newline. rewrite startsWith_newline in H1. rewrite H1.
    rewrite IH by assumption. now rewrite append_snoc.
Qed.

Lemma last_split_line_free (s : string) :
  forall cur, line_free cur -> line_free (last (split_go newline 0 cur s) "").
Proof.
  induction s as [|c s IH]; intros cur H; [exact H |].
  unfold split_go; fold split_go. rewrite startsWith_newline.
  destruct (Ascii.eqb "010" c) eqn:E.
  - change (String.length newline - 1) with 0.
    pose proof (split_go_nonempty newline s 0 "") as Hne.
    pose proof (IH "" eq_refl) as IH0.
    destruct (split_go newline 0 "" s) as [|x l]; [congruence | exact IH0].
  - apply IH. now apply line_free_snoc.
Qed.

Lemma complete_lines_app (s t : string) :
  complete_lines (s ++ t) =
    (complete_lines s ++ complete_lines (last (split newline s) "" ++ t))%list.
Proof.
  unfold complete_lines, split.
  rewrite split_go_newline_app.
  rewrite (split_go_carry (last (split_go newline 0 "" s) "") t "")
    by (apply last_split_line_free; reflexivity).
  simpl append.
  apply removelast_app, split_go_nonempty.
Qed.

Lemma complete_lines_free (s : string) : line_free s -> complete_lines s = [].
Proof.
  intros H. unfold complete_lines, split. now rewrite split_go_free.
Qed.

Lemma complete_lines_record (l t : string) :
  line_free l -> complete_lines (l ++ newline ++ t) = l :: complete_lines t.
Proof.
  intros H. unfold complete_lines, split.
  rewrite split_go_first by (assumption || reflexivity).
  simpl append.
  pose proof (split_go_nonempty newline t 0 "") as Hne.
  simpl removelast.
  destruct (split_go newline 0 "" t); [congruence | reflexivity].
Qed.

Lemma complete_lines_records (ls : list string) (t : string) :
  Forall line_free ls ->
  complete_lines (records ls ++ t) = (ls ++ complete_lines t)%list.
Proof.
  induction 1 as [|l ls Hl _ IH]; [reflexivity |].
  change (records (l :: ls)) with (l ++ newline ++ records ls).
  rewrite !append_assoc, complete_lines_record by assumption.
  now rewrite IH.
Qed.

Lemma records_app (l1 l2 : list string) :
  records (l1 ++ l2)%list = records l1 ++ records l2.
Proof.
  induction l1 as [|l l1 IH]; [reflexivity |].
  rewrite <- app_comm_cons.
  change (records (l :: (l1 ++ l2)%list)) with (l ++ newline ++ records (l1 ++ l2)%list).
  change (records (l :: l1)) with (l ++ newline ++ records l1).
  now rewrite IH, !append_assoc.
Qed.

Section WithParser.

Variable JSON_parse : string -> option StreamChunk.
Variable flag : bool.

Lemma handle_lines_app (l1 l2 : list string) :
  forall st,
    handle_lines JSON_parse flag st (l1 ++ l2)%list =
      match handle_lines JSON_parse flag st l1 with
      | (Finished, evs) => (Finished, evs)
      | (Next st', evs) =>
          (fst (handle_lines JSON_parse flag st' l2),
           (evs ++ snd (handle_lines JSON_parse flag st' l2))%list)
      end.
Proof.
  induction l1 as [|l l1 IH]; intros st.
  - simpl. now destruct (handle_lines JSON_parse flag st l2).
  - simpl. destruct (handle_line JSON_parse flag st l) as [[st' |] evs]; [| reflexivity].
    rewrite IH.
    destruct (handle_lines JSON_parse flag st' l1) as [[st'' |] evs']; [| reflexivity].
    simpl. now rewrite app_assoc.
Qed.

(** The reads are decoded as the complete lines of the text they
    deliver: the boundaries between reads do not matter, and a last line
    without line feed is left in the buffer. *)
Lemma read_loop_lines (reads : list string) :
  forall st buffer,
    line_free buffer ->
    read_loop JSON_parse flag st buffer reads =
      snd (handle_lines JSON_parse flag st (complete_lines (buffer ++ received reads))).
Proof.
  induction reads as [|value rest IH]; intros st buffer H.
  - simpl received. rewrite append_empty_r, complete_lines_free by assumption.
    reflexivity.
  - simpl received. rewrite <- append_assoc, complete_lines_app, handle_lines_app.
    simpl read_loop. fold (complete_lines (buffer ++ value)).
    destruct (handle_lines JSON_parse flag st (complete_lines (buffer ++ value)))
      as [[st' |] evs]; [| reflexivity].
    simpl snd. f_equal. apply IH.
    apply last_split_line_free. reflexivity.
Qed.

Lemma trim_data_record (p : string) : (trim (data_record p) =? "")%string = false.
Proof. reflexivity. Qed.

Lemma handle_line_data (st : StreamState) (p : string) :
  handle_line JSON_parse flag st (data_record p) =
    if (p =? "[DONE]")%string then (Finished, [])
    else match JSON_parse p with
         | None => (Next st, [ParseError p])
         | Some parsed =>
             if truthy (chunk_content parsed)
             then (Next (fst (handle_content flag st (chunk_content parsed))),
                   snd (handle_content flag st (chunk_content parsed)))
             else (Next st, [])
         end.
Proof.
  unfold handle_line. rewrite trim_data_record.
  unfold data_record. rewrite startsWith_append.
  change (slice 6 ("data: " ++ p)) with p.
  destruct (p =? "[DONE]")%string; [reflexivity |].
  destruct (JSON_parse p) as [parsed |]; [| reflexivity].
  destruct (truthy (chunk_content parsed)); [| reflexivity].
  now destruct (handle_content flag st (chunk_content parsed)).
Qed.

End WithParser.

End LineFacts.

(** ** The stream decoder on whole streams *)

Section DecoderFacts.

Import JS FetchClient EventStream ThinkingStream.

Lemma yields_app (e1 e2 : list Event) :
  yields (e1 ++ e2)%list = (yields e1 ++ yields e2)%list.
Proof. unfold yields. apply flat_map_app. Qed.

Lemma line_free_data_record (p : string) : line_free p -> line_free (data_record p).
Proof.
  unfold line_free, data_record, newline. intros H.
  now rewrite includes_char_append, H.
Qed.

(** Inside a span, fragments without delimiter are emitted one by one
    and pile up in the buffer. *)
Lemma run_contents_inside (plains : list string) :
  Forall (fun s => opens s = false /\ closes s = false) plains ->
  forall st,
    isInThinking st = true ->
    run_contents true st plains =
      (mkState true (thinkingContent st ++ received plains) (mainContent st),
       map (fun s => Yield (createStreamResponse s thinking)) plains).
Proof.
  induction 1 as [|s plains [Ho Hc] _ IH]; intros st Hin.
  - simpl. rewrite append_empty_r. destruct st; simpl in *. now subst.
  - rewrite run_contents_cons, handle_content_plain, Hin by assumption.
    cbn [fst snd]. rewrite IH by reflexivity.
    cbn [fst snd thinkingContent mainContent received fold_right map].
    now rewrite append_assoc.
Qed.

End DecoderFacts.

(** ** Whole streams, whatever their lines *)

Section StreamFacts.

Import JS FetchClient EventStream ThinkingStream.

Variable JSON_parse : string -> option StreamChunk.
Variable flag : bool.

Lemma handle_line_silent (st : StreamState) (line : string) :
  silent JSON_parse line ->
  fst (handle_line JSON_parse flag st line) = Next st
  /\ yields (snd (handle_line JSON_parse flag st line)) = [].
Proof.
  intros [_ [H | [H | (payload & -> & Hdone & H)]]].
  - unfold handle_line. rewrite H. split; reflexivity.
  - unfold handle_line. rewrite H.
    destruct (trim line =? "")%string; split; reflexivity.
  - rewrite handle_line_data. apply String.eqb_neq in Hdone. rewrite Hdone.
    destruct H as [-> | H]; [split; reflexivity |].
    destruct (JSON_parse payload) as [parsed |]; [| discriminate].
    injection H as ->. split; reflexivity.
Qed.

(** The lines of a stream feed the fragments they deliver to the
    extractor, in order, and yield nothing else. *)
Lemma handle_lines_delivers (lines fragments : list string) :
  delivers JSON_parse lines fragments ->
  forall st,
    fst (handle_lines JSON_parse flag st lines)
    = Next (fst (run_contents flag st fragments))
    /\ yields (snd (handle_lines JSON_parse flag st lines))
       = yields (snd (run_contents flag st fragments)).
Proof.
  induction 1 as [| line lines fs Hs _ IH | p f lines fs Hd _ IH]; intros st.
  - split; reflexivity.
  - cbn [handle_lines].
    destruct (handle_line_silent st line Hs) as [Hflow Hy].
    destruct (handle_line JSON_parse flag st line) as [flow evs].
    cbn [fst snd] in Hflow, Hy. subst flow.
    destruct (IH st) as [IHf IHy].
    destruct (handle_lines JSON_parse flag st lines) as [flow' evs'].
    cbn [fst snd] in *. split; [exact IHf |].
    now rewrite yields_app, Hy, IHy.
  - cbn [handle_lines]. rewrite handle_line_data.
    destruct Hd as (_ & Hdone & Hp & Hf).
    apply String.eqb_neq in Hdone. rewrite Hdone.
    destruct (JSON_parse p) as [parsed |]; [| discriminate].
    injection Hp as Hp. rewrite Hp, Hf.
    destruct (IH (fst (handle_content flag st f))) as [IHf IHy].
    destruct (handle_lines JSON_parse flag (fst (handle_content flag st f)) lines)
      as [flow' evs'].
    cbn [fst snd] in *. rewrite run_contents_cons. cbn [fst snd].
    split; [exact IHf |]. now rewrite !yields_app, IHy.
Qed.

Lemma delivers_line_free (lines fragments : list string) :
  delivers JSON_parse lines fragments -> Forall line_free lines.
Proof.
  induction 1 as [| line lines fs Hs _ IH | p f lines fs Hd _ IH]; constructor;
    try assumption.
  - apply Hs.
  - apply line_free_data_record, Hd.
Qed.

(** No stream is left out: lines other than the end sentinel always
    deliver some list of fragments. *)
Lemma delivers_total (lines : list string) :
  Forall (fun line => line_free line /\ line <> data_record "[DONE]") lines ->
  exists fragments, delivers JSON_parse lines fragments.
Proof.
  induction 1 as [|line lines [Hfree Hdone] _ (fs & IH)]; [exists []; constructor |].
  destruct (String.eqb_spec (trim line) "") as [Ht | _];
    [exists fs; constructor; [split; [exact Hfree | now left] | exact IH] |].
  destruct (startsWith "data: " line) eqn:Es;
    [| exists fs; constructor; [split; [exact Hfree | right; now left] | exact IH]].
  apply startsWith_split in Es.
  set (payload := slice (String.length "data: ") line) in *.
  assert (Hline : line = data_record payload) by exact Es.
  assert (Hp : payload <> "[DONE]") by (intros Hp; apply Hdone; now rewrite Hline, Hp).
  assert (Hpf : line_free payload).
  { unfold line_free in *. rewrite Hline in Hfree. unfold data_record, newline in Hfree.
    rewrite includes_char_append in Hfree. apply orb_false_iff in Hfree. apply Hfree. }
  destruct (JSON_parse payload) as [parsed |] eqn:Ep.
  - destruct (truthy (chunk_content parsed)) eqn:Et.
    + exists (chunk_content parsed :: fs). rewrite Hline.
      constructor; [| exact IH]. repeat split; try assumption. now rewrite Ep.
    + exists fs. constructor; [| exact IH]. split; [exact Hfree |].
      right; right. exists payload. repeat split; try assumption.
      right. rewrite Ep. cbn [option_map]. f_equal.
      unfold truthy in Et. apply negb_false_iff in Et. now apply String.eqb_eq.
  - exists fs. constructor; [| exact IH]. split; [exact Hfree |].
    right; right. exists payload. repeat split; try assumption. now left.
Qed.

(** What a stream yields is what the extractor yields on the fragments
    the lines deliver, whatever the reads and however the stream
    stops. *)
Lemma generator_delivers (reads lines fragments : list string) (ending : string) :
  received reads = records lines ++ ending ->
  stream_end ending ->
  delivers JSON_parse lines fragments ->
  exists events,
    createStreamGenerator JSON_parse flag (Some reads) = inl events
    /\ yields events = yields (snd (run_contents flag initial_state fragments)).
Proof.
  intros Hr Hend Hd. eexists. split; [reflexivity |].
  rewrite read_loop_lines by reflexivity. simpl append. rewrite Hr.
  rewrite complete_lines_records by (eapply delivers_line_free; eassumption).
  rewrite handle_lines_app.
  destruct (handle_lines_delivers lines fragments Hd initial_state) as [Hflow Hy].
  destruct (handle_lines JSON_parse flag initial_state lines) as [flow evs].
  cbn [fst snd] in Hflow, Hy. subst flow.
  cbn [snd]. rewrite yields_app, Hy.
  destruct Hend as [Hfree | [rest ->]].
  - rewrite (complete_lines_free ending Hfree). cbn. now rewrite app_nil_r.
  - rewrite complete_lines_record by reflexivity.
    cbn [handle_lines]. rewrite handle_line_data. cbn. now rewrite app_nil_r.
Qed.

End StreamFacts.

Section OpenSpanFacts.

Import JS FetchClient EventStream ThinkingStream.

(** While no fragment closes it a span stays open, and every fragment
    yields what [open_span_yields] says. *)
Lemma run_contents_open_span (rest : list string) :
  Forall (fun s => opens s = true \/ closes s = false) rest ->
  forall st,
    isInThinking st = true ->
    isInThinking (fst (run_contents true st rest)) = true
    /\ yields (snd (run_contents true st rest)) = flat_map open_span_yields rest.
Proof.
  induction 1 as [|s rest Hs _ IH]; intros st Hin; [split; [exact Hin | reflexivity] |].
  rewrite run_contents_cons. cbn [fst snd flat_map]. rewrite yields_app.
  assert (Hstep : isInThinking (fst (handle_content true st s)) = true
                  /\ yields (snd (handle_content true st s)) = open_span_yields s).
  { destruct (opens s) eqn:Eo; [now apply handle_content_opens |].
    destruct Hs as [Hs | Hs]; [discriminate |]. now apply handle_content_inside. }
  destruct Hstep as [Hin' Hy]. destruct (IH _ Hin') as [IHin IHy].
  split; [exact IHin | now rewrite Hy, IHy].
Qed.

(** A fragment with an opening delimiter opens a span from any state,
    and the span stays open after it. *)
Lemma run_contents_opened (opening : string) (rest : list string) :
  opens opening = true ->
  Forall (fun s => opens s = true \/ closes s = false) rest ->
  forall st,
    isInThinking (fst (run_contents true st (opening :: rest))) = true
    /\ yields (snd (run_contents true st (opening :: rest)))
       = flat_map open_span_yields (opening :: rest).
Proof.
  intros Ho Hrest st.
  rewrite run_contents_cons. cbn [fst snd flat_map]. rewrite yields_app.
  destruct (handle_content_opens st opening Ho) as [Hin Hy].
  destruct (run_contents_open_span rest Hrest _ Hin) as [Hin' Hy'].
  split; [exact Hin' | now rewrite Hy, Hy'].
Qed.

Lemma open_span_yields_plain (plains : list string) :
  Forall (fun s => opens s = false /\ closes s = false) plains ->
  flat_map open_span_yields plains
  = map (fun s => createStreamResponse s thinking) plains.
Proof.
  induction 1 as [|s plains [Ho _] _ IH]; [reflexivity |].
  cbn [flat_map map]. rewrite IH.
  unfold open_span_yields at 1, cut. now rewrite (cut_go_none _ _ "" Ho).
Qed.

End OpenSpanFacts.

(** C2 (amended).  When a fragment opens a thinking span and no fragment
    after it closes the span before the stream stops (its body ends, or
    the end sentinel comes), the decoder ends normally with the span still
    open and flushes nothing: what the stream yields is what its
    fragments yield one by one, and the text held in the buffer is not
    among it.  The open span is not silent: every later fragment without
    opening delimiter is yielded at once on the thinking channel, and one
    that holds an opening delimiter again yields the text before it on
    the main channel.  When the later fragments hold no delimiter at
    all, the buffer ends up holding the text after the opening delimiter
    and all of them. *)
Theorem unterminated_span_not_flushed :
  forall (JSON_parse : string -> option FetchClient.StreamChunk)
         (reads lines pre rest : list string) (opening ending : string),
    EventStream.received reads = EventStream.records lines ++ ending ->
    EventStream.stream_end ending ->
    EventStream.delivers JSON_parse lines (pre ++ opening :: rest)%list ->
    ThinkingStream.opens opening = true ->
    Forall (fun s => ThinkingStream.opens s = true \/ ThinkingStream.closes s = false)
      rest ->
    let before := FetchClient.run_contents true FetchClient.initial_state pre in
    let final :=
      fst (FetchClient.run_contents true FetchClient.initial_state
             (pre ++ opening :: rest)%list) in
    (exists events,
        FetchClient.createStreamGenerator JSON_parse true (Some reads) = inl events
        /\ FetchClient.yields events
           = (FetchClient.yields (snd before)
              ++ flat_map ThinkingStream.open_span_yields (opening :: rest))%list)
    /\ FetchClient.isInThinking final = true
    /\ (forall a b,
           opening = a ++ "<thinking>" ++ b ->
           ThinkingStream.opens a = false ->
           ThinkingStream.opens b = false ->
           Forall (fun s => ThinkingStream.opens s = false
                            /\ ThinkingStream.closes s = false) rest ->
           final
           = FetchClient.mkState true
               (FetchClient.thinkingContent (fst before) ++ b
                ++ EventStream.received rest)
               (FetchClient.mainContent (fst before) ++ a)
           /\ flat_map ThinkingStream.open_span_yields (opening :: rest)
              = ((if FetchClient.truthy a
                  then [FetchClient.createStreamResponse a FetchClient.main]
                  else [])
                 ++ map (fun s => FetchClient.createStreamResponse s FetchClient.thinking)
                        rest)%list).
Proof.
  intros P reads lines pre rest opening ending Hreads Hend Hdel Hopen Hrest before final.
  destruct (run_contents_opened opening rest Hopen Hrest (fst before)) as [Hin Hy].
  assert (Hrun :
    FetchClient.run_contents true FetchClient.initial_state (pre ++ opening :: rest)%list
    = (fst (FetchClient.run_contents true (fst before) (opening :: rest)),
       (snd before
        ++ snd (FetchClient.run_contents true (fst before) (opening :: rest)))%list))
    by apply run_contents_app.
  split; [| split].
  - destruct (generator_delivers P true reads lines _ ending Hreads Hend Hdel)
      as (events & He & Hev).
    exists events. split; [exact He |].
    rewrite Hev, Hrun. cbn [snd]. now rewrite yields_app, Hy.
  - unfold final. now rewrite Hrun.
  - intros a b -> Ha Hb Hplain. split.
    + unfold final. rewrite Hrun. cbn [fst].
      rewrite run_contents_cons, handle_content_opening by assumption.
      cbn [fst]. rewrite run_contents_inside by (assumption || reflexivity).
      cbn [fst FetchClient.thinkingContent FetchClient.mainContent].
      now rewrite append_assoc.
    + cbn [flat_map]. rewrite (open_span_yields_plain rest Hplain).
      unfold ThinkingStream.open_span_yields.
      rewrite (cut_first "<thinking>" a b eq_refl Ha).
      now destruct (FetchClient.truthy a).
Qed.

Lemma unterminated_span_not_flushed_witness :
  let blank := "" in
  let lines :=
    [EventStream.data_record (EventStream.chunk_json "x<thinking>a"); blank;
     ": keep-alive"; EventStream.data_record (EventStream.chunk_json "b"); blank;
     EventStream.data_record (EventStream.chunk_json "c<thinking>d"); blank] in
  let reads :=
    ["data: " ++ EventStream.chunk_json "x<thinking>a" ++ JS.newline ++ JS.newline
     ++ ": keep-alive" ++ JS.newline ++ "da";
     "ta: " ++ EventStream.chunk_json "b" ++ JS.newline ++ JS.newline
     ++ "data: " ++ EventStream.chunk_json "c<thinking>d" ++ JS.newline ++ JS.newline
     ++ "data: [DONE]" ++ JS.newline ++ JS.newline] in
  exists events,
    FetchClient.createStreamGenerator EventStream.parse_chunk true (Some reads)
    = inl events
    /\ FetchClient.yields events
       = [FetchClient.createStreamResponse "x" FetchClient.main;
          FetchClient.createStreamResponse "b" FetchClient.thinking;
          FetchClient.createStreamResponse "c" FetchClient.main].
Proof.
  intros blank lines reads.
  assert (Hblank : EventStream.silent EventStream.parse_chunk blank)
    by (split; [reflexivity | now left]).
  destruct (unterminated_span_not_flushed EventStream.parse_chunk reads lines
              [] ["b"; "c<thinking>d"] "x<thinking>a"
              ("data: [DONE]" ++ JS.newline ++ JS.newline))
    as [(events & He & Hy) _].
  - reflexivity.
  - right. exists JS.newline. reflexivity.
  - apply EventStream.delivers_record;
      [repeat split; (reflexivity || discriminate) |].
    apply EventStream.delivers_silent; [exact Hblank |].
    apply EventStream.delivers_silent;
      [split; [reflexivity | right; now left] |].
    apply EventStream.delivers_record;
      [repeat split; (reflexivity || discriminate) |].
    apply EventStream.delivers_silent; [exact Hblank |].
    apply EventStream.delivers_record;
      [repeat split; (reflexivity || discriminate) |].
    apply EventStream.delivers_silent; [exact Hblank |].
    apply EventStream.delivers_nil.
  - reflexivity.
  - constructor; [right; reflexivity |]. constructor; [left; reflexivity |]. constructor.
  - exists events. split; [exact He | exact Hy].
Defined.

(** C2 as stated fails: a span is opened and never closed, and the
    fragment that arrives after the opening one is emitted on the
    thinking channel. *)
Lemma unterminated_span_counterexample :
  let reads :=
    ["data: " ++ EventStream.chunk_json "<thinking>a" ++ JS.newline;
     "data: " ++ EventStream.chunk_json "b" ++ JS.newline] in
  exists events,
    FetchClient.createStreamGenerator EventStream.parse_chunk true (Some reads)
    = inl events
    /\ ThinkingStream.channel_texts FetchClient.thinking events = ["b"]
    /\ ThinkingStream.channel_texts FetchClient.thinking events <> [].
Proof.
  eexists. split; [vm_compute; reflexivity |].
  split; [reflexivity | discriminate].
Qed.

(** C6.  A record whose payload does not decode is reported and passed
    over, and the stream goes on: whatever the boundaries between the
    reads, the stream with the malformed record yields exactly the
    partial responses of the same stream without it, so the records
    before and after it are all delivered. *)
Theorem malformed_record_skipped :
  forall (JSON_parse : string -> option FetchClient.StreamChunk) (flag : bool)
         (before : list string) (p after : string) (reads reads' : list string),
    Forall EventStream.line_free before ->
    EventStream.line_free p ->
    p <> "[DONE]" ->
    JSON_parse p = None ->
    EventStream.received reads
      = EventStream.records before ++ EventStream.data_record p ++ JS.newline ++ after ->
    EventStream.received reads' = EventStream.records before ++ after ->
    (forall st,
        FetchClient.handle_line JSON_parse flag st (EventStream.data_record p)
        = (FetchClient.Next st, [FetchClient.ParseError p]))
    /\ exists events events',
        FetchClient.createStreamGenerator JSON_parse flag (Some reads) = inl events
        /\ FetchClient.createStreamGenerator JSON_parse flag (Some reads') = inl events'
        /\ FetchClient.yields events = FetchClient.yields events'.
Proof.
  intros JSON_parse flag before p after reads reads' Hbefore Hp Hdone Hparse Hr Hr'.
  assert (Hline : forall st,
    FetchClient.handle_line JSON_parse flag st (EventStream.data_record p)
    = (FetchClient.Next st, [FetchClient.ParseError p])).
  { intros st. rewrite handle_line_data, Hparse.
    apply String.eqb_neq in Hdone. now rewrite Hdone. }
  split; [exact Hline |].
  do 2 eexists. split; [reflexivity |]. split; [reflexivity |].
  rewrite !read_loop_lines by reflexivity.
  simpl append. rewrite Hr, Hr'.
  rewrite !complete_lines_records by assumption.
  rewrite complete_lines_record by (now apply line_free_data_record).
  rewrite !handle_lines_app.
  destruct (FetchClient.handle_lines JSON_parse flag FetchClient.initial_state before)
    as [[st |] evs]; [| reflexivity].
  cbn [FetchClient.handle_lines]. rewrite Hline.
  destruct (FetchClient.handle_lines JSON_parse flag st
              (EventStream.complete_lines after)) as [flow evs'].
  cbn [fst snd]. rewrite !yields_app. reflexivity.
Qed.

Lemma malformed_record_skipped_witness :
  let one := EventStream.data_record (EventStream.chunk_json "one") in
  let two := EventStream.data_record (EventStream.chunk_json "two") in
  let reads := [one ++ JS.newline ++ "data: {ba"; "d" ++ JS.newline ++ two ++ JS.newline] in
  exists events,
    FetchClient.createStreamGenerator EventStream.parse_chunk false (Some reads)
    = inl events
    /\ FetchClient.yields events
       = [FetchClient.createStreamResponse "one" FetchClient.main;
          FetchClient.createStreamResponse "two" FetchClient.main].
Proof.
  intros one two reads.
  destruct (malformed_record_skipped EventStream.parse_chunk false
              [one] "{bad" (two ++ JS.newline) reads
              [one ++ JS.newline ++ two ++ JS.newline])
    as [_ (events & events' & He & He' & Hy)].
  - repeat constructor.
  - reflexivity.
  - discriminate.
  - reflexivity.
  - reflexivity.
  - reflexivity.
  - exists events. split; [exact He |].
    rewrite Hy. injection He' as <-. reflexivity.
Defined.

(** ** Non-streaming responses *)

(** C3 as stated fails: a response without tool calls and with empty
    content comes back with one text part holding the empty string, not
    with an empty part list. *)
Lemma empty_content_counterexample :
  let data :=
    FetchClient.mkOpenAIResponse
      [FetchClient.mkChoice (Some (FetchClient.mkWireMessage (Some "") None)) (Some "stop")]
      None in
  map cand_parts (candidates (FetchClient.from_response false data)) = [[PText ""]]
  /\ map cand_parts (candidates (FetchClient.from_response false data)) <> [[]].
Proof. split; [reflexivity | discriminate]. Qed.

(** C3 (amended).  For every non-streaming response without tool calls
    whose message content is empty or absent, the canonical response has
    exactly one part, a text part holding the empty string; it is a
    response and not an error.  This holds in the fetch-based client and
    in the client built on the OpenAI library. *)
Theorem empty_content_gives_empty_text_part :
  (forall (includeThoughts : bool) (data : FetchClient.OpenAIResponse),
      FetchClient.first_content data = "" ->
      map cand_parts (candidates (FetchClient.from_response includeThoughts data))
      = [[PText ""]])
  /\ (forall (JSON_parse : string -> option Json) (response : SdkClient.ChatCompletion)
             (choice : SdkClient.Choice) (rest : list SdkClient.Choice),
         SdkClient.choices response = choice :: rest ->
         SdkClient.tool_calls (SdkClient.message choice) = None
         \/ SdkClient.tool_calls (SdkClient.message choice) = Some [] ->
         JS.or_empty (SdkClient.content (SdkClient.message choice)) = "" ->
         JS.or_empty (SdkClient.reasoning_content (SdkClient.message choice)) = "" ->
         exists r,
           SdkClient.from_response JSON_parse response = inl r
           /\ map cand_parts (candidates r) = [[PText ""]]).
Proof.
  split.
  - intros flag data H. unfold FetchClient.from_response. rewrite H.
    rewrite andb_false_r. reflexivity.
  - intros P response choice rest Hc Htc Hcontent Hreason.
    unfold SdkClient.from_response. rewrite Hc.
    unfold SdkClient.extractReasoningContent. rewrite Hcontent, Hreason.
    destruct Htc as [-> | ->]; eexists; split; reflexivity.
Qed.

Lemma empty_content_gives_empty_text_part_witness :
  map cand_parts
    (candidates
       (FetchClient.from_response true
          (FetchClient.mkOpenAIResponse
             [FetchClient.mkChoice (Some (FetchClient.mkWireMessage None None)) (Some "length")]
             None)))
  = [[PText ""]]
  /\ exists r,
       SdkClient.from_response ToolArguments.parse_object
         (SdkClient.mkChatCompletion
            [SdkClient.mkChoice (SdkClient.mkWireMessage (Some "") None (Some [])) "stop"]
            None)
       = inl r
       /\ map cand_parts (candidates r) = [[PText ""]].
Proof.
  split.
  - apply (proj1 empty_content_gives_empty_text_part). reflexivity.
  - eapply (proj2 empty_content_gives_empty_text_part).
    + reflexivity.
    + right. reflexivity.
    + reflexivity.
    + reflexivity.
Defined.

(** C4 as stated fails in the fetch-based client, which never reads the
    tool calls of a choice: a choice that carries a tool call and the wire
    finish reason ["tool_calls"] comes back with [OTHER], with or without
    the request for thoughts. *)
Lemma finish_reason_counterexample :
  let call :=
    JObject [("id", JString "call_1");
             ("type", JString "function");
             ("function", JObject [("name", JString "run_shell_command");
                                   ("arguments", JString "{}")])] in
  let data :=
    FetchClient.mkOpenAIResponse
      [FetchClient.mkChoice
         (Some (FetchClient.mkWireMessage None (Some [call])))
         (Some "tool_calls")]
      None in
  map finishReason (candidates (FetchClient.from_response false data)) = [OTHER]
  /\ map finishReason (candidates (FetchClient.from_response true data)) = [OTHER]
  /\ map finishReason (candidates (FetchClient.from_response false data)) <> [STOP].
Proof. cbv zeta. repeat split; try reflexivity. discriminate. Qed.

(** C4 (amended).  In the fetch-based client the canonical finish reason
    of a non-streaming response is [STOP] exactly when the finish reason
    of the first wire choice is ["stop"], and [OTHER] for any other value,
    for an absent one and for a response without choices; tool calls in
    the choice change nothing.  In the client built on the OpenAI library
    a first choice with at least one tool call gives [STOP] whatever the
    wire finish reason is, and a choice without tool calls follows the
    same mapping. *)
Theorem finish_reason_mapping :
  (forall (includeThoughts : bool) (data : FetchClient.OpenAIResponse),
      exists c,
        candidates (FetchClient.from_response includeThoughts data) = [c]
        /\ (forall choice rest,
               FetchClient.choices data = choice :: rest ->
               (finishReason c = STOP <-> FetchClient.finish_reason choice = Some "stop")
               /\ (finishReason c = OTHER
                   <-> FetchClient.finish_reason choice <> Some "stop"))
        /\ (FetchClient.choices data = [] -> finishReason c = OTHER))
  /\ (forall (JSON_parse : string -> option Json) (response : SdkClient.ChatCompletion)
             (choice : SdkClient.Choice) (rest : list SdkClient.Choice),
         SdkClient.choices response = choice :: rest ->
         exists r c,
           SdkClient.from_response JSON_parse response = inl r
           /\ candidates r = [c]
           /\ ((exists tc tcs,
                   SdkClient.tool_calls (SdkClient.message choice) = Some (tc :: tcs)) ->
               finishReason c = STOP)
           /\ (SdkClient.tool_calls (SdkClient.message choice) = None
               \/ SdkClient.tool_calls (SdkClient.message choice) = Some [] ->
               (finishReason c = STOP <-> SdkClient.finish_reason choice = "stop")
               /\ (finishReason c = OTHER <-> SdkClient.finish_reason choice <> "stop"))).
Proof.
  split.
  - intros flag data. unfold FetchClient.from_response.
    destruct (if flag && negb (FetchClient.first_content data =? "")%string
              then FetchClient.extract_thinking FetchClient.thinkingPatterns
                     (FetchClient.first_content data)
              else ("", FetchClient.first_content data)) as [thought text].
    eexists. split; [reflexivity |].
    cbn [finishReason].
    unfold FetchClient.map_finish_reason, FetchClient.first_finish_reason.
    split.
    + intros choice rest ->.
      destruct (FetchClient.finish_reason choice) as [s |].
      * destruct (String.eqb_spec s "stop") as [-> | Hne]; split; split; congruence.
      * split; split; congruence.
    + intros ->. reflexivity.
  - intros P response choice rest Hc.
    unfold SdkClient.from_response. rewrite Hc.
    destruct (SdkClient.tool_calls (SdkClient.message choice)) as [[|tc tcs] |].
    + destruct (SdkClient.extractReasoningContent choice) as [text thought].
      do 2 eexists. split; [reflexivity |]. split; [reflexivity |].
      cbn [finishReason]. split.
      * intros (tc & tcs & H). discriminate.
      * intros _. destruct (String.eqb_spec (SdkClient.finish_reason choice) "stop");
          split; split; congruence.
    + do 2 eexists. split; [reflexivity |]. split; [reflexivity |].
      cbn [finishReason]. split; [reflexivity |].
      intros [H | H]; discriminate.
    + destruct (SdkClient.extractReasoningContent choice) as [text thought].
      do 2 eexists. split; [reflexivity |]. split; [reflexivity |].
      cbn [finishReason]. split.
      * intros (tc & tcs & H). discriminate.
      * intros _. destruct (String.eqb_spec (SdkClient.finish_reason choice) "stop");
          split; split; congruence.
Qed.

Lemma finish_reason_mapping_witness :
  map finishReason
    (candidates
       (FetchClient.from_response false
          (FetchClient.mkOpenAIResponse
             [FetchClient.mkChoice
                (Some (FetchClient.mkWireMessage (Some "done") (Some [JNull])))
                (Some "stop");
              FetchClient.mkChoice None (Some "length")]
             None)))
  = [STOP]
  /\ exists r c,
       SdkClient.from_response ToolArguments.parse_object
         (SdkClient.mkChatCompletion
            [SdkClient.mkChoice
               (SdkClient.mkWireMessage None None
                  (Some [SdkClient.mkToolCall "call_1"
                           (SdkClient.mkToolCallFunction "run_shell_command" "{}")]))
               "tool_calls"]
            None)
       = inl r
       /\ candidates r = [c]
       /\ finishReason c = STOP.
Proof.
  split.
  - destruct (proj1 finish_reason_mapping false
                (FetchClient.mkOpenAIResponse
                   [FetchClient.mkChoice
                      (Some (FetchClient.mkWireMessage (Some "done") (Some [JNull])))
                      (Some "stop");
                    FetchClient.mkChoice None (Some "length")]
                   None))
      as (c & Hc & Hfirst & _).
    rewrite Hc. cbn [map]. f_equal.
    exact (proj2 (proj1 (Hfirst _ _ eq_refl)) eq_refl).
  - destruct (proj2 finish_reason_mapping ToolArguments.parse_object
                (SdkClient.mkChatCompletion
                   [SdkClient.mkChoice
                      (SdkClient.mkWireMessage None None
                         (Some [SdkClient.mkToolCall "call_1"
                                  (SdkClient.mkToolCallFunction "run_shell_command" "{}")]))
                      "tool_calls"]
                   None)
                _ [] eq_refl)
      as (r & c & Hr & Hc & Htool & _).
    exists r, c. split; [exact Hr |]. split; [exact Hc |].
    apply Htool. do 2 eexists. reflexivity.
Defined.

(** ** Tool calls *)

(** C5.  A wire choice with tool calls is translated into exactly one
    [functionCall] part per call, in order, each with the name of its call
    and with its argument text decoded as JSON; where the text does not
    decode the part carries the empty object, and the response is
    returned all the same. *)
Theorem tool_calls_translated :
  forall (JSON_parse : string -> option Json) (response : SdkClient.ChatCompletion)
         (choice : SdkClient.Choice) (rest : list SdkClient.Choice)
         (tc : SdkClient.ToolCall) (tcs : list SdkClient.ToolCall),
    JSON_parse "{}" = Some empty_object ->
    JSON_parse "" = None ->
    SdkClient.choices response = choice :: rest ->
    SdkClient.tool_calls (SdkClient.message choice) = Some (tc :: tcs) ->
    exists r c,
      SdkClient.from_response JSON_parse response = inl r
      /\ candidates r = [c]
      /\ List.length (cand_parts c) = List.length (tc :: tcs)
      /\ cand_parts c
         = map (fun call =>
                  PFunctionCall
                    (mkFunctionCall
                       (SdkClient.name (SdkClient.function call))
                       (match JSON_parse (SdkClient.arguments (SdkClient.function call)) with
                        | Some v => v
                        | None => empty_object
                        end)))
               (tc :: tcs).
Proof.
  intros P response choice rest tc tcs Hobj Hempty Hc Htc.
  unfold SdkClient.from_response. rewrite Hc, Htc.
  do 2 eexists. split; [reflexivity |]. split; [reflexivity |].
  cbn [cand_parts]. split; [apply length_map |].
  apply map_ext. intros call.
  unfold SdkClient.call_of, SdkClient.safeParseJSON, JS.or_else.
  destruct (String.eqb_spec (SdkClient.arguments (SdkClient.function call)) "")
    as [-> | _]; [now rewrite Hobj, Hempty | reflexivity].
Qed.

Lemma tool_calls_translated_witness :
  exists r c,
    SdkClient.from_response ToolArguments.parse_object
      (SdkClient.mkChatCompletion
         [SdkClient.mkChoice
            (SdkClient.mkWireMessage None None
               (Some [SdkClient.mkToolCall "call_1"
                        (SdkClient.mkToolCallFunction "run_shell_command" "{}");
                      SdkClient.mkToolCall "call_2"
                        (SdkClient.mkToolCallFunction "read_file" "{bad")]))
            "tool_calls"]
         None)
    = inl r
    /\ candidates r = [c]
    /\ cand_parts c
       = [PFunctionCall (mkFunctionCall "run_shell_command" empty_object);
          PFunctionCall (mkFunctionCall "read_file" empty_object)].
Proof.
  destruct (tool_calls_translated ToolArguments.parse_object
              (SdkClient.mkChatCompletion
                 [SdkClient.mkChoice
                    (SdkClient.mkWireMessage None None
                       (Some [SdkClient.mkToolCall "call_1"
                                (SdkClient.mkToolCallFunction "run_shell_command" "{}");
                              SdkClient.mkToolCall "call_2"
                                (SdkClient.mkToolCallFunction "read_file" "{bad")]))
                    "tool_calls"]
                 None)
              _ [] _ _ eq_refl eq_refl eq_refl eq_refl)
    as (r & c & Hr & Hc & _ & Hparts).
  exists r, c. split; [exact Hr |]. split; [exact Hc | exact Hparts].
Defined.

(** ** Token estimates *)

Section EstimateFacts.

Import JS FetchClient Estimate.

Lemma ceil_quarter_div (n : nat) : ceil_quarter n = ((Z.of_nat n + 3) / 4)%Z.
Proof.
  unfold ceil_quarter, Qceiling, Qfloor, Qopp, Qmult, inject_Z.
  cbn [Qnum Qden]. rewrite Z.mul_1_r.
  change (Z.pos (1 * 4)) with 4%Z.
  pose proof (Z.div_mod (- Z.of_nat n) 4 ltac:(lia)) as H1.
  pose proof (Z.mod_pos_bound (- Z.of_nat n) 4 ltac:(lia)) as H2.
  pose proof (Z.div_mod (Z.of_nat n + 3) 4 ltac:(lia)) as H3.
  pose proof (Z.mod_pos_bound (Z.of_nat n + 3) 4 ltac:(lia)) as H4.
  lia.
Qed.

Lemma ceil_div4_div (n : nat) : SdkClient.ceil_div4 n = ((Z.of_nat n + 3) / 4)%Z.
Proof.
  rewrite <- ceil_quarter_div. reflexivity.
Qed.

Lemma ceil_quarter_monotone (n m : nat) : n <= m -> (ceil_quarter n <= ceil_quarter m)%Z.
Proof.
  intros H. rewrite !ceil_quarter_div. apply Z.div_le_mono; lia.
Qed.

Lemma length_append (a b : string) :
  JS.length (a ++ b) = JS.length a + JS.length b.
Proof.
  induction a as [|c a IH]; [reflexivity |].
  change (String c a ++ b) with (String c (a ++ b)).
  cbn [JS.length]. rewrite IH. lia.
Qed.

(** The joined text has the length of its pieces and one unit per
    join. *)
Lemma length_join_space (l : list string) :
  JS.length (join " " l) = list_sum (map JS.length l) + (List.length l - 1).
Proof.
  induction l as [|x l IH]; [reflexivity |].
  destruct l as [|y l].
  - cbn [join map list_sum fold_right List.length]. lia.
  - change (join " " (x :: y :: l)) with (x ++ " " ++ join " " (y :: l)).
    rewrite !length_append, IH.
    change (JS.length " ") with 1. cbn [map list_sum fold_right List.length]. lia.
Qed.

End EstimateFacts.

(** C7 as stated fails in the fetch-based client: three text parts of one
    character each make a larger estimate than one part of four
    characters, because the spaces that join the parts are counted; and
    the estimate of the first input is not the quarter of its characters
    rounded up.  It fails in the client built on the OpenAI library too: a
    reply of the backend that carries no usage figure gives 0, not the
    estimate. *)
Lemma token_estimate_counterexample :
  let three := [ItemContent (mkContent (Some "user") [PText "a"; PText "a"; PText "a"])] in
  let four := [ItemContent (mkContent (Some "user") [PText "aaaa"])] in
  Estimate.text_chars three = 3
  /\ Estimate.text_chars four = 4
  /\ FetchClient.countTokens three = 2%Z
  /\ FetchClient.countTokens four = 1%Z
  /\ ~ (Estimate.text_chars three <= Estimate.text_chars four ->
        (FetchClient.countTokens three <= FetchClient.countTokens four)%Z)
  /\ FetchClient.countTokens three
     <> Qceiling (inject_Z (Z.of_nat (Estimate.text_chars three)) * (1 # 4))
  /\ SdkClient.total_chars four = 4
  /\ SdkClient.countTokens four (Some (SdkClient.mkChatCompletion [] None)) = 0%Z
  /\ SdkClient.countTokens four (Some (SdkClient.mkChatCompletion [] None))
     <> Qceiling (inject_Z (Z.of_nat (SdkClient.total_chars four)) / 4).
Proof.
  cbv zeta. repeat split; try reflexivity.
  - vm_compute. intros H. apply H; [repeat constructor | reflexivity].
  - vm_compute. discriminate.
  - vm_compute. discriminate.
Qed.

(** C7 (amended).  In the fetch-based client [countTokens] returns the
    quarter, rounded up, of the length [L] of the text parts joined by
    single spaces, [text.length] in UTF-16 code units, which is the
    length of the parts plus one per join; the estimate does not decrease
    when [L] grows, nor, between inputs with the same number of text
    parts, when the length of the parts grows.  In the client built on the
    OpenAI library [countTokens] returns the prompt-token figure of the
    reply of the backend, and 0 when the reply carries no usage figure;
    only when the call to the backend fails does it return the quarter,
    rounded up, of the total length, which does not decrease when that
    length grows. *)
Theorem token_estimate_joined_text :
  forall (i1 i2 : list ContentItem),
    JS.length (FetchClient.counted_text i1)
      = Estimate.text_chars i1 + (List.length (FetchClient.counted_texts i1) - 1)
    /\ FetchClient.countTokens i1
       = ((Z.of_nat (JS.length (FetchClient.counted_text i1)) + 3) / 4)%Z
    /\ (JS.length (FetchClient.counted_text i1)
          <= JS.length (FetchClient.counted_text i2) ->
        (FetchClient.countTokens i1 <= FetchClient.countTokens i2)%Z)
    /\ (List.length (FetchClient.counted_texts i1)
          = List.length (FetchClient.counted_texts i2) ->
        Estimate.text_chars i1 <= Estimate.text_chars i2 ->
        (FetchClient.countTokens i1 <= FetchClient.countTokens i2)%Z)
    /\ (forall choices u,
           SdkClient.countTokens i1 (Some (SdkClient.mkChatCompletion choices (Some u)))
           = prompt_tokens u)
    /\ (forall choices,
           SdkClient.countTokens i1 (Some (SdkClient.mkChatCompletion choices None))
           = 0%Z)
    /\ SdkClient.countTokens i1 None
       = ((Z.of_nat (SdkClient.total_chars i1) + 3) / 4)%Z
    /\ (SdkClient.total_chars i1 <= SdkClient.total_chars i2 ->
        (SdkClient.countTokens i1 None <= SdkClient.countTokens i2 None)%Z).
Proof.
  intros i1 i2.
  assert (HL : forall i,
    JS.length (FetchClient.counted_text i)
    = Estimate.text_chars i + (List.length (FetchClient.counted_texts i) - 1)).
  { intros i. apply length_join_space. }
  split; [apply HL |].
  split; [apply ceil_quarter_div |].
  split; [apply ceil_quarter_monotone |].
  split; [intros Hn Hc; apply ceil_quarter_monotone; rewrite !HL; lia |].
  split; [reflexivity |].
  split; [reflexivity |].
  unfold SdkClient.countTokens. rewrite !ceil_div4_div.
  split; [reflexivity |].
  intros H. apply Z.div_le_mono; lia.
Qed.

Lemma token_estimate_joined_text_witness :
  let one := [ItemContent (mkContent (Some "user") [PText "ab"; PText "cd"])] in
  let two := [ItemContent (mkContent (Some "user") [PText "abc"; PText "defgh"])] in
  (FetchClient.countTokens one <= FetchClient.countTokens two)%Z
  /\ (SdkClient.countTokens one None <= SdkClient.countTokens two None)%Z.
Proof.
  intros one two.
  destruct (token_estimate_joined_text one two)
    as (_ & _ & _ & Hsame & _ & _ & _ & Hsdk).
  split.
  - apply Hsame; [reflexivity | vm_compute; lia].
  - apply Hsdk. vm_compute. lia.
Defined.

(** ** Messages to the wire and back *)

Section RoundTripFacts.

Import JS FetchClient RoundTrip.

Lemma extract_thinking_unmatched (text : string) :
  no_markup text = true ->
  extract_thinking thinkingPatterns text = ("", text).
Proof.
  unfold no_markup, thinkingPatterns. cbn [forallb fst snd extract_thinking].
  repeat match goal with
         | |- context [match_lazy ?o ?c text] => destruct (match_lazy o c text) as [[? ?] |]
         end; cbn [andb]; (discriminate || reflexivity).
Qed.

(** A wire text read back as a response is one text part holding it. *)
Lemma back_text (flag : bool) (r text : string) :
  text <> "" ->
  (flag = true -> no_markup text = true) ->
  back flag (mkMessage r text) = [mkContent (Some "model") [PText text]].
Proof.
  intros Hne Hflag. apply String.eqb_neq in Hne.
  unfold back, from_response. cbn [msg_content first_content choices message content or_empty].
  rewrite Hne. cbn [negb]. rewrite andb_true_r.
  destruct flag.
  - rewrite extract_thinking_unmatched by auto.
    cbn [String.eqb]. rewrite Hne. reflexivity.
  - cbn [String.eqb]. rewrite Hne. reflexivity.
Qed.

End RoundTripFacts.

(** C8 as stated fails: a user message with two text parts comes back
    as a model message with one part, in which a line feed stands between
    the two texts; and a message whose text is empty does not come back
    at all. *)
Lemma round_trip_counterexample :
  let c := mkContent (Some "user") [PText "a"; PText "b"] in
  let e := mkContent (Some "model") [PText ""] in
  RoundTrip.text_only c = true
  /\ RoundTrip.text_only e = true
  /\ RoundTrip.round_trip false [c]
     = [mkContent (Some "model") [PText ("a" ++ JS.newline ++ "b")]]
  /\ RoundTrip.round_trip false [c] <> [c]
  /\ RoundTrip.round_trip false [e] = [].
Proof.
  cbv zeta. repeat split; try reflexivity. vm_compute. discriminate.
Qed.

(** C8 (amended).  Translating canonical messages to wire messages and
    back as responses keeps, in order, the messages that have a role and a
    non-empty text, and gives each the role [model] and one text part
    holding its texts joined by line feeds (with thinking extraction on,
    for texts that hold none of the delimiter pairs).  So a list of model
    messages of one non-empty text part each comes back unchanged. *)
Theorem round_trip_joined_text :
  forall (includeThoughts : bool) (cs : list Content),
    (includeThoughts = true ->
     Forall (fun c => RoundTrip.no_markup (FetchClient.content_text c) = true) cs) ->
    RoundTrip.round_trip includeThoughts cs
    = flat_map
        (fun c =>
           match role c with
           | None => []
           | Some _ =>
               if (FetchClient.content_text c =? "")%string then []
               else [mkContent (Some "model") [PText (FetchClient.content_text c)]]
           end)
        cs
    /\ (Forall (fun c => exists t, t <> "" /\ c = mkContent (Some "model") [PText t]) cs ->
        RoundTrip.round_trip includeThoughts cs = cs).
Proof.
  intros flag cs Hflag.
  assert (Heq : RoundTrip.round_trip flag cs
    = flat_map
        (fun c =>
           match role c with
           | None => []
           | Some _ =>
               if (FetchClient.content_text c =? "")%string then []
               else [mkContent (Some "model") [PText (FetchClient.content_text c)]]
           end)
        cs).
  { unfold RoundTrip.round_trip, FetchClient.to_messages.
    induction cs as [|c cs IH]; [reflexivity |].
    rewrite map_cons. cbn [flat_map]. rewrite flat_map_app.
    rewrite IH by (intros Hf; specialize (Hflag Hf); now inversion Hflag).
    f_equal. unfold FetchClient.to_message.
    destruct (role c) as [r |]; [| reflexivity].
    destruct (String.eqb_spec (FetchClient.content_text c) "") as [He | Hne];
      [reflexivity |].
    cbn [flat_map]. rewrite app_nil_r. apply back_text; [exact Hne |].
    intros Hf. specialize (Hflag Hf). now inversion Hflag. }
  split; [exact Heq |].
  intros Hall. rewrite Heq. clear Heq Hflag.
  induction Hall as [|c cs (t & Hne & ->) _ IH]; [reflexivity |].
  cbn [flat_map role]. rewrite IH.
  unfold FetchClient.content_text. cbn.
  apply String.eqb_neq in Hne. now rewrite Hne.
Qed.

Lemma round_trip_joined_text_witness :
  let cs := [mkContent (Some "model") [PText "Hello"];
             mkContent (Some "model") [PText "<thinking> is a tag"]] in
  RoundTrip.round_trip true cs = cs.
Proof.
  intros cs.
  apply (proj2 (round_trip_joined_text true cs
                  ltac:(intros _; repeat constructor))).
  repeat constructor; eexists; (split; [| reflexivity]); discriminate.
Defined.

(** ** Embeddings *)

(** C9.  When the configuration has no embedding model, [embedContent]
    throws at once an error that says the embedding model is not
    configured and names the provider; no request is sent; and the
    message differs from that of every transport error. *)
Theorem embedding_not_configured :
  forall (c : ModelConfig) (items : list ContentItem),
    embeddingModel c = None \/ embeddingModel c = Some "" ->
    FetchClient.embedContent c items
    = Throw ("Embedding model not configured for provider: " ++ provider_name (provider c))
    /\ (forall responses, fetches responses (FetchClient.embedContent c items) = 0)
    /\ JS.includes (provider_name (provider c)) (FetchClient.not_configured c) = true
    /\ (forall (D : Type) (r : Response D), FetchClient.not_configured c <> http_error r).
Proof.
  intros c items H.
  assert (He : FetchClient.embedContent c items = Throw (FetchClient.not_configured c)).
  { unfold FetchClient.embedContent. destruct H as [-> | ->]; reflexivity. }
  split; [exact He |].
  split; [intros responses; now rewrite He |].
  split.
  - unfold FetchClient.not_configured.
    rewrite <- (append_empty_r (provider_name (provider c))) at 2.
    apply includes_at_separator.
  - intros D r. unfold FetchClient.not_configured, http_error. discriminate.
Qed.

Lemma embedding_not_configured_witness :
  FetchClient.embedContent
    (mkModelConfig ANTHROPIC "claude-3-5-sonnet-20241022" "key"
       (Some "https://api.anthropic.com") false (Some ""))
    [ItemString "hello"]
  = Throw "Embedding model not configured for provider: anthropic".
Proof.
  apply (proj1 (embedding_not_configured
                  (mkModelConfig ANTHROPIC "claude-3-5-sonnet-20241022" "key"
                     (Some "https://api.anthropic.com") false (Some ""))
                  [ItemString "hello"] (or_intror eq_refl))).
Defined.

(** ** Request defaults *)

(** C10.  A request that sets the temperature to zero is sent with the
    default temperature 0.7, and one that sets the output budget to zero
    is sent with the default of 2048 tokens, in the blocking call and in
    the streaming call alike: the body sent is the body of the same
    request with the value absent. *)
Theorem zero_replaced_by_default :
  forall (JSON_parse : string -> option FetchClient.StreamChunk) (c : ModelConfig)
         (items : list ContentItem) (tc : option ThinkingConfig)
         (t : option Q) (m : option Z),
    let request t m := mkParameters items (Some (mkConfig t m tc)) in
    let blocking t m := sent_body (FetchClient.generateContent c (request t m)) in
    let streaming t m :=
      sent_body (FetchClient.generateContentStream JSON_parse c (request t m)) in
    (blocking (Some 0%Q) m = blocking None m
     /\ option_map FetchClient.rb_temperature (blocking (Some 0%Q) m) = Some (7 # 10)%Q)
    /\ (blocking t (Some 0%Z) = blocking t None
        /\ option_map FetchClient.rb_max_tokens (blocking t (Some 0%Z)) = Some 2048%Z)
    /\ (streaming (Some 0%Q) m = streaming None m
        /\ option_map FetchClient.rb_temperature (streaming (Some 0%Q) m) = Some (7 # 10)%Q)
    /\ (streaming t (Some 0%Z) = streaming t None
        /\ option_map FetchClient.rb_max_tokens (streaming t (Some 0%Z)) = Some 2048%Z).
Proof.
  intros P c items tc t m request blocking streaming.
  repeat split; reflexivity.
Qed.

(** * Further properties of the code *)

(** ** The stream decoder: framing *)

(** X1.  What the stream generator yields and reports depends only on
    the text the reads deliver together, not on where one read ends and
    the next begins. *)
Theorem stream_independent_of_read_boundaries :
  forall (JSON_parse : string -> option FetchClient.StreamChunk) (flag : bool)
         (reads reads' : list string),
    EventStream.received reads = EventStream.received reads' ->
    FetchClient.createStreamGenerator JSON_parse flag (Some reads)
    = FetchClient.createStreamGenerator JSON_parse flag (Some reads').
Proof.
  intros P flag reads reads' H. unfold FetchClient.createStreamGenerator.
  now rewrite !read_loop_lines, H by reflexivity.
Qed.

Lemma stream_independent_of_read_boundaries_witness :
  let record := EventStream.data_record (EventStream.chunk_json "Hello") ++ JS.newline in
  FetchClient.createStreamGenerator EventStream.parse_chunk false
    (Some ["data: {"; JS.slice 7 record])
  = FetchClient.createStreamGenerator EventStream.parse_chunk false (Some [record]).
Proof.
  intros record.
  apply (stream_independent_of_read_boundaries EventStream.parse_chunk false
           ["data: {"; JS.slice 7 record] [record]).
  reflexivity.
Defined.

(** X2.  Once the line [data: [DONE]] is read the generator stops:
    whatever text follows it, in the same read or in later ones, leaves no
    trace. *)
Theorem nothing_after_done :
  forall (JSON_parse : string -> option FetchClient.StreamChunk) (flag : bool)
         (before : list string) (rest : string) (reads reads' : list string),
    Forall EventStream.line_free before ->
    EventStream.received reads
      = EventStream.records before ++ EventStream.data_record "[DONE]"
        ++ JS.newline ++ rest ->
    EventStream.received reads' = EventStream.records before ->
    FetchClient.createStreamGenerator JSON_parse flag (Some reads)
    = FetchClient.createStreamGenerator JSON_parse flag (Some reads').
Proof.
  intros P flag before rest reads reads' Hb Hr Hr'.
  unfold FetchClient.createStreamGenerator. f_equal.
  rewrite !read_loop_lines by reflexivity. simpl append. rewrite Hr, Hr'.
  rewrite <- (append_empty_r (EventStream.records before)) at 2.
  rewrite !complete_lines_records by assumption.
  rewrite complete_lines_record by reflexivity.
  rewrite !handle_lines_app.
  destruct (FetchClient.handle_lines P flag FetchClient.initial_state before)
    as [[st |] evs]; [| reflexivity].
  cbn [FetchClient.handle_lines]. rewrite handle_line_data. reflexivity.
Qed.

Lemma nothing_after_done_witness :
  let one := EventStream.data_record (EventStream.chunk_json "one") in
  let late := EventStream.data_record (EventStream.chunk_json "late") in
  FetchClient.createStreamGenerator EventStream.parse_chunk false
    (Some [one ++ JS.newline ++ "data: [DONE]" ++ JS.newline; late ++ JS.newline])
  = inl [FetchClient.Yield (FetchClient.createStreamResponse "one" FetchClient.main)].
Proof.
  intros one late.
  rewrite (nothing_after_done EventStream.parse_chunk false [one]
             (late ++ JS.newline)
             [one ++ JS.newline ++ "data: [DONE]" ++ JS.newline; late ++ JS.newline]
             [one ++ JS.newline]).
  - reflexivity.
  - repeat constructor.
  - reflexivity.
  - reflexivity.
Defined.

(** X3.  A last line that is not closed by a line feed when the body
    ends is never decoded: the stream yields what it yields without that
    line, even when the line is a complete record. *)
Theorem unterminated_last_line_dropped :
  forall (JSON_parse : string -> option FetchClient.StreamChunk) (flag : bool)
         (before : list string) (tail : string) (reads reads' : list string),
    Forall EventStream.line_free before ->
    EventStream.line_free tail ->
    EventStream.received reads = EventStream.records before ++ tail ->
    EventStream.received reads' = EventStream.records before ->
    FetchClient.createStreamGenerator JSON_parse flag (Some reads)
    = FetchClient.createStreamGenerator JSON_parse flag (Some reads').
Proof.
  intros P flag before tail reads reads' Hb Ht Hr Hr'.
  unfold FetchClient.createStreamGenerator. f_equal.
  rewrite !read_loop_lines by reflexivity. simpl append. rewrite Hr, Hr'.
  rewrite <- (append_empty_r (EventStream.records before)) at 2.
  rewrite !complete_lines_records by assumption.
  now rewrite (complete_lines_free tail Ht).
Qed.

Lemma unterminated_last_line_dropped_witness :
  let one := EventStream.data_record (EventStream.chunk_json "one") in
  let two := EventStream.data_record (EventStream.chunk_json "two") in
  FetchClient.createStreamGenerator EventStream.parse_chunk false
    (Some [one ++ JS.newline; two])
  = inl [FetchClient.Yield (FetchClient.createStreamResponse "one" FetchClient.main)].
Proof.
  intros one two.
  rewrite (unterminated_last_line_dropped EventStream.parse_chunk false [one] two
             [one ++ JS.newline; two] [one ++ JS.newline]).
  - reflexivity.
  - repeat constructor.
  - reflexivity.
  - reflexivity.
  - reflexivity.
Defined.

(** X4.  A line that is blank after trimming, or that does not start
    with [data: ] (a comment, an [event:] field, a [data:] field without
    the space), is passed over without a trace: the stream with such a
    line yields and reports what the stream without it does. *)
Theorem other_lines_ignored :
  forall (JSON_parse : string -> option FetchClient.StreamChunk) (flag : bool)
         (before : list string) (line after : string) (reads reads' : list string),
    Forall EventStream.line_free before ->
    EventStream.line_free line ->
    JS.trim line = "" \/ JS.startsWith "data: " line = false ->
    EventStream.received reads
      = EventStream.records before ++ line ++ JS.newline ++ after ->
    EventStream.received reads' = EventStream.records before ++ after ->
    FetchClient.createStreamGenerator JSON_parse flag (Some reads)
    = FetchClient.createStreamGenerator JSON_parse flag (Some reads').
Proof.
  intros P flag before line after reads reads' Hb Hl Hskip Hr Hr'.
  assert (Hline : forall st,
    FetchClient.handle_line P flag st line = (FetchClient.Next st, [])).
  { intros st. unfold FetchClient.handle_line.
    destruct Hskip as [-> | ->]; [reflexivity |].
    now destruct (JS.trim line =? "")%string. }
  unfold FetchClient.createStreamGenerator. f_equal.
  rewrite !read_loop_lines by reflexivity. simpl append. rewrite Hr, Hr'.
  rewrite !complete_lines_records by assumption.
  rewrite complete_lines_record by assumption.
  rewrite !handle_lines_app.
  destruct (FetchClient.handle_lines P flag FetchClient.initial_state before)
    as [[st |] evs]; [| reflexivity].
  cbn [FetchClient.handle_lines]. rewrite Hline.
  now destruct (FetchClient.handle_lines P flag st (EventStream.complete_lines after)).
Qed.

Lemma other_lines_ignored_witness :
  let one := EventStream.data_record (EventStream.chunk_json "one") in
  FetchClient.createStreamGenerator EventStream.parse_chunk false
    (Some [": keep-alive" ++ JS.newline ++ one ++ JS.newline])
  = inl [FetchClient.Yield (FetchClient.createStreamResponse "one" FetchClient.main)].
Proof.
  intros one.
  rewrite (other_lines_ignored EventStream.parse_chunk false [] ": keep-alive"
             (one ++ JS.newline)
             [": keep-alive" ++ JS.newline ++ one ++ JS.newline]
             [one ++ JS.newline]).
  - reflexivity.
  - constructor.
  - reflexivity.
  - right. reflexivity.
  - reflexivity.
  - reflexivity.
Defined.

(** ** The stream decoder: what is yielded *)

Section YieldFacts.

Import JS FetchClient EventStream ThinkingStream StreamShape.

Lemma truthy_nonempty (s : string) : truthy s = true -> s <> "".
Proof. unfold truthy. intros H. apply negb_true_iff in H. now apply String.eqb_neq. Qed.

Lemma one_text_part_response (t : string) (ch : Channel) :
  t <> "" -> one_text_part (Yield (createStreamResponse t ch)).
Proof.
  intros H. exists t.
  destruct ch; [exists (PText t) | exists (PThinking t)];
    (split; [exact H |]); split; reflexivity.
Qed.

Lemma one_text_part_when (t : string) (ch : Channel) :
  Forall one_text_part (if truthy t then [Yield (createStreamResponse t ch)] else []).
Proof.
  destruct (truthy t) eqn:E; constructor; [| constructor].
  now apply one_text_part_response, truthy_nonempty.
Qed.

Lemma handle_content_one_text_part (flag : bool) (st : StreamState) (content : string) :
  content <> "" -> Forall one_text_part (snd (handle_content flag st content)).
Proof.
  intros H. unfold handle_content.
  destruct (flag && includes "<thinking>" content); [apply one_text_part_when |].
  destruct (flag && includes "</thinking>" content).
  - cbn [snd]. apply Forall_app. split; apply one_text_part_when.
  - destruct (isInThinking st); cbn [snd]; constructor;
      (now apply one_text_part_response) || constructor.
Qed.

Lemma handle_line_one_text_part (P : string -> option StreamChunk) (flag : bool)
    (st : StreamState) (line : string) :
  Forall one_text_part (snd (handle_line P flag st line)).
Proof.
  unfold handle_line.
  destruct (trim line =? "")%string; [constructor |].
  destruct (startsWith "data: " line); [| constructor].
  destruct (slice 6 line =? "[DONE]")%string; [constructor |].
  destruct (P (slice 6 line)) as [parsed |]; [| repeat constructor].
  destruct (truthy (chunk_content parsed)) eqn:E; [| constructor].
  pose proof (handle_content_one_text_part flag st _ (truthy_nonempty _ E)) as H.
  now destruct (handle_content flag st (chunk_content parsed)).
Qed.

Lemma handle_lines_one_text_part (P : string -> option StreamChunk) (flag : bool)
    (lines : list string) :
  forall st, Forall one_text_part (snd (handle_lines P flag st lines)).
Proof.
  induction lines as [|l lines IH]; intros st; [constructor |].
  cbn [handle_lines].
  pose proof (handle_line_one_text_part P flag st l) as Hl.
  destruct (handle_line P flag st l) as [[st' |] evs]; [| exact Hl].
  pose proof (IH st') as Hr.
  destruct (handle_lines P flag st' lines) as [flow evs'].
  cbn [snd] in *. apply Forall_app. now split.
Qed.

Lemma read_loop_one_text_part (P : string -> option StreamChunk) (flag : bool)
    (reads : list string) :
  forall st buffer, Forall one_text_part (read_loop P flag st buffer reads).
Proof.
  induction reads as [|value rest IH]; intros st buffer; [constructor |].
  cbn [read_loop].
  pose proof (handle_lines_one_text_part P flag
                (removelast (split newline (buffer ++ value))) st) as Hl.
  destruct (handle_lines P flag st (removelast (split newline (buffer ++ value))))
    as [[st' |] evs]; [| exact Hl].
  apply Forall_app. split; [exact Hl | apply IH].
Qed.

(** Without thinking extraction every fragment goes to the main channel
    as it is. *)
Lemma run_contents_verbatim (fragments : list string) :
  forall st,
    isInThinking st = false ->
    run_contents false st fragments =
      (mkState false (thinkingContent st) (mainContent st ++ received fragments),
       map (fun f => Yield (createStreamResponse f main)) fragments).
Proof.
  induction fragments as [|f fs IH]; intros st H.
  - simpl. rewrite append_empty_r. destruct st; simpl in *. now subst.
  - assert (Hh : handle_content false st f
                 = (mkState false (thinkingContent st) (mainContent st ++ f),
                    [Yield (createStreamResponse f main)]))
      by (unfold handle_content; now rewrite H).
    rewrite run_contents_cons, Hh.
    cbn [fst snd]. rewrite IH by reflexivity.
    cbn [fst snd thinkingContent mainContent received fold_right map].
    now rewrite append_assoc.
Qed.

End YieldFacts.

(** X5.  Every partial response the stream generator yields has one
    candidate that holds exactly one part, with a text that is not empty,
    the role [model], the finish reason [STOP], and neither function calls
    nor usage figures. *)
Theorem every_partial_has_one_text_part :
  forall (JSON_parse : string -> option FetchClient.StreamChunk) (flag : bool)
         (body : option (list string)) (events : list FetchClient.Event),
    FetchClient.createStreamGenerator JSON_parse flag body = inl events ->
    Forall
      (fun r =>
         exists t p,
           t <> "" /\ part_text p = Some t
           /\ r = mkResponse [mkCandidate [p] "model" STOP 0] None None)
      (FetchClient.yields events).
Proof.
  intros P flag body events H.
  destruct body as [reads |]; [| discriminate].
  injection H as <-.
  pose proof (read_loop_one_text_part P flag reads FetchClient.initial_state "") as Hall.
  induction Hall as [|e evs He _ IH]; [constructor |].
  destruct e as [r | d]; cbn [FetchClient.yields flat_map app]; [| exact IH].
  constructor; [exact He | exact IH].
Qed.

Lemma every_partial_has_one_text_part_witness :
  Forall
    (fun r =>
       exists t p,
         t <> "" /\ part_text p = Some t
         /\ r = mkResponse [mkCandidate [p] "model" STOP 0] None None)
    (FetchClient.yields
       [FetchClient.Yield (FetchClient.createStreamResponse "x" FetchClient.main);
        FetchClient.Yield (FetchClient.createStreamResponse "b" FetchClient.thinking)]).
Proof.
  apply (every_partial_has_one_text_part EventStream.parse_chunk true
           (Some ["data: " ++ EventStream.chunk_json "x<thinking>a" ++ JS.newline;
                  "data: " ++ EventStream.chunk_json "b" ++ JS.newline])).
  reflexivity.
Defined.

(** X6.  When the request did not ask for thoughts the stream passes the
    text through untouched, whatever lines the stream is made of: the
    delta text of each record that has one is yielded as one main-channel
    response, in order, delimiters included, and nothing goes to the
    thinking channel. *)
Theorem stream_verbatim_without_thoughts :
  forall (JSON_parse : string -> option FetchClient.StreamChunk)
         (reads lines fragments : list string) (ending : string),
    EventStream.received reads = EventStream.records lines ++ ending ->
    EventStream.stream_end ending ->
    EventStream.delivers JSON_parse lines fragments ->
    exists events,
      FetchClient.createStreamGenerator JSON_parse false (Some reads) = inl events
      /\ FetchClient.yields events
         = map (fun f => FetchClient.createStreamResponse f FetchClient.main) fragments
      /\ ThinkingStream.channel_texts FetchClient.thinking events = [].
Proof.
  intros P reads lines fragments ending Hr Hend Hdel.
  destruct (generator_delivers P false reads lines fragments ending Hr Hend Hdel)
    as (events & He & Hy).
  assert (Hmain : FetchClient.yields events
                  = map (fun f => FetchClient.createStreamResponse f FetchClient.main)
                        fragments).
  { rewrite Hy, run_contents_verbatim by reflexivity. cbn [snd].
    clear. induction fragments as [|f fs IH]; [reflexivity |].
    cbn [map FetchClient.yields flat_map app]. f_equal. exact IH. }
  exists events. split; [exact He |]. split; [exact Hmain |].
  unfold ThinkingStream.channel_texts. rewrite Hmain.
  clear. induction fragments as [|f fs IH]; [reflexivity | exact IH].
Qed.

Lemma stream_verbatim_without_thoughts_witness :
  exists events,
    FetchClient.createStreamGenerator EventStream.parse_chunk false
      (Some ["data: " ++ EventStream.chunk_json "a<thinking>b" ++ JS.newline ++ JS.newline;
             "event: ping" ++ JS.newline
             ++ "data: " ++ EventStream.chunk_json "c</thinking>d" ++ JS.newline
             ++ JS.newline ++ "data: {unfinished"])
    = inl events
    /\ FetchClient.yields events
       = [FetchClient.createStreamResponse "a<thinking>b" FetchClient.main;
          FetchClient.createStreamResponse "c</thinking>d" FetchClient.main].
Proof.
  assert (Hblank : EventStream.silent EventStream.parse_chunk "")
    by (split; [reflexivity | now left]).
  destruct (stream_verbatim_without_thoughts EventStream.parse_chunk
              ["data: " ++ EventStream.chunk_json "a<thinking>b" ++ JS.newline ++ JS.newline;
               "event: ping" ++ JS.newline
               ++ "data: " ++ EventStream.chunk_json "c</thinking>d" ++ JS.newline
               ++ JS.newline ++ "data: {unfinished"]
              [EventStream.data_record (EventStream.chunk_json "a<thinking>b"); "";
               "event: ping";
               EventStream.data_record (EventStream.chunk_json "c</thinking>d"); ""]
              ["a<thinking>b"; "c</thinking>d"] "data: {unfinished")
    as (events & He & Hy & _).
  - reflexivity.
  - left. reflexivity.
  - apply EventStream.delivers_record;
      [repeat split; (reflexivity || discriminate) |].
    apply EventStream.delivers_silent; [exact Hblank |].
    apply EventStream.delivers_silent;
      [split; [reflexivity | right; now left] |].
    apply EventStream.delivers_record;
      [repeat split; (reflexivity || discriminate) |].
    apply EventStream.delivers_silent; [exact Hblank |].
    apply EventStream.delivers_nil.
  - exists events. split; [exact He | exact Hy].
Defined.

(** X7.  A thinking span that opens and closes inside one fragment is
    not closed: only the text before the opening delimiter is yielded, the
    closing delimiter and the answer after it go into the buffer, and the
    fragments that follow are yielded on the thinking channel. *)
Theorem span_within_one_fragment_stays_open :
  forall (st : FetchClient.StreamState) (a b c : string) (plains : list string),
    ThinkingStream.opens a = false ->
    ThinkingStream.opens (b ++ "</thinking>" ++ c) = false ->
    Forall (fun s => ThinkingStream.opens s = false /\ ThinkingStream.closes s = false)
      plains ->
    FetchClient.run_contents true st
      ((a ++ "<thinking>" ++ b ++ "</thinking>" ++ c) :: plains)
    = (FetchClient.mkState true
         (FetchClient.thinkingContent st ++ (b ++ "</thinking>" ++ c)
          ++ EventStream.received plains)
         (FetchClient.mainContent st ++ a),
       ((if FetchClient.truthy a
         then [FetchClient.Yield (FetchClient.createStreamResponse a FetchClient.main)]
         else [])
        ++ map (fun s => FetchClient.Yield
                           (FetchClient.createStreamResponse s FetchClient.thinking))
               plains)%list).
Proof.
  intros st a b c plains Ha Hb Hp.
  rewrite run_contents_cons, handle_content_opening by assumption.
  cbn [fst snd]. rewrite run_contents_inside by (assumption || reflexivity).
  cbn [fst snd FetchClient.thinkingContent FetchClient.mainContent].
  now rewrite append_assoc.
Qed.

Lemma span_within_one_fragment_stays_open_witness :
  snd (FetchClient.run_contents true FetchClient.initial_state
         ["Sure. <thinking>plan</thinking>The answer"; " is 4."])
  = [FetchClient.Yield (FetchClient.createStreamResponse "Sure. " FetchClient.main);
     FetchClient.Yield (FetchClient.createStreamResponse " is 4." FetchClient.thinking)].
Proof.
  exact (f_equal snd
           (span_within_one_fragment_stays_open FetchClient.initial_state
              "Sure. " "plan" "The answer" [" is 4."] eq_refl eq_refl
              ltac:(repeat constructor))).
Defined.

(** ** The fetch-based client: requests *)

Section RequestFacts.

Import JS FetchClient.

Lemma includes_suffix (p a : string) : includes p (a ++ p) = true.
Proof.
  rewrite <- (append_empty_r p) at 2. apply includes_at_separator.
Qed.

Lemma wire_role_not_model (r : string) : wire_role r <> "model".
Proof.
  unfold wire_role. destruct (String.eqb_spec r "model"); [discriminate | assumption].
Qed.

Lemma to_message_invariant (item : ContentItem) :
  Forall (fun m => msg_content m <> "" /\ msg_role m <> "model") (to_message item)
  /\ List.length (to_message item) <= 1.
Proof.
  destruct item as [s | c | p]; cbn [to_message]; try (split; [constructor | cbn; lia]).
  destruct (role c) as [r |]; [| split; [constructor | cbn; lia]].
  destruct (String.eqb_spec (content_text c) "") as [He | Hne].
  - split; [constructor | cbn; lia].
  - split; [| cbn; lia]. constructor; [| constructor].
    split; [exact Hne | apply wire_role_not_model].
Qed.

End RequestFacts.

(** X8.  The endpoint of the chat calls always contains
    [chat/completions] and always starts with the configured base URL; a
    base URL that contains the segment already is used as it is, so
    building the endpoint from an endpoint changes nothing. *)
Theorem endpoint_is_normalised :
  forall c : ModelConfig,
    JS.includes "chat/completions" (FetchClient.api_url c) = true
    /\ JS.startsWith (JS.or_empty (baseUrl c)) (FetchClient.api_url c) = true
    /\ FetchClient.api_url
         (mkModelConfig (provider c) (model c) (apiKey c)
            (Some (FetchClient.api_url c)) (thinkSupport c) (embeddingModel c))
       = FetchClient.api_url c.
Proof.
  intros c.
  assert (Hin : JS.includes "chat/completions" (FetchClient.api_url c) = true).
  { unfold FetchClient.api_url.
    destruct (JS.includes "chat/completions" (JS.or_empty (baseUrl c))) eqn:E;
      [exact E |].
    destruct (JS.endsWith "/" (JS.or_empty (baseUrl c))).
    - apply includes_suffix.
    - change "/chat/completions" with ("/" ++ "chat/completions").
      rewrite <- append_assoc. apply includes_suffix. }
  split; [exact Hin |]. split.
  - unfold FetchClient.api_url.
    destruct (JS.includes "chat/completions" (JS.or_empty (baseUrl c))).
    + rewrite <- (append_empty_r (JS.or_empty (baseUrl c))) at 2.
      apply startsWith_append.
    + destruct (JS.endsWith "/" (JS.or_empty (baseUrl c))); apply startsWith_append.
  - unfold FetchClient.api_url at 1. cbn [baseUrl JS.or_empty]. now rewrite Hin.
Qed.

(** X9.  The wire messages built from the contents of a request never
    hold an empty content and never the role [model]; each content gives
    at most one message, so there are at most as many messages as
    contents. *)
Theorem wire_messages_invariant :
  forall items : list ContentItem,
    Forall (fun m => msg_content m <> "" /\ msg_role m <> "model")
      (FetchClient.to_messages items)
    /\ List.length (FetchClient.to_messages items) <= List.length items.
Proof.
  intros items. unfold FetchClient.to_messages.
  induction items as [|item items [IHf IHl]]; [split; [constructor | reflexivity] |].
  cbn [flat_map]. destruct (to_message_invariant item) as [Hf Hl].
  split; [apply Forall_app; now split |].
  rewrite length_app. cbn [List.length]. lia.
Qed.

(** X10.  Each chat call sends exactly one POST request to the endpoint,
    whatever the backend answers.  [embedContent] sends exactly one POST
    request to [<baseUrl>/embeddings] when an embedding model is
    configured, and none otherwise.  When the answer is not a success
    each of the three throws [HTTP <status>: <statusText>] at once, and
    no second request is made. *)
Theorem one_request_and_no_retry :
  forall (JSON_parse : string -> option FetchClient.StreamChunk) (c : ModelConfig)
         (request : GenerateContentParameters) (items : list ContentItem),
    (forall responses,
        requests responses (FetchClient.generateContent c request)
        = [(FetchClient.api_url c, "POST")])
    /\ (forall responses,
           requests responses (FetchClient.generateContentStream JSON_parse c request)
           = [(FetchClient.api_url c, "POST")])
    /\ (forall responses m,
           embeddingModel c = Some m -> m <> "" ->
           requests responses (FetchClient.embedContent c items)
           = [(match baseUrl c with Some u => u | None => "undefined" end
               ++ "/embeddings", "POST")])
    /\ (forall responses,
           embeddingModel c = None \/ embeddingModel c = Some "" ->
           requests responses (FetchClient.embedContent c items) = [])
    /\ (forall r rest,
           ok r = false ->
           run (r :: rest) (FetchClient.generateContent c request) = Threw (http_error r))
    /\ (forall r rest,
           ok r = false ->
           run (r :: rest) (FetchClient.generateContentStream JSON_parse c request)
           = Threw (http_error r))
    /\ (forall r rest m,
           embeddingModel c = Some m -> m <> "" ->
           ok r = false ->
           run (r :: rest) (FetchClient.embedContent c items) = Threw (http_error r)).
Proof.
  intros P c request items. repeat split.
  - intros responses. destruct responses as [|r rest]; [reflexivity |].
    cbn. now destruct (ok r).
  - intros responses. destruct responses as [|r rest]; [reflexivity |].
    cbn. now destruct (ok r).
  - intros responses m Hm Hne. apply String.eqb_neq in Hne.
    unfold FetchClient.embedContent. rewrite Hm, Hne.
    destruct responses as [|r rest]; [reflexivity |].
    cbn. now destruct (ok r).
  - intros responses [H | H]; unfold FetchClient.embedContent; now rewrite H.
  - intros r rest H. cbn. now rewrite H.
  - intros r rest H. cbn. now rewrite H.
  - intros r rest m Hm Hne H. apply String.eqb_neq in Hne.
    unfold FetchClient.embedContent. rewrite Hm, Hne. cbn. now rewrite H.
Qed.

Lemma one_request_and_no_retry_witness :
  let c :=
    mkModelConfig OPENAI "gpt-4o" "key" (Some "https://api.openai.com/v1") false
      (Some "text-embedding-3-small") in
  run [mkHttpResponse false 429 "Too Many Requests"
         (FetchClient.mkOpenAIResponse [] None)]
      (FetchClient.generateContent c
         (mkParameters [ItemContent (mkContent (Some "user") [PText "hello"])] None))
  = Threw "HTTP 429: Too Many Requests"
  /\ run [mkHttpResponse false 503 "Service Unavailable"
            (FetchClient.mkEmbeddingResponse [])]
         (FetchClient.embedContent c [ItemString "hello"])
     = Threw "HTTP 503: Service Unavailable"
  /\ requests [mkHttpResponse false 503 "Service Unavailable"
                 (FetchClient.mkEmbeddingResponse [])]
              (FetchClient.embedContent c [ItemString "hello"])
     = [("https://api.openai.com/v1/embeddings", "POST")].
Proof.
  intros c.
  destruct (one_request_and_no_retry EventStream.parse_chunk c
              (mkParameters [ItemContent (mkContent (Some "user") [PText "hello"])] None)
              [ItemString "hello"])
    as (_ & _ & Hreq & _ & Hchat & _ & Hembed).
  split; [| split].
  - exact (Hchat (mkHttpResponse false 429 "Too Many Requests"
                    (FetchClient.mkOpenAIResponse [] None)) [] eq_refl).
  - exact (Hembed (mkHttpResponse false 503 "Service Unavailable"
                     (FetchClient.mkEmbeddingResponse [])) []
             "text-embedding-3-small" eq_refl ltac:(discriminate) eq_refl).
  - exact (Hreq _ "text-embedding-3-small" eq_refl ltac:(discriminate)).
Defined.

(** ** The fetch-based client: responses *)

Section ResponseFacts.

Import JS FetchClient.

(** A text in which the first delimiter pair is found is split into the
    inside of the pair and what is left around it. *)
Lemma extract_first_pattern (pre inner post : string) :
  includes "<thinking>" pre = false ->
  includes "</thinking>" inner = false ->
  extract_thinking thinkingPatterns
    (pre ++ "<thinking>" ++ inner ++ "</thinking>" ++ post)
  = (trim inner, trim (pre ++ post)).
Proof.
  intros Hpre Hinner.
  unfold thinkingPatterns. cbn [extract_thinking]. unfold match_lazy.
  rewrite (cut_first "<thinking>" pre (inner ++ "</thinking>" ++ post) eq_refl Hpre).
  rewrite (cut_first "</thinking>" inner post eq_refl Hinner).
  unfold remove_first, cut.
  pose proof (cut_go_first "<thinking>" (inner ++ "</thinking>") pre post eq_refl ""
                Hpre) as Hc.
  rewrite !append_assoc in Hc. now rewrite Hc.
Qed.

End ResponseFacts.

(** X11.  A blocking call always returns one candidate, with the role
    [model], and one or two parts: a text part alone, a non-empty thinking
    part alone, or a non-empty thinking part followed by a non-empty text
    part.  Without the request for thoughts there is never a thinking
    part. *)
Theorem response_shape :
  forall (includeThoughts : bool) (data : FetchClient.OpenAIResponse),
    exists c,
      candidates (FetchClient.from_response includeThoughts data) = [c]
      /\ cand_role c = "model"
      /\ functionCalls (FetchClient.from_response includeThoughts data) = None
      /\ ((exists t, cand_parts c = [PText t])
          \/ (includeThoughts = true
              /\ exists th, th <> "" /\ cand_parts c = [PThinking th])
          \/ (includeThoughts = true
              /\ exists th t,
                   th <> "" /\ t <> "" /\ cand_parts c = [PThinking th; PText t])).
Proof.
  intros flag data. unfold FetchClient.from_response.
  destruct flag; cbn [andb].
  - destruct (if negb (FetchClient.first_content data =? "")%string
              then FetchClient.extract_thinking FetchClient.thinkingPatterns
                     (FetchClient.first_content data)
              else ("", FetchClient.first_content data)) as [th t].
    eexists. split; [reflexivity |]. split; [reflexivity |]. split; [reflexivity |].
    cbn [cand_parts].
    destruct (String.eqb_spec th "") as [-> | Hth];
      destruct (String.eqb_spec t "") as [-> | Ht]; cbn [app].
    + left. eexists; reflexivity.
    + left. eexists; reflexivity.
    + right. left. split; [reflexivity |]. exists th. now split.
    + right. right. split; [reflexivity |]. exists th, t. now repeat split.
  - eexists. split; [reflexivity |]. split; [reflexivity |]. split; [reflexivity |].
    cbn [cand_parts String.eqb app]. left.
    destruct (FetchClient.first_content data =? "")%string; eexists; reflexivity.
Qed.

(** X12.  With thoughts asked for, a response text in which the first
    delimiter pair is found gives the inside of the pair, trimmed, as the
    thinking part and the text around the pair, joined and trimmed, as the
    text part; the other delimiter pairs are not tried.  Without the
    request for thoughts the same text comes back whole as one text
    part. *)
Theorem thinking_tags_extracted :
  forall (data : FetchClient.OpenAIResponse) (pre inner post : string),
    FetchClient.first_content data
      = pre ++ "<thinking>" ++ inner ++ "</thinking>" ++ post ->
    JS.includes "<thinking>" pre = false ->
    JS.includes "</thinking>" inner = false ->
    map cand_parts (candidates (FetchClient.from_response true data))
    = [match
         ((if (JS.trim inner =? "")%string then [] else [PThinking (JS.trim inner)])
          ++ (if (JS.trim (pre ++ post) =? "")%string then []
              else [PText (JS.trim (pre ++ post))]))%list
       with
       | [] => [PText ""]
       | found => found
       end]
    /\ map cand_parts (candidates (FetchClient.from_response false data))
       = [[PText (FetchClient.first_content data)]].
Proof.
  intros data pre inner post H Hpre Hinner.
  assert (Hne : (FetchClient.first_content data =? "")%string = false).
  { rewrite H. apply String.eqb_neq. destruct pre; discriminate. }
  split.
  - unfold FetchClient.from_response. rewrite Hne. cbn [andb negb].
    rewrite H, extract_first_pattern by assumption.
    cbn [map candidates cand_parts].
    destruct (String.eqb_spec (JS.trim inner) "") as [He | _];
      destruct (String.eqb_spec (JS.trim (pre ++ post)) "") as [Ht | _];
      cbn [app]; try reflexivity.
    now rewrite Ht.
  - unfold FetchClient.from_response. cbn [andb String.eqb app].
    now rewrite Hne.
Qed.

Lemma thinking_tags_extracted_witness :
  let wide_space := String "227" (String "128" (String "128" "")) in
  map cand_parts
    (candidates
       (FetchClient.from_response true
          (FetchClient.mkOpenAIResponse
             [FetchClient.mkChoice
                (Some (FetchClient.mkWireMessage
                         (Some "<thinking> 2+2 </thinking> The answer is 4.") None))
                (Some "stop")]
             None)))
  = [[PThinking "2+2"; PText "The answer is 4."]]
  /\ map cand_parts
       (candidates
          (FetchClient.from_response true
             (FetchClient.mkOpenAIResponse
                [FetchClient.mkChoice
                   (Some (FetchClient.mkWireMessage
                            (Some ("<thinking>" ++ wide_space ++ "</thinking>ok")) None))
                   (Some "stop")]
                None)))
     = [[PText "ok"]].
Proof.
  intros wide_space. split.
  - apply (proj1 (thinking_tags_extracted
                    (FetchClient.mkOpenAIResponse
                       [FetchClient.mkChoice
                          (Some (FetchClient.mkWireMessage
                                   (Some "<thinking> 2+2 </thinking> The answer is 4.")
                                   None))
                          (Some "stop")]
                       None)
                    "" " 2+2 " " The answer is 4." eq_refl eq_refl eq_refl)).
  - apply (proj1 (thinking_tags_extracted
                    (FetchClient.mkOpenAIResponse
                       [FetchClient.mkChoice
                          (Some (FetchClient.mkWireMessage
                                   (Some ("<thinking>" ++ wide_space ++ "</thinking>ok"))
                                   None))
                          (Some "stop")]
                       None)
                    "" wide_space "ok" eq_refl eq_refl eq_refl)).
Defined.

(** X13.  The token estimate of the fetch-based client is the least
    number that is four times at least the length of the joined text,
    [text.length] in UTF-16 code units: it is zero exactly when that
    length is zero.  Contents given as plain strings or bare parts are
    not counted at all. *)
Theorem token_estimate_bounds :
  forall items : list ContentItem,
    let n := FetchClient.countTokens items in
    let L := Z.of_nat (JS.length (FetchClient.counted_text items)) in
    (L <= 4 * n < L + 4)%Z
    /\ (n = 0%Z <-> L = 0%Z)
    /\ (FetchClient.counted_text items = "" -> n = 0%Z)
    /\ (forall s, FetchClient.countTokens (ItemString s :: items) = n)
    /\ (forall p, FetchClient.countTokens (ItemPart p :: items) = n).
Proof.
  intros items n L. subst n L.
  assert (Hskip : (forall s, FetchClient.countTokens (ItemString s :: items)
                             = FetchClient.countTokens items)
                  /\ (forall p, FetchClient.countTokens (ItemPart p :: items)
                                = FetchClient.countTokens items))
    by (split; reflexivity).
  assert (Hn : FetchClient.countTokens items
               = ((Z.of_nat (JS.length (FetchClient.counted_text items)) + 3) / 4)%Z)
    by apply ceil_quarter_div.
  assert (He : FetchClient.counted_text items = "" ->
               JS.length (FetchClient.counted_text items) = 0)
    by (now intros ->).
  set (k := JS.length (FetchClient.counted_text items)) in *.
  pose proof (Z.div_mod (Z.of_nat k + 3) 4 ltac:(lia)) as H1.
  pose proof (Z.mod_pos_bound (Z.of_nat k + 3) 4 ltac:(lia)) as H2.
  split; [lia |]. split; [lia |]. split; [| exact Hskip].
  intros H0. rewrite Hn, (He H0). reflexivity.
Qed.

(** ** Configuration from the environment *)

Section ModelsFacts.

Import Models.

Lemma or_opt_some (x y : option string) (v : string) :
  or_opt x y = Some v -> (x = Some v /\ v <> "") \/ y = Some v.
Proof.
  unfold or_opt. destruct x as [w |]; [| now right].
  destruct (String.eqb_spec w "") as [-> | Hne]; [now right |].
  intros H. injection H as <-. now left.
Qed.

Lemma or_opt_keeps_nonempty (x y : option string) :
  (exists v, y = Some v /\ v <> "") -> exists v, or_opt x y = Some v /\ v <> "".
Proof.
  intros (v & -> & Hv). unfold or_opt. destruct x as [w |]; [| now exists v].
  destruct (String.eqb_spec w "") as [-> | Hne]; [now exists v | now exists w].
Qed.

Lemma or_opt_set (v : string) (y : option string) :
  v <> "" -> or_opt (Some v) y = Some v.
Proof. intros H. unfold or_opt. apply String.eqb_neq in H. now rewrite H. Qed.

Lemma getEnvVar_set (env : Env) (key v : string) :
  getEnvVar env key None = Some v -> v <> "".
Proof.
  unfold getEnvVar. intros H. apply or_opt_some in H.
  destruct H as [[_ H] | H]; [exact H | discriminate].
Qed.

Lemma provider_name_of_unset (env : Env) :
  getEnvVar env "AI_PROVIDER" None = None -> provider_name_of env = "gemini".
Proof. unfold provider_name_of. now intros ->. Qed.

Lemma provider_name_of_set (env : Env) (name : string) :
  getEnvVar env "AI_PROVIDER" None = Some name -> provider_name_of env = name.
Proof.
  intros H. unfold provider_name_of. rewrite H.
  now rewrite (or_opt_set _ _ (getEnvVar_set _ _ _ H)).
Qed.

Lemma provider_of_name_name (p : ModelProvider) :
  provider_of_name (provider_name p) = Some p.
Proof. now destruct p. Qed.

Lemma provider_of_name_inv (name : string) (p : ModelProvider) :
  provider_of_name name = Some p -> name = provider_name p.
Proof.
  unfold provider_of_name.
  destruct (String.eqb_spec name "gemini") as [-> | _];
    [intros H; now injection H as <- |].
  destruct (String.eqb_spec name "doubao") as [-> | _];
    [intros H; now injection H as <- |].
  destruct (String.eqb_spec name "openai") as [-> | _];
    [intros H; now injection H as <- |].
  destruct (String.eqb_spec name "anthropic") as [-> | _];
    [intros H; now injection H as <- | discriminate].
Qed.

Lemma getModelConfig_config (env : Env) (c : ModelConfig) :
  getModelConfig env = Config c ->
  provider_of_name (provider_name_of env) = Some (provider c)
  /\ model c
     = JS.or_empty
         (or_opt (getEnvVar env "AI_MODEL" None)
            (or_opt (getEnvVar env "GEMINI_MODEL" None)
               (Some (defaultModel (PROVIDER_CONFIGS (provider c))))))
  /\ apiKey c = api_key_of env
  /\ baseUrl c
     = getEnvVar env "AI_BASE_URL" (defaultBaseUrl (PROVIDER_CONFIGS (provider c)))
  /\ thinkSupport c
     = think_switch_is env "true"
       || array_includes (model c) (thinkSupportedModels (PROVIDER_CONFIGS (provider c)))
  /\ embeddingModel c
     = or_opt (getEnvVar env "AI_EMBEDDING_MODEL" None)
         (Some (pc_embeddingModel (PROVIDER_CONFIGS (provider c)))).
Proof.
  unfold getModelConfig, lookup_provider.
  destruct (provider_of_name (provider_name_of env)) as [p |].
  - intros H. injection H as <-. cbn. repeat split; reflexivity.
  - destruct (existsb _ object_prototype_keys); [| discriminate].
    destruct (think_switch_is env "true"); discriminate.
Qed.

Lemma getModelConfig_foreign (env : Env) (f : ForeignConfig) :
  getModelConfig env = Foreign f ->
  provider_of_name (provider_name_of env) = None
  /\ In (provider_name_of env) object_prototype_keys
  /\ think_switch_is env "true" = true
  /\ f = mkForeignConfig (provider_name_of env)
           (or_opt (getEnvVar env "AI_MODEL" None)
              (or_opt (getEnvVar env "GEMINI_MODEL" None) None))
           (api_key_of env)
           (getEnvVar env "AI_BASE_URL" None)
           (or_opt (getEnvVar env "AI_EMBEDDING_MODEL" None) None).
Proof.
  unfold getModelConfig, lookup_provider.
  destruct (provider_of_name (provider_name_of env)) as [p |]; [discriminate |].
  destruct (existsb (String.eqb (provider_name_of env)) object_prototype_keys) eqn:Ex;
    [| discriminate].
  destruct (think_switch_is env "true"); [| discriminate].
  intros H. injection H as <-.
  split; [reflexivity |]. split; [| split; reflexivity].
  apply existsb_exists in Ex. destruct Ex as (k & Hk & Heq).
  apply String.eqb_eq in Heq. now subst k.
Qed.

Lemma or_opt_not_empty (x y : option string) :
  y <> Some "" -> or_opt x y <> Some "".
Proof.
  intros Hy. unfold or_opt. destruct x as [v |]; [| exact Hy].
  destruct (String.eqb_spec v "") as [-> | Hne]; [exact Hy | congruence].
Qed.

Lemma prototype_key_not_provider (name : string) :
  In name object_prototype_keys -> provider_of_name name = None.
Proof.
  cbn. intros H.
  repeat (destruct H as [<- | H]; [reflexivity |]). destruct H.
Qed.

Lemma provider_of_name_in (name : string) :
  (exists p, provider_of_name name = Some p)
  <-> In name ["gemini"; "doubao"; "openai"; "anthropic"].
Proof.
  split.
  - intros (p & H). apply provider_of_name_inv in H. subst name.
    destruct p; cbn; tauto.
  - cbn. intros [<- | [<- | [<- | [<- | []]]]]; eexists; reflexivity.
Qed.

Lemma think_switch_true (env : Env) :
  think_switch_is env "true" = true
  <-> getEnvVar env "AI_THINK_SUPPORT" None = Some "true".
Proof.
  unfold think_switch_is.
  destruct (getEnvVar env "AI_THINK_SUPPORT" None) as [v |]; [| split; discriminate].
  split; [intros H; apply String.eqb_eq in H; now subst v |].
  intros H. injection H as ->. reflexivity.
Qed.

(** The four ways [getModelConfig] ends, by the name looked up. *)
Lemma getModelConfig_cases (env : Env) :
  let name := provider_name_of env in
  let four := ["gemini"; "doubao"; "openai"; "anthropic"] in
  (In name four /\ ~ In name object_prototype_keys
   /\ exists c, getModelConfig env = Config c /\ provider_name (provider c) = name)
  \/ (~ In name four /\ In name object_prototype_keys
      /\ getEnvVar env "AI_THINK_SUPPORT" None = Some "true"
      /\ exists f, getModelConfig env = Foreign f /\ f_provider f = name)
  \/ (~ In name four /\ In name object_prototype_keys
      /\ getEnvVar env "AI_THINK_SUPPORT" None <> Some "true"
      /\ getModelConfig env = TypeError)
  \/ (~ In name four /\ ~ In name object_prototype_keys
      /\ getModelConfig env
         = UnsupportedProvider ("Unsupported model provider: " ++ name)).
Proof.
  intros name four. subst name four.
  pose proof (provider_of_name_in (provider_name_of env)) as Hfour.
  unfold getModelConfig, lookup_provider.
  destruct (provider_of_name (provider_name_of env)) as [p |] eqn:Ep.
  - left. split; [apply Hfour; now exists p |]. split.
    + intros H. apply prototype_key_not_provider in H. congruence.
    + eexists. split; [reflexivity |]. cbn [provider].
      symmetry. now apply provider_of_name_inv.
  - right.
    assert (Hnot : ~ In (provider_name_of env) ["gemini"; "doubao"; "openai"; "anthropic"]).
    { intros H. apply Hfour in H. destruct H as (q & Hq). discriminate. }
    destruct (existsb (String.eqb (provider_name_of env)) object_prototype_keys) eqn:Ex.
    + assert (Hin : In (provider_name_of env) object_prototype_keys).
      { apply existsb_exists in Ex. destruct Ex as (k & Hk & Heq).
        apply String.eqb_eq in Heq. now subst k. }
      destruct (think_switch_is env "true") eqn:Es.
      * left. split; [exact Hnot |]. split; [exact Hin |].
        split; [now apply think_switch_true |].
        eexists. split; reflexivity.
      * right. left. split; [exact Hnot |]. split; [exact Hin |].
        split; [| reflexivity].
        intros H. apply think_switch_true in H. congruence.
    + right. right. split; [exact Hnot |]. split; [| reflexivity].
      intros H.
      assert (Hex : existsb (String.eqb (provider_name_of env)) object_prototype_keys
                    = true)
        by (apply existsb_exists; eexists; split; [exact H | apply String.eqb_refl]).
      congruence.
Qed.

End ModelsFacts.

(** X14.  A configuration that [getModelConfig] returns for one of the
    four providers never has an empty model name, never an empty base
    URL, and lacks a base URL only for the provider gemini; its provider
    is the one named by [AI_PROVIDER], or gemini when that variable is
    unset or empty.  The only other object it returns, for an
    [AI_PROVIDER] that is a member name of [Object.prototype] with
    [AI_THINK_SUPPORT] set to [true], has that name as its provider and
    has a model, a base URL and an embedding model exactly when the
    environment sets them: for it the model and the base URL can be
    absent. *)
Theorem model_config_invariants :
  forall env : Models.Env,
    (forall c,
        Models.getModelConfig env = Models.Config c ->
        model c <> ""
        /\ baseUrl c <> Some ""
        /\ (baseUrl c = None -> provider c = GEMINI)
        /\ provider_name (provider c) = Models.provider_name_of env
        /\ (Models.getEnvVar env "AI_PROVIDER" None = None -> provider c = GEMINI))
    /\ (forall f,
           Models.getModelConfig env = Models.Foreign f ->
           Models.f_provider f = Models.provider_name_of env
           /\ Models.getEnvVar env "AI_PROVIDER" None = Some (Models.f_provider f)
           /\ In (Models.f_provider f) Models.object_prototype_keys
           /\ ~ In (Models.f_provider f) ["gemini"; "doubao"; "openai"; "anthropic"]
           /\ Models.getEnvVar env "AI_THINK_SUPPORT" None = Some "true"
           /\ Models.f_model f
              = Models.or_opt (Models.getEnvVar env "AI_MODEL" None)
                  (Models.getEnvVar env "GEMINI_MODEL" None)
           /\ Models.f_baseUrl f = Models.getEnvVar env "AI_BASE_URL" None
           /\ Models.f_embeddingModel f = Models.getEnvVar env "AI_EMBEDDING_MODEL" None
           /\ Models.f_model f <> Some ""
           /\ Models.f_baseUrl f <> Some "").
Proof.
  intros env. split.
  - intros c H.
    pose proof (getModelConfig_config env c H) as (Hp & Hm & _ & Hb & _).
    repeat split.
    + rewrite Hm.
      destruct (or_opt_keeps_nonempty (Models.getEnvVar env "AI_MODEL" None)
                  (Models.or_opt (Models.getEnvVar env "GEMINI_MODEL" None)
                     (Some (Models.defaultModel (Models.PROVIDER_CONFIGS (provider c))))))
        as (v & -> & Hv); [| exact Hv].
      apply or_opt_keeps_nonempty. eexists. split; [reflexivity |].
      destruct (provider c); discriminate.
    + rewrite Hb. intros Hs. apply or_opt_some in Hs.
      destruct Hs as [[_ Hs] | Hs]; [now apply Hs |].
      destruct (provider c); discriminate.
    + rewrite Hb. unfold Models.getEnvVar, Models.or_opt.
      destruct (env "AI_BASE_URL") as [v |]; [destruct (v =? "")%string |];
        destruct (provider c); (reflexivity || discriminate).
    + symmetry. now apply provider_of_name_inv.
    + intros Hu. rewrite (provider_name_of_unset env Hu) in Hp.
      now injection Hp as <-.
  - intros f H.
    destruct (getModelConfig_foreign env f H) as (Hnone & Hin & Hsw & ->).
    cbn [Models.f_provider Models.f_model Models.f_baseUrl Models.f_embeddingModel].
    assert (Hset : Models.getEnvVar env "AI_PROVIDER" None
                   = Some (Models.provider_name_of env)).
    { destruct (Models.getEnvVar env "AI_PROVIDER" None) as [v |] eqn:Ev.
      - now rewrite (provider_name_of_set env v Ev).
      - rewrite (provider_name_of_unset env Ev) in Hnone. discriminate. }
    assert (Hopt : forall x, Models.or_opt x None = Models.getEnvVar (fun _ => x) "" None)
      by reflexivity.
    assert (Hg : forall key, Models.or_opt (Models.getEnvVar env key None) None
                             = Models.getEnvVar env key None).
    { intros key. unfold Models.getEnvVar, Models.or_opt.
      destruct (env key) as [v |]; [| reflexivity].
      now destruct (v =? "")%string eqn:E; [| rewrite E]. }
    repeat split.
    + exact Hset.
    + exact Hin.
    + intros Hfour. apply provider_of_name_in in Hfour. destruct Hfour as (p & Hp).
      congruence.
    + unfold Models.think_switch_is in Hsw.
      destruct (Models.getEnvVar env "AI_THINK_SUPPORT" None) as [v |]; [| discriminate].
      apply String.eqb_eq in Hsw. now subst v.
    + now rewrite Hg.
    + apply Hg.
    + apply or_opt_not_empty. rewrite Hg. apply or_opt_not_empty. discriminate.
    + apply or_opt_not_empty. discriminate.
Qed.

Lemma model_config_invariants_witness :
  (exists c,
      Models.getModelConfig
        (Models.env_of [("AI_PROVIDER", "doubao"); ("AI_MODEL", ""); ("AI_API_KEY", "k")])
      = Models.Config c
      /\ model c = "doubao-pro-4k"
      /\ model c <> "")
  /\ (exists f,
         Models.getModelConfig
           (Models.env_of [("AI_PROVIDER", "toString"); ("AI_THINK_SUPPORT", "true")])
         = Models.Foreign f
         /\ Models.f_provider f = "toString"
         /\ Models.f_model f = None
         /\ Models.f_baseUrl f = None).
Proof.
  split.
  - eexists. split; [reflexivity |]. split; [reflexivity |].
    apply (proj1 (model_config_invariants
                    (Models.env_of [("AI_PROVIDER", "doubao"); ("AI_MODEL", "");
                                    ("AI_API_KEY", "k")]))
             _ eq_refl).
  - eexists. split; [reflexivity |].
    destruct (proj2 (model_config_invariants
                       (Models.env_of [("AI_PROVIDER", "toString");
                                       ("AI_THINK_SUPPORT", "true")]))
                _ eq_refl)
      as (Hp & _ & _ & _ & _ & Hm & Hb & _).
    split; [exact Hp |]. split; [exact Hm | exact Hb].
Defined.

(** X15.  How [getModelConfig] ends is decided by the name looked up,
    [AI_PROVIDER] or gemini when that is unset or empty.  For the four
    provider names, written in lower case, and only for them, it returns
    a configuration of that provider.  For a member name of
    [Object.prototype] it throws a [TypeError], unless
    [AI_THINK_SUPPORT] is [true]: then it returns an object whose
    provider is that name.  For every other name it throws
    [Unsupported model provider: <name>]. *)
Theorem model_config_outcomes :
  forall env : Models.Env,
    let name := Models.provider_name_of env in
    ((exists c, Models.getModelConfig env = Models.Config c)
     <-> In name ["gemini"; "doubao"; "openai"; "anthropic"])
    /\ (forall c, Models.getModelConfig env = Models.Config c ->
                  provider_name (provider c) = name)
    /\ ((exists f, Models.getModelConfig env = Models.Foreign f)
        <-> In name Models.object_prototype_keys
            /\ Models.getEnvVar env "AI_THINK_SUPPORT" None = Some "true")
    /\ (forall f, Models.getModelConfig env = Models.Foreign f ->
                  Models.f_provider f = name)
    /\ (Models.getModelConfig env = Models.TypeError
        <-> In name Models.object_prototype_keys
            /\ Models.getEnvVar env "AI_THINK_SUPPORT" None <> Some "true")
    /\ ((exists message, Models.getModelConfig env = Models.UnsupportedProvider message)
        <-> ~ In name ["gemini"; "doubao"; "openai"; "anthropic"]
            /\ ~ In name Models.object_prototype_keys)
    /\ (forall message,
           Models.getModelConfig env = Models.UnsupportedProvider message ->
           message = "Unsupported model provider: " ++ name).
Proof.
  intros env name. subst name.
  destruct (getModelConfig_cases env)
    as [(Hin & Hnp & c & Hc & Hname)
       | [(Hnot & Hin & Hsw & f & Hf & Hname)
         | [(Hnot & Hin & Hsw & Hg) | (Hnot & Hnp & Hg)]]].
  - rewrite Hc. split; [split; [intros _; exact Hin | intros _; now exists c] |].
    split; [intros c' H; now injection H as <- |].
    split; [split; [intros (f & H); discriminate | intros [H _]; contradiction] |].
    split; [intros f H; discriminate |].
    split; [split; [discriminate | intros [H _]; contradiction] |].
    split; [split; [intros (m & H); discriminate | intros [H _]; contradiction] |].
    intros m H. discriminate.
  - rewrite Hf. split; [split; [intros (c & H); discriminate | contradiction] |].
    split; [intros c H; discriminate |].
    split; [split; [intros _; now split | intros _; now exists f] |].
    split; [intros f' H; now injection H as <- |].
    split; [split; [discriminate | intros [_ H]; contradiction] |].
    split; [split; [intros (m & H); discriminate | intros [_ H]; contradiction] |].
    intros m H. discriminate.
  - rewrite Hg. split; [split; [intros (c & H); discriminate | contradiction] |].
    split; [intros c H; discriminate |].
    split; [split; [intros (f & H); discriminate | intros [_ H]; contradiction] |].
    split; [intros f H; discriminate |].
    split; [split; [intros _; now split | reflexivity] |].
    split; [split; [intros (m & H); discriminate | intros [_ H]; contradiction] |].
    intros m H. discriminate.
  - rewrite Hg. split; [split; [intros (c & H); discriminate | contradiction] |].
    split; [intros c H; discriminate |].
    split; [split; [intros (f & H); discriminate | intros [H _]; contradiction] |].
    split; [intros f H; discriminate |].
    split; [split; [discriminate | intros [H _]; contradiction] |].
    split; [split; [intros _; now split | intros _; eexists; reflexivity] |].
    intros m H. now injection H as <-.
Qed.

Lemma model_config_outcomes_witness :
  Models.getModelConfig (Models.env_of [("AI_PROVIDER", "OpenAI")])
  = Models.UnsupportedProvider "Unsupported model provider: OpenAI"
  /\ Models.getModelConfig (Models.env_of [("AI_PROVIDER", "constructor")])
     = Models.TypeError.
Proof.
  split.
  - destruct (model_config_outcomes (Models.env_of [("AI_PROVIDER", "OpenAI")]))
      as (_ & _ & _ & _ & _ & Hex & Hmsg).
    destruct (proj2 Hex) as (message & Hm).
    + split; cbn; intuition discriminate.
    + rewrite Hm. f_equal. exact (Hmsg message Hm).
  - apply (proj1 (proj2 (proj2 (proj2 (proj2
             (model_config_outcomes (Models.env_of [("AI_PROVIDER", "constructor")]))))))).
    split; [cbn; tauto | discriminate].
Defined.

(** X16.  For a configuration read from the environment: unless
    [AI_THINK_SUPPORT] is [false], a configuration that has [thinkSupport]
    is also answered [true] by [isThinkingSupported] for its model.  With
    [AI_THINK_SUPPORT] set to [false], [isThinkingSupported] answers
    [false] for every model and provider, yet the configuration keeps
    [thinkSupport] when its model is in the provider's list: the switch
    does not turn it off. *)
Theorem think_switch_and_think_support :
  forall (env : Models.Env) (c : ModelConfig),
    Models.getModelConfig env = Models.Config c ->
    (Models.think_switch_is env "false" = false ->
     thinkSupport c = true ->
     Models.isThinkingSupported env (model c) None = Models.Supported true)
    /\ (Models.think_switch_is env "false" = true ->
        (forall m given,
            Models.isThinkingSupported env m given = Models.Supported false)
        /\ (In (model c)
              (Models.thinkSupportedModels (Models.PROVIDER_CONFIGS (provider c))) ->
            thinkSupport c = true)).
Proof.
  intros env c H.
  pose proof (getModelConfig_config env c H) as (_ & _ & _ & _ & Ht & _).
  split.
  - intros Hoff Hs. unfold Models.isThinkingSupported. rewrite H.
    unfold Models.thinking_of. rewrite Hoff.
    destruct (Models.think_switch_is env "true"); [reflexivity |].
    cbn [orb] in Ht. rewrite <- Ht, Hs. reflexivity.
  - intros Hon.
    assert (Htrue : Models.think_switch_is env "true" = false).
    { unfold Models.think_switch_is in *.
      destruct (Models.getEnvVar env "AI_THINK_SUPPORT" None) as [v |]; [| discriminate].
      apply String.eqb_eq in Hon. now subst v. }
    split.
    + intros m given. unfold Models.isThinkingSupported, Models.thinking_of.
      rewrite H. destruct given; now rewrite Htrue, Hon.
    + intros Hin. rewrite Ht. apply orb_true_iff. right.
      unfold Models.array_includes. apply existsb_exists.
      exists (model c). split; [exact Hin | apply String.eqb_refl].
Qed.

Lemma think_switch_and_think_support_witness :
  let env := Models.env_of [("AI_PROVIDER", "openai"); ("AI_MODEL", "o1-mini");
                            ("AI_THINK_SUPPORT", "false")] in
  exists c,
    Models.getModelConfig env = Models.Config c
    /\ thinkSupport c = true
    /\ Models.isThinkingSupported env (model c) None = Models.Supported false.
Proof.
  intros env. eexists. split; [reflexivity |].
  destruct (think_switch_and_think_support env _ eq_refl) as [_ Hoff].
  destruct (Hoff eq_refl) as [Hall Hlist].
  split; [apply Hlist; cbn; tauto | apply Hall].
Defined.

(** X17.  For a configuration that [getModelConfig] returns for one of
    the four providers, [embedContent] fails as not configured, without
    sending anything, exactly for the provider anthropic with
    [AI_EMBEDDING_MODEL] unset or empty; for every other provider, and
    whenever the variable is set, it sends exactly one POST request, to
    the base URL followed by [/embeddings], with the embedding model of
    the variable or else of the provider.  The object returned for a
    member name of [Object.prototype] has an embedding model only when
    the variable is set. *)
Theorem embeddings_unavailable_only_for_anthropic :
  forall (env : Models.Env) (items : list ContentItem),
    (forall c,
        Models.getModelConfig env = Models.Config c ->
        (FetchClient.embedContent c items = Throw (FetchClient.not_configured c)
         <-> provider c = ANTHROPIC
             /\ Models.getEnvVar env "AI_EMBEDDING_MODEL" None = None)
        /\ (provider c = ANTHROPIC
            /\ Models.getEnvVar env "AI_EMBEDDING_MODEL" None = None ->
            forall responses,
              requests responses (FetchClient.embedContent c items) = [])
        /\ (provider c <> ANTHROPIC
            \/ Models.getEnvVar env "AI_EMBEDDING_MODEL" None <> None ->
            exists m,
              Models.or_opt (Models.getEnvVar env "AI_EMBEDDING_MODEL" None)
                (Some (Models.pc_embeddingModel (Models.PROVIDER_CONFIGS (provider c))))
              = Some m
              /\ m <> ""
              /\ sent_body (FetchClient.embedContent c items)
                 = Some (FetchClient.mkEmbeddingBody m items)
              /\ forall responses,
                   requests responses (FetchClient.embedContent c items)
                   = [(match baseUrl c with Some u => u | None => "undefined" end
                       ++ "/embeddings", "POST")]))
    /\ (forall f,
           Models.getModelConfig env = Models.Foreign f ->
           Models.f_embeddingModel f = Models.getEnvVar env "AI_EMBEDDING_MODEL" None).
Proof.
  intros env items. split.
  - intros c H.
    pose proof (getModelConfig_config env c H) as (_ & _ & _ & _ & _ & He).
    assert (Hcases :
      (provider c = ANTHROPIC
       /\ Models.getEnvVar env "AI_EMBEDDING_MODEL" None = None
       /\ embeddingModel c = Some "")
      \/ ((provider c <> ANTHROPIC
           \/ Models.getEnvVar env "AI_EMBEDDING_MODEL" None <> None)
          /\ exists m, embeddingModel c = Some m /\ m <> "")).
    { rewrite He.
      destruct (Models.getEnvVar env "AI_EMBEDDING_MODEL" None) as [v |] eqn:Ev.
      - right. split; [right; discriminate |].
        exists v. split; [apply or_opt_set |]; exact (getEnvVar_set _ _ _ Ev).
      - cbn [Models.or_opt].
        destruct (provider c) eqn:Ep;
          try (right; split; [left; discriminate | eexists; split;
                              [reflexivity | discriminate]]).
        left. repeat split. }
    destruct Hcases as [(Hp & Hv & Hm) | (Hor & m & Hm & Hne)].
    + assert (Hthrow : FetchClient.embedContent c items
                       = Throw (FetchClient.not_configured c))
        by (unfold FetchClient.embedContent; now rewrite Hm).
      split; [split; [intros _; now split | intros _; exact Hthrow] |].
      split.
      * intros _ responses. now rewrite Hthrow.
      * intros [Hn | Hn]; contradiction.
    + pose proof Hne as Hneb. apply String.eqb_neq in Hneb.
      assert (Hfetch : FetchClient.embedContent c items
                = Fetch (match baseUrl c with Some u => u | None => "undefined" end
                         ++ "/embeddings")
                    (mkFetchInit "POST" (json_headers c)
                       (FetchClient.mkEmbeddingBody m items))
                    (fun response =>
                       if ok response
                       then Return (FetchClient.data (payload response))
                       else Throw (http_error response)))
        by (unfold FetchClient.embedContent; now rewrite Hm, Hneb).
      split; [split |].
      * rewrite Hfetch. discriminate.
      * intros [Hp Hv]. destruct Hor as [Hn | Hn]; contradiction.
      * split; [intros [Hp Hv]; destruct Hor as [Hn | Hn]; contradiction |].
        intros _. exists m. rewrite <- He. split; [exact Hm |]. split; [exact Hne |].
        rewrite Hfetch. split; [reflexivity |].
        intros responses. destruct responses as [|r rest]; [reflexivity |].
        cbn. now destruct (ok r).
  - intros f H.
    destruct (getModelConfig_foreign env f H) as (_ & _ & _ & ->).
    cbn [Models.f_embeddingModel].
    unfold Models.getEnvVar, Models.or_opt.
    destruct (env "AI_EMBEDDING_MODEL") as [v |]; [| reflexivity].
    now destruct (v =? "")%string eqn:E; [| rewrite E].
Qed.

Lemma embeddings_unavailable_only_for_anthropic_witness :
  (let env := Models.env_of [("AI_PROVIDER", "anthropic"); ("AI_API_KEY", "k")] in
   exists c,
     Models.getModelConfig env = Models.Config c
     /\ FetchClient.embedContent c [ItemString "text"]
        = Throw "Embedding model not configured for provider: anthropic")
  /\ (let env := Models.env_of [("AI_API_KEY", "k")] in
      exists c,
        Models.getModelConfig env = Models.Config c
        /\ requests [] (FetchClient.embedContent c [ItemString "text"])
           = [("undefined/embeddings", "POST")]).
Proof.
  split.
  - intros env. eexists. split; [reflexivity |].
    apply (proj2 (proj1 (proj1 (embeddings_unavailable_only_for_anthropic env
                                  [ItemString "text"]) _ eq_refl))).
    split; reflexivity.
  - intros env. eexists. split; [reflexivity |].
    destruct (proj2 (proj2 (proj1 (embeddings_unavailable_only_for_anthropic env
                                     [ItemString "text"]) _ eq_refl)))
      as (m & _ & _ & _ & Hreq).
    + left. discriminate.
    + exact (Hreq []).
Defined.

(** ** Choosing the content generator *)

Section GeneratorFacts.

Import Models ContentGenerator Auth.

Lemma is_set_or_opt (x y : option string) :
  is_set (or_opt x y) = is_set x || is_set y.
Proof.
  unfold or_opt, is_set. destruct x as [v |]; [| reflexivity].
  destruct (v =? "")%string eqn:E; cbn [negb orb]; [reflexivity | now rewrite E].
Qed.

Lemma is_set_or_empty (o : option string) : is_set (Some (JS.or_empty o)) = is_set o.
Proof. now destruct o. Qed.

Lemma is_set_api_key (env : Env) :
  is_set (Some (api_key_of env))
  = is_set (env "AI_API_KEY") || is_set (env "GEMINI_API_KEY")
    || is_set (env "OPENAI_API_KEY") || is_set (env "ANTHROPIC_API_KEY").
Proof.
  unfold api_key_of, getEnvVar.
  rewrite is_set_or_empty, !is_set_or_opt. cbn [is_set String.eqb negb].
  now rewrite !orb_false_r, !orb_assoc.
Qed.

Lemma is_set_nonempty (v : string) : is_set (Some v) = true <-> v <> "".
Proof.
  unfold is_set. rewrite negb_true_iff. apply String.eqb_neq.
Qed.

Variable getEffectiveModel : string -> string -> option string.

(** Without a Gemini key the Gemini steps always give a configuration,
    with the model, the base URL and the provider they were given. *)
Lemma gemini_steps_without_key (env : Env) (cfg : ContentGeneratorConfig)
    (geminiApiKey googleApiKey : option string) :
  is_set geminiApiKey = false ->
  exists cfg',
    gemini_steps getEffectiveModel env cfg geminiApiKey googleApiKey = Some cfg'
    /\ cg_provider cfg' = cg_provider cfg
    /\ cg_baseUrl cfg' = cg_baseUrl cfg
    /\ cg_model cfg' = cg_model cfg
    /\ (authType cfg = Some USE_GEMINI -> cfg' = cfg).
Proof.
  intros Hkey. unfold gemini_steps. rewrite Hkey.
  destruct (authType cfg) as [[| | |] |]; cbn [google_login].
  - exists cfg. repeat split.
  - exists cfg. repeat split.
  - destruct (is_set googleApiKey
              || is_set (env "GOOGLE_CLOUD_PROJECT") && is_set (env "GOOGLE_CLOUD_LOCATION"));
      eexists; (split; [reflexivity |]); repeat split; discriminate.
  - exists cfg. repeat split.
  - exists cfg. repeat split.
Qed.

(** Without a Gemini key in the environment the fallback always builds
    a Gemini configuration, with the requested model or the default
    one. *)
Lemma fallback_without_gemini_key (env : Env) (requested : option string)
    (a : option AuthType) :
  is_set (env "GEMINI_API_KEY") = false ->
  exists cfg,
    fallback getEffectiveModel env requested a = Built cfg
    /\ cg_provider cfg = Some GEMINI
    /\ cg_baseUrl cfg = None
    /\ cg_model cfg = JS.or_empty (or_opt requested (Some DEFAULT_GEMINI_MODEL))
    /\ (a = Some USE_GEMINI -> cg_apiKey cfg = None).
Proof.
  intros Hkey. unfold fallback.
  destruct (gemini_steps_without_key env
              (mkGeneratorConfig
                 (JS.or_empty (or_opt requested (Some DEFAULT_GEMINI_MODEL)))
                 None None a None (Some GEMINI))
              (or_opt (env "GEMINI_API_KEY") None)
              (or_opt (env "GOOGLE_API_KEY") None))
    as (cfg' & -> & Hp & Hb & Hm & Ha).
  { rewrite is_set_or_opt, Hkey. reflexivity. }
  exists cfg'. split; [reflexivity |]. repeat split; try assumption.
  intros ->. now rewrite (Ha eq_refl).
Qed.

End GeneratorFacts.

Section GeneratorSteps.

Import Models ContentGenerator.

Variable getEffectiveModel : string -> string -> option string.

(** The Gemini steps fail only through a rejection of
    [getEffectiveModel], which is asked only for the auth type
    [gemini-api-key] with a key. *)
Lemma gemini_steps_none (env : Env) (cfg : ContentGeneratorConfig)
    (geminiApiKey googleApiKey : option string) :
  gemini_steps getEffectiveModel env cfg geminiApiKey googleApiKey = None ->
  authType cfg = Some USE_GEMINI
  /\ is_set geminiApiKey = true
  /\ getEffectiveModel (JS.or_empty geminiApiKey) (cg_model cfg) = None.
Proof.
  unfold gemini_steps.
  destruct (google_login (authType cfg)); [discriminate |].
  destruct (authType cfg) as [[| | |] |]; destruct (is_set geminiApiKey);
    try discriminate;
    try (destruct (is_set googleApiKey
                   || is_set (env "GOOGLE_CLOUD_PROJECT")
                      && is_set (env "GOOGLE_CLOUD_LOCATION")); discriminate).
  destruct (getEffectiveModel (JS.or_empty geminiApiKey) (cg_model cfg)) eqn:E;
    [discriminate | now intros _].
Qed.

Lemma fallback_rejected (env : Env) (requested : option string) (a : option AuthType) :
  fallback getEffectiveModel env requested a = Rejected ->
  a = Some USE_GEMINI
  /\ exists key,
       env "GEMINI_API_KEY" = Some key
       /\ key <> ""
       /\ getEffectiveModel key
            (JS.or_empty (or_opt requested (Some DEFAULT_GEMINI_MODEL))) = None.
Proof.
  unfold fallback.
  match goal with
  | |- context [gemini_steps ?g ?e ?c ?k ?k'] =>
      pose proof (gemini_steps_none e c k k') as Hn;
      destruct (gemini_steps g e c k k')
  end; [discriminate |].
  intros _. destruct (Hn eq_refl) as (Ha & Hset & Hrej).
  cbn [authType cg_model] in Ha, Hrej. split; [exact Ha |].
  unfold or_opt, is_set in Hset, Hrej.
  destruct (env "GEMINI_API_KEY") as [key |]; [| discriminate].
  destruct (String.eqb_spec key "") as [-> | Hne]; [discriminate |].
  exists key. now repeat split.
Qed.

End GeneratorSteps.

(** X18.  When the environment names a provider other than gemini but
    holds no API key, [createContentGeneratorConfig] does not fail: the
    error [API Key is required] is caught inside, and what comes back is a
    Gemini configuration without base URL, with the requested model or the
    default Gemini model; the provider and the model of the environment
    are lost. *)
Theorem missing_api_key_falls_back_to_gemini :
  forall (getEffectiveModel : string -> string -> option string) (env : Models.Env)
         (requested : option string) (a : option ContentGenerator.AuthType)
         (modelConfig : ModelConfig),
    Models.getModelConfig env = Models.Config modelConfig ->
    provider modelConfig <> GEMINI ->
    apiKey modelConfig = "" ->
    exists cfg,
      ContentGenerator.createContentGeneratorConfig getEffectiveModel env requested a
      = ContentGenerator.Built cfg
      /\ ContentGenerator.cg_provider cfg = Some GEMINI
      /\ ContentGenerator.cg_baseUrl cfg = None
      /\ ContentGenerator.cg_model cfg
         = JS.or_empty (Models.or_opt requested (Some Models.DEFAULT_GEMINI_MODEL)).
Proof.
  intros gEM env requested a mc H Hp Hk.
  assert (Hg : ContentGenerator.is_set (env "GEMINI_API_KEY") = false).
  { pose proof (getModelConfig_config env mc H) as (_ & _ & Hkey & _).
    pose proof (is_set_api_key env) as Hs. rewrite <- Hkey, Hk in Hs.
    cbn in Hs. symmetry in Hs.
    apply orb_false_iff in Hs. destruct Hs as [Hs _].
    apply orb_false_iff in Hs. destruct Hs as [Hs _].
    apply orb_false_iff in Hs. now destruct Hs as [_ Hs]. }
  destruct (fallback_without_gemini_key gEM env requested a Hg)
    as (cfg & Hf & Hprov & Hb & Hm & _).
  exists cfg. split; [| now repeat split].
  unfold ContentGenerator.createContentGeneratorConfig. rewrite H, Hk.
  destruct (provider mc); [congruence | | |]; exact Hf.
Qed.

Lemma missing_api_key_falls_back_to_gemini_witness :
  exists cfg,
    ContentGenerator.createContentGeneratorConfig (fun _ m => Some m)
      (Models.env_of [("AI_PROVIDER", "openai"); ("AI_MODEL", "gpt-4o-mini")])
      None (Some ContentGenerator.USE_GEMINI)
    = ContentGenerator.Built cfg
    /\ ContentGenerator.cg_provider cfg = Some GEMINI
    /\ ContentGenerator.cg_baseUrl cfg = None
    /\ ContentGenerator.cg_model cfg = "gemini-2.5-pro".
Proof.
  apply (missing_api_key_falls_back_to_gemini (fun _ m => Some m)
           (Models.env_of [("AI_PROVIDER", "openai"); ("AI_MODEL", "gpt-4o-mini")])
           None (Some ContentGenerator.USE_GEMINI) _ eq_refl);
    [discriminate | reflexivity].
Defined.

(** X19.  The only error that reaches the caller of
    [createContentGeneratorConfig] is a rejection of [getEffectiveModel]
    inside the [catch] block, which is asked only for the auth type
    [gemini-api-key] with [GEMINI_API_KEY] set: an unsupported provider,
    a missing API key and a rejection of [getEffectiveModel] inside the
    [try] block are all caught.  In particular, when the key of the
    Gemini configuration comes from another variable than
    [GEMINI_API_KEY] and the model check of the [try] block is rejected,
    the call returns a Gemini configuration without API key.
    [getEffectiveModel] is taken as a function of its two arguments. *)
Theorem generator_config_errors_are_caught :
  forall (getEffectiveModel : string -> string -> option string) (env : Models.Env)
         (requested : option string) (a : option ContentGenerator.AuthType),
    (ContentGenerator.createContentGeneratorConfig getEffectiveModel env requested a
     = ContentGenerator.Rejected ->
     a = Some ContentGenerator.USE_GEMINI
     /\ exists key,
          env "GEMINI_API_KEY" = Some key
          /\ key <> ""
          /\ getEffectiveModel key
               (JS.or_empty (Models.or_opt requested (Some Models.DEFAULT_GEMINI_MODEL)))
             = None)
    /\ (forall modelConfig,
           Models.getModelConfig env = Models.Config modelConfig ->
           provider modelConfig = GEMINI ->
           a = Some ContentGenerator.USE_GEMINI ->
           ContentGenerator.is_set (env "GEMINI_API_KEY") = false ->
           apiKey modelConfig <> "" ->
           getEffectiveModel (apiKey modelConfig)
             (JS.or_empty
                (Models.or_opt requested
                   (Models.or_opt (Some (model modelConfig))
                      (Some Models.DEFAULT_GEMINI_MODEL))))
           = None ->
           ContentGenerator.createContentGeneratorConfig getEffectiveModel env requested a
           = ContentGenerator.Built
               (ContentGenerator.mkGeneratorConfig
                  (JS.or_empty
                     (Models.or_opt requested (Some Models.DEFAULT_GEMINI_MODEL)))
                  None None a None (Some GEMINI))).
Proof.
  intros gEM env requested a. split.
  - intros H. apply (fallback_rejected gEM env requested a).
    revert H. unfold ContentGenerator.createContentGeneratorConfig.
    destruct (Models.getModelConfig env) as [mc | msg | | f]; try (intros H; exact H).
    + destruct (provider mc);
        try (destruct (apiKey mc =? "")%string; [intros H; exact H | discriminate]).
      match goal with
      | |- context [ContentGenerator.gemini_steps ?g ?e ?c ?k ?k'] =>
          destruct (ContentGenerator.gemini_steps g e c k k')
      end; [discriminate | intros H; exact H].
    + destruct (Models.f_apiKey f =? "")%string; [intros H; exact H | discriminate].
  - intros mc H Hp -> Hg Hkey Hrej.
    assert (Hk : Models.or_opt (env "GEMINI_API_KEY") (Some (apiKey mc))
                 = Some (apiKey mc)).
    { unfold Models.or_opt, ContentGenerator.is_set in *.
      destruct (env "GEMINI_API_KEY") as [v |]; [| reflexivity].
      destruct (v =? "")%string; [reflexivity | discriminate]. }
    unfold ContentGenerator.createContentGeneratorConfig. rewrite H, Hp.
    unfold ContentGenerator.gemini_steps at 1.
    cbn [ContentGenerator.authType ContentGenerator.google_login
         ContentGenerator.cg_model].
    rewrite Hk. cbn [JS.or_empty].
    apply String.eqb_neq in Hkey.
    unfold ContentGenerator.is_set at 1. rewrite Hkey. cbn [negb].
    rewrite Hrej.
    unfold ContentGenerator.fallback.
    destruct (gemini_steps_without_key gEM env
                (ContentGenerator.mkGeneratorConfig
                   (JS.or_empty
                      (Models.or_opt requested (Some Models.DEFAULT_GEMINI_MODEL)))
                   None None (Some ContentGenerator.USE_GEMINI) None (Some GEMINI))
                (Models.or_opt (env "GEMINI_API_KEY") None)
                (Models.or_opt (env "GOOGLE_API_KEY") None))
      as (cfg' & -> & _ & _ & _ & Hsame).
    { rewrite is_set_or_opt, Hg. reflexivity. }
    now rewrite (Hsame eq_refl).
Qed.

Lemma generator_config_errors_are_caught_witness :
  ContentGenerator.createContentGeneratorConfig (fun _ _ => None)
    (Models.env_of [("AI_API_KEY", "k")]) None (Some ContentGenerator.USE_GEMINI)
  = ContentGenerator.Built
      (ContentGenerator.mkGeneratorConfig "gemini-2.5-pro" None None
         (Some ContentGenerator.USE_GEMINI) None (Some GEMINI)).
Proof.
  apply (proj2 (generator_config_errors_are_caught (fun _ _ => None)
                  (Models.env_of [("AI_API_KEY", "k")]) None
                  (Some ContentGenerator.USE_GEMINI))
           _ eq_refl eq_refl eq_refl eq_refl);
    [discriminate | reflexivity].
Defined.

(** X20.  For a provider other than gemini with an API key, and an auth
    type that is not a Google login, the configuration built carries the
    requested model, but the generator made from it is the
    OpenAI-compatible client of the configuration read again from the
    environment: the client uses the model of the environment, and the
    requested model is not passed on. *)
Theorem requested_model_not_passed_on :
  forall (getEffectiveModel : string -> string -> option string) (env : Models.Env)
         (requested : option string) (a : option ContentGenerator.AuthType)
         (modelConfig : ModelConfig),
    Models.getModelConfig env = Models.Config modelConfig ->
    provider modelConfig <> GEMINI ->
    apiKey modelConfig <> "" ->
    ContentGenerator.google_login a = false ->
    exists cfg,
      ContentGenerator.createContentGeneratorConfig getEffectiveModel env requested a
      = ContentGenerator.Built cfg
      /\ (forall m, requested = Some m -> m <> "" -> ContentGenerator.cg_model cfg = m)
      /\ ContentGenerator.createContentGenerator env cfg
         = ContentGenerator.Made (ContentGenerator.OpenAICompatible modelConfig).
Proof.
  intros gEM env requested a mc H Hp Hk Hg.
  apply String.eqb_neq in Hk.
  unfold ContentGenerator.createContentGeneratorConfig. rewrite H, Hk.
  destruct (provider mc) eqn:Ep; [congruence | | |];
    (eexists; split; [reflexivity |]; split;
     [intros m -> Hm; cbn [ContentGenerator.cg_model];
      now rewrite (or_opt_set _ _ Hm)
     | unfold ContentGenerator.createContentGenerator;
       cbn [ContentGenerator.authType ContentGenerator.cg_provider];
       rewrite H; now destruct a as [[| | |] |]]).
Qed.

Lemma requested_model_not_passed_on_witness :
  let env := Models.env_of [("AI_PROVIDER", "openai"); ("AI_API_KEY", "k")] in
  exists cfg c,
    ContentGenerator.createContentGeneratorConfig (fun _ m => Some m) env
      (Some "o1-mini") None
    = ContentGenerator.Built cfg
    /\ ContentGenerator.cg_model cfg = "o1-mini"
    /\ ContentGenerator.createContentGenerator env cfg
       = ContentGenerator.Made (ContentGenerator.OpenAICompatible c)
    /\ model c = "gpt-4o".
Proof.
  intros env.
  destruct (requested_model_not_passed_on (fun _ m => Some m) env (Some "o1-mini") None
              _ eq_refl ltac:(discriminate) ltac:(discriminate) eq_refl)
    as (cfg & Hb & Hm & Hc).
  exists cfg. eexists. split; [exact Hb |].
  split; [apply Hm; [reflexivity | discriminate] |].
  split; [exact Hc | reflexivity].
Defined.

(** X21.  [createContentGenerator] throws [Unsupported authType] exactly
    when the configuration has no auth type and its provider is absent or
    gemini; the message then ends in [undefined]. *)
Theorem unsupported_auth_type_only_without_auth_type :
  forall (env : Models.Env) (config : ContentGenerator.ContentGeneratorConfig),
    ((exists message,
         ContentGenerator.createContentGenerator env config
         = ContentGenerator.UnsupportedAuthType message)
     <-> ContentGenerator.authType config = None
         /\ (ContentGenerator.cg_provider config = None
             \/ ContentGenerator.cg_provider config = Some GEMINI))
    /\ (forall message,
           ContentGenerator.createContentGenerator env config
           = ContentGenerator.UnsupportedAuthType message ->
           message = "Error creating contentGenerator: Unsupported authType: undefined").
Proof.
  intros env config. unfold ContentGenerator.createContentGenerator.
  destruct (ContentGenerator.authType config) as [[| | |] |];
    destruct (ContentGenerator.cg_provider config) as [[| | |] |];
    try destruct (Models.getModelConfig env);
    (split; [split |]);
    try (intros (m & Hm); discriminate);
    try (intros (Ha & Hp); (discriminate || (destruct Hp; discriminate)));
    try (intros m Hm; discriminate);
    try (intros m Hm; now injection Hm as <-);
    try (intros _; split; [reflexivity | auto]);
    try (intros _; eexists; reflexivity).
Qed.

Lemma unsupported_auth_type_only_without_auth_type_witness :
  ContentGenerator.createContentGenerator (Models.env_of [])
    (ContentGenerator.mkGeneratorConfig "gemini-2.5-pro" None None None None
       (Some GEMINI))
  = ContentGenerator.UnsupportedAuthType
      "Error creating contentGenerator: Unsupported authType: undefined".
Proof.
  destruct (proj2 (proj1 (unsupported_auth_type_only_without_auth_type
                            (Models.env_of [])
                            (ContentGenerator.mkGeneratorConfig "gemini-2.5-pro"
                               None None None None (Some GEMINI))))
              (conj eq_refl (or_intror eq_refl)))
    as (message & Hm).
  rewrite Hm. f_equal.
  exact (proj2 (unsupported_auth_type_only_without_auth_type _ _) message Hm).
Defined.

(** ** Validating the auth method *)

(** X22.  When [AI_PROVIDER] and [AI_API_KEY] are set and name a
    provider other than gemini, every auth method is accepted, also a text
    that is no auth method at all.  Otherwise the answer
    [Invalid auth method selected.] is given exactly for the texts that
    are none of the four auth methods. *)
Theorem auth_method_validation :
  forall (env : Models.Env) (authMethod : string),
    (forall modelConfig,
        ContentGenerator.is_set (env "AI_PROVIDER") = true ->
        ContentGenerator.is_set (env "AI_API_KEY") = true ->
        Models.getModelConfig env = Models.Config modelConfig ->
        provider modelConfig <> GEMINI ->
        Auth.validateAuthMethod env authMethod = None)
    /\ (Auth.other_provider_configured env = false ->
        (Auth.validateAuthMethod env authMethod = Some "Invalid auth method selected."
         <-> ~ In authMethod
               ["oauth-personal"; "cloud-shell"; "gemini-api-key"; "vertex-ai"])).
Proof.
  intros env m. split.
  - intros mc Hp Hk H Hne. unfold Auth.validateAuthMethod, Auth.other_provider_configured.
    rewrite Hp, Hk, H. now destruct (provider mc).
  - intros Hother. unfold Auth.validateAuthMethod. rewrite Hother.
    cbn [ContentGenerator.auth_type_name In].
    destruct (String.eqb_spec m "oauth-personal") as [-> | H1];
      [split; [discriminate | tauto] |].
    destruct (String.eqb_spec m "cloud-shell") as [-> | H2];
      [split; [discriminate | tauto] |].
    cbn [orb].
    destruct (String.eqb_spec m "gemini-api-key") as [-> | H3].
    { destruct (ContentGenerator.is_set _); split; (discriminate || tauto). }
    destruct (String.eqb_spec m "vertex-ai") as [-> | H4].
    { destruct (negb _ && negb _); split; (discriminate || tauto). }
    split; [| reflexivity]. intros _ [H | [H | [H | [H | []]]]]; congruence.
Qed.

Lemma auth_method_validation_witness :
  Auth.validateAuthMethod
    (Models.env_of [("AI_PROVIDER", "doubao"); ("AI_API_KEY", "k")]) "no-such-method"
  = None
  /\ Auth.validateAuthMethod (Models.env_of []) "no-such-method"
     = Some "Invalid auth method selected.".
Proof.
  split.
  - eapply (proj1 (auth_method_validation _ "no-such-method"));
      [reflexivity | reflexivity | reflexivity | discriminate].
  - apply (proj2 (auth_method_validation (Models.env_of []) "no-such-method") eq_refl).
    cbn. intros [H | [H | [H | [H | []]]]]; discriminate.
Defined.

(** X23.  For the provider gemini, an accepted [gemini-api-key] method
    guarantees the key: when [validateAuthMethod] accepts it and
    [getEffectiveModel] answers, [createContentGeneratorConfig] builds a
    configuration that carries a non-empty API key. *)
Theorem accepted_gemini_key_is_configured :
  forall (getEffectiveModel : string -> string -> option string) (env : Models.Env)
         (requested : option string) (modelConfig : ModelConfig),
    Models.getModelConfig env = Models.Config modelConfig ->
    provider modelConfig = GEMINI ->
    Auth.validateAuthMethod env "gemini-api-key" = None ->
    (forall key m, getEffectiveModel key m <> None) ->
    exists cfg key,
      ContentGenerator.createContentGeneratorConfig getEffectiveModel env requested
        (Some ContentGenerator.USE_GEMINI)
      = ContentGenerator.Built cfg
      /\ ContentGenerator.cg_apiKey cfg = Some key
      /\ key <> ""
      /\ ContentGenerator.cg_provider cfg = Some GEMINI.
Proof.
  intros gEM env requested mc H Hp Hv Hok.
  assert (Hkeys : ContentGenerator.is_set
                    (Models.or_opt (env "AI_API_KEY") (env "GEMINI_API_KEY")) = true).
  { unfold Auth.validateAuthMethod, Auth.other_provider_configured in Hv.
    rewrite H, Hp in Hv.
    destruct (ContentGenerator.is_set (env "AI_PROVIDER")
              && ContentGenerator.is_set (env "AI_API_KEY")) in Hv;
      cbn in Hv;
      now destruct (ContentGenerator.is_set
                      (Models.or_opt (env "AI_API_KEY") (env "GEMINI_API_KEY"))). }
  pose proof (getModelConfig_config env mc H) as (_ & _ & Hkey & _).
  assert (Hset : ContentGenerator.is_set
                   (Models.or_opt (env "GEMINI_API_KEY") (Some (apiKey mc))) = true).
  { rewrite is_set_or_opt, Hkey, is_set_api_key.
    rewrite is_set_or_opt in Hkeys.
    destruct (ContentGenerator.is_set (env "AI_API_KEY"));
      destruct (ContentGenerator.is_set (env "GEMINI_API_KEY"));
      (reflexivity || discriminate). }
  unfold ContentGenerator.createContentGeneratorConfig. rewrite H, Hp.
  unfold ContentGenerator.gemini_steps.
  cbn [ContentGenerator.authType ContentGenerator.google_login]. rewrite Hset.
  match goal with
  | |- context [gEM ?k ?m] =>
      pose proof (Hok k m) as Hm; destruct (gEM k m) as [m' |]; [| congruence]
  end.
  do 2 eexists. split; [reflexivity |]. split; [reflexivity |].
  split; [| reflexivity].
  apply is_set_nonempty. now rewrite is_set_or_empty.
Qed.

Lemma accepted_gemini_key_is_configured_witness :
  exists cfg,
    ContentGenerator.createContentGeneratorConfig (fun _ m => Some m)
      (Models.env_of [("AI_API_KEY", "secret")]) None (Some ContentGenerator.USE_GEMINI)
    = ContentGenerator.Built cfg
    /\ ContentGenerator.cg_apiKey cfg = Some "secret".
Proof.
  destruct (accepted_gemini_key_is_configured (fun _ m => Some m)
              (Models.env_of [("AI_API_KEY", "secret")]) None _ eq_refl eq_refl eq_refl
              ltac:(discriminate))
    as (cfg & key & Hb & Hk & _).
  exists cfg. split; [exact Hb |].
  rewrite Hk. revert Hb Hk. cbn. intros Hb. injection Hb as <-. cbn.
  intros Hk. now injection Hk as <-.
Defined.

(** X24.  With an unsupported provider name the two disagree: when
    [AI_API_KEY] is set and [GEMINI_API_KEY] is not, [validateAuthMethod]
    accepts [gemini-api-key], but [createContentGeneratorConfig] falls
    back to a Gemini configuration that carries no API key. *)
Theorem unsupported_provider_accepted_without_key :
  forall (getEffectiveModel : string -> string -> option string) (env : Models.Env)
         (requested : option string) (message : string),
    Models.getModelConfig env = Models.UnsupportedProvider message ->
    ContentGenerator.is_set (env "AI_API_KEY") = true ->
    ContentGenerator.is_set (env "GEMINI_API_KEY") = false ->
    Auth.validateAuthMethod env "gemini-api-key" = None
    /\ exists cfg,
         ContentGenerator.createContentGeneratorConfig getEffectiveModel env requested
           (Some ContentGenerator.USE_GEMINI)
         = ContentGenerator.Built cfg
         /\ ContentGenerator.cg_apiKey cfg = None
         /\ ContentGenerator.cg_provider cfg = Some GEMINI.
Proof.
  intros gEM env requested message H Hai Hg. split.
  - unfold Auth.validateAuthMethod, Auth.other_provider_configured. rewrite H, Hai.
    destruct (ContentGenerator.is_set (env "AI_PROVIDER")); cbn;
      now rewrite is_set_or_opt, Hai.
  - destruct (fallback_without_gemini_key gEM env requested
                (Some ContentGenerator.USE_GEMINI) Hg)
      as (cfg & Hf & Hp & _ & _ & Hk).
    exists cfg. unfold ContentGenerator.createContentGeneratorConfig. rewrite H.
    split; [exact Hf |]. split; [now apply Hk | exact Hp].
Qed.

Lemma unsupported_provider_accepted_without_key_witness :
  let env := Models.env_of [("AI_PROVIDER", "mistral"); ("AI_API_KEY", "secret")] in
  Auth.validateAuthMethod env "gemini-api-key" = None
  /\ exists cfg,
       ContentGenerator.createContentGeneratorConfig (fun _ m => Some m) env None
         (Some ContentGenerator.USE_GEMINI)
       = ContentGenerator.Built cfg
       /\ ContentGenerator.cg_apiKey cfg = None
       /\ ContentGenerator.cg_provider cfg = Some GEMINI.
Proof.
  intros env.
  apply (unsupported_provider_accepted_without_key (fun _ m => Some m) env None
           "Unsupported model provider: mistral");
    reflexivity.
Defined.

(** ** The client built on the OpenAI library: responses *)

Section SdkResponseFacts.

Import JS SdkClient.

(** The counterpart of [extract_first_pattern] for
    [extractReasoningContent]. *)
Lemma sdk_extract_first_pattern (pre inner post : string) :
  includes "<thinking>" pre = false ->
  includes "</thinking>" inner = false ->
  extract_thinking thinkingPatterns
    (pre ++ "<thinking>" ++ inner ++ "</thinking>" ++ post)
  = (trim (pre ++ post), trim inner).
Proof.
  intros Hpre Hinner.
  unfold thinkingPatterns. cbn [extract_thinking]. unfold match_lazy.
  rewrite (cut_first "<thinking>" pre (inner ++ "</thinking>" ++ post) eq_refl Hpre).
  rewrite (cut_first "</thinking>" inner post eq_refl Hinner).
  unfold remove_first, cut.
  pose proof (cut_go_first "<thinking>" (inner ++ "</thinking>") pre post eq_refl ""
                Hpre) as Hc.
  rewrite !append_assoc in Hc. now rewrite Hc.
Qed.

End SdkResponseFacts.

(** X25.  In the client built on the OpenAI library a response without
    tool calls that carries a [reasoning_content] gives that text as the
    thinking part and the message content untouched (not trimmed, not
    searched for delimiters) as the text part.  Without
    [reasoning_content], a content in which the first delimiter pair is
    found is split as in the fetch-based client, whether or not the
    request asked for thoughts. *)
Theorem reasoning_field_has_priority :
  forall (JSON_parse : string -> option Json) (response : SdkClient.ChatCompletion)
         (choice : SdkClient.Choice) (rest : list SdkClient.Choice),
    SdkClient.choices response = choice :: rest ->
    SdkClient.tool_calls (SdkClient.message choice) = None ->
    (forall reasoning,
        SdkClient.reasoning_content (SdkClient.message choice) = Some reasoning ->
        reasoning <> "" ->
        exists r,
          SdkClient.from_response JSON_parse response = inl r
          /\ map cand_parts (candidates r)
             = [PThinking reasoning
                :: (if (JS.or_empty (SdkClient.content (SdkClient.message choice))
                        =? "")%string
                    then []
                    else [PText (JS.or_empty
                                   (SdkClient.content (SdkClient.message choice)))])])
    /\ (forall pre inner post,
           JS.or_empty (SdkClient.reasoning_content (SdkClient.message choice)) = "" ->
           SdkClient.content (SdkClient.message choice)
           = Some (pre ++ "<thinking>" ++ inner ++ "</thinking>" ++ post) ->
           JS.includes "<thinking>" pre = false ->
           JS.includes "</thinking>" inner = false ->
           JS.trim inner <> "" ->
           exists r,
             SdkClient.from_response JSON_parse response = inl r
             /\ map cand_parts (candidates r)
                = [PThinking (JS.trim inner)
                   :: (if (JS.trim (pre ++ post) =? "")%string then []
                       else [PText (JS.trim (pre ++ post))])]).
Proof.
  intros P response choice rest Hc Htc. split.
  - intros reasoning Hr Hne. apply String.eqb_neq in Hne.
    unfold SdkClient.from_response. rewrite Hc, Htc.
    unfold SdkClient.extractReasoningContent. rewrite Hr.
    cbn [JS.or_empty]. rewrite Hne. cbn [negb]. rewrite Hne.
    eexists. split; [reflexivity |]. cbn [candidates map cand_parts].
    now destruct (JS.or_empty (SdkClient.content (SdkClient.message choice)) =? "")%string.
  - intros pre inner post Hr Hcontent Hpre Hinner Hne. apply String.eqb_neq in Hne.
    unfold SdkClient.from_response. rewrite Hc, Htc.
    unfold SdkClient.extractReasoningContent. rewrite Hr, Hcontent.
    cbn [JS.or_empty String.eqb negb].
    assert (Hfull : (pre ++ "<thinking>" ++ inner ++ "</thinking>" ++ post =? "")%string
                    = false)
      by (apply String.eqb_neq; destruct pre; discriminate).
    rewrite Hfull. cbn [negb].
    rewrite sdk_extract_first_pattern by assumption. rewrite Hne.
    eexists. split; [reflexivity |]. cbn [candidates map cand_parts].
    now destruct (JS.trim (pre ++ post) =? "")%string.
Qed.

Lemma reasoning_field_has_priority_witness :
  (exists r,
      SdkClient.from_response ToolArguments.parse_object
        (SdkClient.mkChatCompletion
           [SdkClient.mkChoice
              (SdkClient.mkWireMessage (Some " <thinking>x</thinking> 4 ")
                 (Some "two and two") None)
              "stop"]
           None)
      = inl r
      /\ map cand_parts (candidates r)
         = [[PThinking "two and two"; PText " <thinking>x</thinking> 4 "]])
  /\ (exists r,
         SdkClient.from_response ToolArguments.parse_object
           (SdkClient.mkChatCompletion
              [SdkClient.mkChoice
                 (SdkClient.mkWireMessage (Some " <thinking> x </thinking> 4 ") None None)
                 "stop"]
              None)
         = inl r
         /\ map cand_parts (candidates r) = [[PThinking "x"; PText "4"]]).
Proof.
  split.
  - destruct (proj1 (reasoning_field_has_priority ToolArguments.parse_object
                       (SdkClient.mkChatCompletion
                          [SdkClient.mkChoice
                             (SdkClient.mkWireMessage (Some " <thinking>x</thinking> 4 ")
                                (Some "two and two") None)
                             "stop"]
                          None)
                       _ [] eq_refl eq_refl)
                "two and two" eq_refl ltac:(discriminate))
      as (r & Hr & Hp).
    exists r. split; [exact Hr | exact Hp].
  - destruct (proj2 (reasoning_field_has_priority ToolArguments.parse_object
                       (SdkClient.mkChatCompletion
                          [SdkClient.mkChoice
                             (SdkClient.mkWireMessage (Some " <thinking> x </thinking> 4 ")
                                None None)
                             "stop"]
                          None)
                       _ [] eq_refl eq_refl)
                " " " x " " 4 " eq_refl eq_refl eq_refl eq_refl ltac:(discriminate))
      as (r & Hr & Hp).
    exists r. split; [exact Hr | exact Hp].
Defined.

(** X26.  When the wire choice carries tool calls the response holds
    function-call parts only: whatever text the message has is dropped,
    and the [functionCalls] field lists the same calls as the parts, in
    the same order. *)
Theorem tool_call_response_has_calls_only :
  forall (JSON_parse : string -> option Json) (response : SdkClient.ChatCompletion)
         (choice : SdkClient.Choice) (rest : list SdkClient.Choice)
         (tc : SdkClient.ToolCall) (tcs : list SdkClient.ToolCall),
    SdkClient.choices response = choice :: rest ->
    SdkClient.tool_calls (SdkClient.message choice) = Some (tc :: tcs) ->
    exists r c calls,
      SdkClient.from_response JSON_parse response = inl r
      /\ candidates r = [c]
      /\ functionCalls r = Some calls
      /\ cand_parts c = map PFunctionCall calls
      /\ map fc_name calls
         = map (fun call => SdkClient.name (SdkClient.function call)) (tc :: tcs)
      /\ Forall (fun p => part_text p = None) (cand_parts c).
Proof.
  intros P response choice rest tc tcs Hc Htc.
  unfold SdkClient.from_response. rewrite Hc, Htc.
  do 3 eexists. split; [reflexivity |]. split; [reflexivity |].
  split; [reflexivity |]. cbn [cand_parts]. split; [| split].
  - now rewrite map_map.
  - now rewrite map_map.
  - apply Forall_forall. intros p Hp. apply in_map_iff in Hp.
    now destruct Hp as (call & <- & _).
Qed.

Lemma tool_call_response_has_calls_only_witness :
  exists r c,
    SdkClient.from_response ToolArguments.parse_object
      (SdkClient.mkChatCompletion
         [SdkClient.mkChoice
            (SdkClient.mkWireMessage (Some "I will list the files.") None
               (Some [SdkClient.mkToolCall "call_1"
                        (SdkClient.mkToolCallFunction "list_directory" "{}")]))
            "tool_calls"]
         None)
    = inl r
    /\ candidates r = [c]
    /\ cand_parts c = [PFunctionCall (mkFunctionCall "list_directory" empty_object)].
Proof.
  destruct (tool_call_response_has_calls_only ToolArguments.parse_object
              (SdkClient.mkChatCompletion
                 [SdkClient.mkChoice
                    (SdkClient.mkWireMessage (Some "I will list the files.") None
                       (Some [SdkClient.mkToolCall "call_1"
                                (SdkClient.mkToolCallFunction "list_directory" "{}")]))
                    "tool_calls"]
                 None)
              _ [] _ _ eq_refl eq_refl)
    as (r & c & calls & Hr & Hc & _ & Hp & _).
  exists r, c. split; [exact Hr |]. split; [exact Hc |].
  revert Hr Hc Hp. cbn. intros Hr. injection Hr as <-. cbn.
  intros Hc. injection Hc as <-. cbn. reflexivity.
Defined.

(** ** The client built on the OpenAI library: requests *)

Section SdkRequestFacts.

Import JS SdkRequest.

Lemma startsWith_append_r (p s b : string) :
  startsWith p s = true -> startsWith p (s ++ b) = true.
Proof.
  revert s. induction p as [|c p IH]; intros s H; [reflexivity |].
  destruct s as [|d s]; simpl in *; [discriminate |].
  apply andb_true_iff in H. destruct H as [H1 H2].
  now rewrite H1, (IH _ H2).
Qed.

Lemma includes_append_r (p a b : string) :
  includes p b = true -> includes p (a ++ b) = true.
Proof.
  intros H. induction a as [|c a IH]; [exact H |].
  change (String c a ++ b) with (String c (a ++ b)).
  simpl includes. rewrite IH. apply orb_true_r.
Qed.

Lemma includes_append_l (p a b : string) :
  includes p a = true -> includes p (a ++ b) = true.
Proof.
  induction a as [|c a IH]; intros H.
  - destruct p; [now destruct b | discriminate].
  - change (String c a ++ b) with (String c (a ++ b)).
    simpl includes in *. apply orb_true_iff in H. destruct H as [H | H].
    + change (String c (a ++ b)) with (String c a ++ b).
      now rewrite (startsWith_append_r _ _ b H).
    + rewrite (IH H). apply orb_true_r.
Qed.

Lemma includes_prefix (p s : string) : includes p (p ++ s) = true.
Proof.
  pose proof (startsWith_append p s) as H.
  destruct (p ++ s); simpl includes; now rewrite H.
Qed.

Lemma includes_join (p sep x : string) (l : list string) :
  In x l -> includes p x = true -> includes p (join sep l) = true.
Proof.
  intros Hin Hx. induction l as [|y l IH]; [contradiction |].
  destruct Hin as [-> | Hin].
  - destruct l as [|z l]; [exact Hx |].
    change (join sep (x :: z :: l)) with (x ++ sep ++ join sep (z :: l)).
    now apply includes_append_l.
  - destruct l as [|z l]; [contradiction |].
    change (join sep (y :: z :: l)) with (y ++ sep ++ join sep (z :: l)).
    do 2 apply includes_append_r. now apply IH.
Qed.

Lemma includes_prompt (doubao : bool) (p d : string) :
  includes p d = true ->
  includes p (if doubao then doubao_prompt d else standard_prompt d) = true.
Proof.
  intros H. destruct doubao; unfold doubao_prompt, standard_prompt;
    do 5 apply includes_append_r; now apply includes_append_l.
Qed.

Variable JSON_stringify : Json -> string.
Variable now : nat -> nat.

Lemma part_messages_sendable (role : string) (k : nat) (part : Part) :
  List.length (fst (part_messages JSON_stringify now role k part))
  = if sendable part then 1 else 0.
Proof.
  destruct part as [t | t | call | response |]; cbn; try reflexivity;
    now destruct (t =? "")%string.
Qed.

Lemma parts_messages_length (role : string) (ps : list Part) :
  forall k,
    List.length (fst (parts_messages JSON_stringify now role k ps))
    = List.length (filter sendable ps).
Proof.
  induction ps as [|part ps IH]; intros k; [reflexivity |].
  cbn [parts_messages filter].
  pose proof (part_messages_sendable role k part) as Hp.
  destruct (part_messages JSON_stringify now role k part) as [ms k'].
  specialize (IH k').
  destruct (parts_messages JSON_stringify now role k' ps) as [ms' k''].
  cbn [fst] in *. rewrite length_app, Hp, IH.
  now destruct (sendable part).
Qed.

End SdkRequestFacts.

Section SdkMessagesFacts.

Import JS SdkRequest.

Variable JSON_stringify : Json -> string.
Variable now : nat -> nat.

Lemma parts_messages_ok (role : string) (ps : list Part) :
  role <> "model" ->
  forall k, Forall text_message_ok (fst (parts_messages JSON_stringify now role k ps)).
Proof.
  intros Hrole. induction ps as [|part ps IH]; intros k; [constructor |].
  cbn [parts_messages].
  assert (Hp : Forall text_message_ok (fst (part_messages JSON_stringify now role k part))).
  { destruct part as [t | t | call | response |]; cbn; repeat constructor;
      destruct (String.eqb_spec t ""); repeat constructor; assumption. }
  destruct (part_messages JSON_stringify now role k part) as [ms k'].
  specialize (IH k').
  destruct (parts_messages JSON_stringify now role k' ps) as [ms' k''].
  cbn [fst] in *. apply Forall_app. now split.
Qed.

Lemma contents_messages_facts (items : list ContentItem) :
  forall k,
    Forall text_message_ok (fst (contents_messages JSON_stringify now k items))
    /\ List.length (fst (contents_messages JSON_stringify now k items))
       = List.length (sent_parts items).
Proof.
  induction items as [|item items IH]; intros k; [split; [constructor | reflexivity] |].
  cbn [contents_messages sent_parts flat_map].
  assert (Hi : forall ms k',
    (match item with
     | ItemContent c =>
         match role c with
         | Some r => parts_messages JSON_stringify now (FetchClient.wire_role r) k (parts c)
         | None => ([], k)
         end
     | _ => ([], k)
     end) = (ms, k') ->
    Forall text_message_ok ms
    /\ List.length ms
       = List.length
           (match item with
            | ItemContent c =>
                match role c with
                | Some _ => filter sendable (parts c)
                | None => []
                end
            | _ => []
            end)).
  { intros ms k' H.
    destruct item as [s | c | p]; try (injection H as <- <-; split; [constructor | reflexivity]).
    destruct (role c) as [r |]; [| injection H as <- <-; split; [constructor | reflexivity]].
    pose proof (parts_messages_ok (FetchClient.wire_role r) (parts c)
                  (wire_role_not_model r) k) as Hok.
    pose proof (parts_messages_length JSON_stringify now (FetchClient.wire_role r)
                  (parts c) k) as Hlen.
    rewrite H in Hok, Hlen. now split. }
  destruct (match item with
            | ItemContent c =>
                match role c with
                | Some r =>
                    parts_messages JSON_stringify now (FetchClient.wire_role r) k (parts c)
                | None => ([], k)
                end
            | _ => ([], k)
            end) as [ms k'] eqn:E.
  destruct (Hi ms k' eq_refl) as [Hok Hlen].
  destruct (IH k') as [IHok IHlen].
  destruct (contents_messages JSON_stringify now k' items) as [ms' k''].
  cbn [fst] in *. split; [apply Forall_app; now split |].
  now rewrite !length_app, Hlen, IHlen.
Qed.

End SdkMessagesFacts.

(** X27.  The chat messages of the client built on the OpenAI library:
    every function call, every function response and every non-empty text
    of the contents that have a role gives exactly one message, and
    nothing else gives any; no message with a text has an empty text or
    the role [model]. *)
Theorem sdk_messages_invariant :
  forall (JSON_stringify : Json -> string) (now : nat -> nat)
         (items : list ContentItem),
    List.length (SdkRequest.to_messages JSON_stringify now items)
    = List.length (SdkRequest.sent_parts items)
    /\ Forall SdkRequest.text_message_ok
         (SdkRequest.to_messages JSON_stringify now items).
Proof.
  intros S now items. unfold SdkRequest.to_messages.
  destruct (contents_messages_facts S now items 0) as [Hok Hlen]. now split.
Qed.

(** X28.  The options sent to the backend hold tools exactly when the
    request declares at least one function.  Then one system message is
    put before the translated messages, and it names every tool and gives
    its description; the tool choice is [auto], or [required] for Doubao,
    which needs [AI_PROVIDER] to be [doubao].  Without declarations the
    messages are the translated ones alone and no tool key is set. *)
Theorem system_message_with_tools :
  forall (JSON_stringify : Json -> string) (now : nat -> nat) (env : Models.Env)
         (c : ModelConfig) (request : SdkRequest.Request),
    let options := SdkRequest.request_options JSON_stringify now env c request in
    let wire_tools := SdkRequest.tools_to_wire (SdkRequest.config_tools request) in
    let messages :=
      SdkRequest.to_messages JSON_stringify now
        (contents (SdkRequest.parameters request)) in
    (wire_tools = [] ->
     SdkRequest.ro_messages options = messages
     /\ SdkRequest.ro_tools options = None
     /\ SdkRequest.ro_tool_choice options = None
     /\ SdkRequest.ro_response_format options = None)
    /\ (wire_tools <> [] ->
        exists text,
          SdkRequest.ro_messages options = SdkRequest.TextMessage "system" text :: messages
          /\ SdkRequest.ro_tools options = Some wire_tools
          /\ SdkRequest.ro_tool_choice options
             = Some (if SdkRequest.isDoubao env c then "required" else "auto")
          /\ Forall
               (fun tool =>
                  JS.includes (SdkRequest.wt_name tool) text = true
                  /\ JS.includes (SdkRequest.wt_description tool) text = true)
               wire_tools)
    /\ (SdkRequest.ro_tool_choice options = Some "required" ->
        env "AI_PROVIDER" = Some "doubao").
Proof.
  intros S now env c request options wire_tools messages.
  subst options. unfold SdkRequest.request_options. fold wire_tools messages.
  cbn [SdkRequest.ro_messages SdkRequest.ro_tools SdkRequest.ro_tool_choice
       SdkRequest.ro_response_format].
  split; [| split].
  - intros ->. cbn. repeat split.
  - intros Hne. destruct wire_tools as [|t ts] eqn:Ew; [congruence |].
    cbn [List.length Nat.eqb negb]. eexists. split; [reflexivity |].
    split; [reflexivity |]. split; [reflexivity |].
    rewrite <- Ew. apply Forall_forall. intros tool Hin.
    split; apply includes_prompt; unfold SdkRequest.tool_descriptions;
      apply (includes_join _ _ (SdkRequest.tool_description S tool));
      try (apply in_map; exact Hin); unfold SdkRequest.tool_description.
    + apply includes_prefix.
    + do 2 apply includes_append_r. apply includes_prefix.
  - destruct (negb (Nat.eqb (List.length wire_tools) 0)); [| discriminate].
    unfold SdkRequest.isDoubao. destruct (baseUrl c) as [url |]; [| discriminate].
    destruct (env "AI_PROVIDER") as [v |]; [| rewrite andb_false_r; discriminate].
    destruct (String.eqb_spec v "doubao") as [-> | _];
      [reflexivity | rewrite andb_false_r; discriminate].
Qed.

Lemma system_message_with_tools_witness :
  let request :=
    SdkRequest.mkRequest
      (mkParameters [ItemContent (mkContent (Some "user") [PText "list the files"])]
         (Some (mkConfig None None None)))
      (Some [SdkRequest.mkTool
               (Some [SdkRequest.mkDeclaration (Some "list_directory")
                        (Some "Lists a directory") None])]) in
  let options :=
    SdkRequest.request_options (fun _ => "{}") (fun _ => 0) (Models.env_of [])
      (mkModelConfig OPENAI "gpt-4o" "k" (Some "https://api.openai.com/v1") false None)
      request in
  SdkRequest.ro_tool_choice options = Some "auto"
  /\ List.length (SdkRequest.ro_messages options) = 2.
Proof.
  intros request options.
  destruct (proj1 (proj2 (system_message_with_tools (fun _ => "{}") (fun _ => 0)
                            (Models.env_of [])
                            (mkModelConfig OPENAI "gpt-4o" "k"
                               (Some "https://api.openai.com/v1") false None)
                            request))
              ltac:(discriminate))
    as (text & Hm & _ & Hc & _).
  split; [exact Hc |].
  unfold options. now rewrite Hm.
Defined.
